(** * Zendesk -> Shopify order-note sync: a shallow embedding of [scipt.py]

    The script is Python: values are dynamically typed, text is a sequence of
    Unicode code points, and the pipeline talks to two HTTP services and to
    the process (stdout, stderr, [sys.exit]).  The embedding keeps all of
    that visible:

    - text is [pystr], a list of code points;
    - JSON / Python values are [pyval]; an operation applied to a value of
      the wrong type raises, as it does in Python;
    - effectful functions live in the monad [M]: they thread the trace of
      events performed so far (lines printed, requests made) and finish
      with [Return], [Exit] (what [sys.exit] does) or [Raise] (an uncaught
      exception);
    - what the script gets from outside (the Unicode database behind [\d]
      and [\b], the parser of timestamps, the clock, the local time zone,
      the two HTTP services, the environment variables, the command line)
      are Variables of the section [Script].

    Layout: the data and the library functions the script calls; a concrete
    environment for the worked runs; the script, function by function, with
    the line numbers of the source; the vocabulary of the properties; the
    properties; the timestamps as CPython 3.11 parses them; the worked
    runs. *)

From Stdlib Require Import List ZArith NArith Bool Lia String Ascii.
From Stdlib Require Import Numbers.DecimalString.
Import ListNotations.

#[local] Set Warnings "-register-all".

Local Open Scope Z_scope.
Local Open Scope list_scope.

(** ** Text *)

(** A Python [str]: its code points, in order. *)
Definition pystr := list N.

(** A literal of the source, written as a Rocq string (ASCII only). *)
Definition py (s : string) : pystr := map N_of_ascii (list_ascii_of_string s).
Arguments py s : simpl never.

(** The newline character of the source's ["\n"]. *)
Definition NL : N := 10%N.

Fixpoint pystr_eqb (a b : pystr) : bool :=
  match a, b with
  | [], [] => true
  | x :: a', y :: b' => N.eqb x y && pystr_eqb a' b'
  | _, _ => false
  end.

(** [str.isspace] on one code point: CPython's [Py_UNICODE_ISSPACE]; it is
    the set [str.strip()] and [str.rstrip()] remove when called without an
    argument. *)
Definition isspace (c : N) : bool :=
  ((9 <=? c) && (c <=? 13) || (28 <=? c) && (c <=? 32)
   || (c =? 133) || (c =? 160) || (c =? 5760)
   || (8192 <=? c) && (c <=? 8202)
   || (c =? 8232) || (c =? 8233) || (c =? 8239) || (c =? 8287)
   || (c =? 12288))%N.

(** [s.lstrip()] *)
Fixpoint lstrip (s : pystr) : pystr :=
  match s with
  | [] => []
  | c :: s' => if isspace c then lstrip s' else s
  end.

(** [s.rstrip()]: drop the longest all-whitespace suffix. *)
Fixpoint rstrip (s : pystr) : pystr :=
  match s with
  | [] => []
  | c :: s' =>
      match rstrip s' with
      | [] => if isspace c then [] else [c]
      | r => c :: r
      end
  end.

(** [s.strip()] *)
Definition strip (s : pystr) : pystr := rstrip (lstrip s).

(** [s.replace(old, new)] for a one-character [old], as in
    [created_at.replace("Z", "+00:00")]. *)
Fixpoint replace_char (old : N) (new : pystr) (s : pystr) : pystr :=
  match s with
  | [] => []
  | c :: s' => if N.eqb c old then new ++ replace_char old new s'
               else c :: replace_char old new s'
  end.

(** [str(n)] for an [int]. *)
Definition str_of_Z (n : Z) : pystr := py (NilZero.string_of_int (Z.to_int n)).

(** ** Python values *)

(** What [resp.json()] can hand to the script, and what the script passes
    around: [None], booleans, integers, strings, lists and dicts.  A dict is
    kept as its items; a key is looked up from the left.  (JSON numbers
    with a fraction are not modelled.) *)
Inductive pyval :=
| VNone
| VBool (b : bool)
| VInt (n : Z)
| VStr (s : pystr)
| VList (l : list pyval)
| VDict (d : list (pystr * pyval)).

(** Truth value of an object, as [if x], [not x] and [x or y] test it. *)
Definition truthy (v : pyval) : bool :=
  match v with
  | VNone => false
  | VBool b => b
  | VInt n => negb (n =? 0)
  | VStr s => match s with [] => false | _ => true end
  | VList l => match l with [] => false | _ => true end
  | VDict d => match d with [] => false | _ => true end
  end.

Fixpoint lookup (k : pystr) (d : list (pystr * pyval)) : option pyval :=
  match d with
  | [] => None
  | (k', v) :: d' => if pystr_eqb k k' then Some v else lookup k d'
  end.

(** [x or y] *)
Definition py_or (x y : pyval) : pyval := if truthy x then x else y.

(** The exceptions the script can die of. *)
Inductive exn :=
| AttributeError | TypeError | KeyError | IndexError | ValueError
| OverflowError | OSError | JSONDecodeError | RequestException.

(** ** Dates and times: the part of [datetime] the script uses *)

(** A [datetime.datetime].  [tzinfo] is the UTC offset of an aware value in
    microseconds ([Some 0] is [timezone.utc]); [None] is a naive value. *)
Record datetime := mk_datetime {
  year : Z; month : Z; day : Z;
  hour : Z; minute : Z; second : Z; microsecond : Z;
  tzinfo : option Z
}.

Definition MINYEAR : Z := 1.
Definition MAXYEAR : Z := 9999.

Definition is_leap (y : Z) : bool :=
  (y mod 4 =? 0) && (negb (y mod 100 =? 0) || (y mod 400 =? 0)).

Definition days_in_month (y m : Z) : Z :=
  if m =? 2 then (if is_leap y then 29 else 28)
  else if (m =? 4) || (m =? 6) || (m =? 9) || (m =? 11) then 30
  else 31.

(** Days in the year before the first day of month [m]. *)
Definition days_before_month (y m : Z) : Z :=
  (if m =? 1 then 0 else if m =? 2 then 31 else if m =? 3 then 59
   else if m =? 4 then 90 else if m =? 5 then 120 else if m =? 6 then 151
   else if m =? 7 then 181 else if m =? 8 then 212 else if m =? 9 then 243
   else if m =? 10 then 273 else if m =? 11 then 304 else 334)
  + (if (2 <? m) && is_leap y then 1 else 0).

(** Days before January 1st of year [y]. *)
Definition days_before_year (y : Z) : Z :=
  let y' := y - 1 in y' * 365 + y' / 4 - y' / 100 + y' / 400.

(** Day number of a date; 0001-01-01 is day 1. *)
Definition ymd2ord (y m d : Z) : Z :=
  days_before_year y + days_before_month y m + d.

(** The date of a day number: CPython's [_ord2ymd]. *)
Definition ord2ymd (n : Z) : Z * Z * Z :=
  let n := n - 1 in
  let n400 := n / 146097 in let n := n mod 146097 in
  let n100 := n / 36524 in let n := n mod 36524 in
  let n4 := n / 1461 in let n := n mod 1461 in
  let n1 := n / 365 in let n := n mod 365 in
  let y := n400 * 400 + 1 + n100 * 100 + n4 * 4 + n1 in
  if (n1 =? 4) || (n100 =? 4) then (y - 1, 12, 31)
  else
    let leapyear := (n1 =? 3) && (negb (n4 =? 24) || (n100 =? 3)) in
    let m := Z.shiftr (n + 50) 5 in
    let preceding := days_before_month 1 m
                     + (if (2 <? m) && leapyear then 1 else 0) in
    if n <? preceding
    then let m' := m - 1 in
         let preceding' := preceding
              - (days_in_month 1 m' + (if (m' =? 2) && leapyear then 1 else 0)) in
         (y, m', n - preceding' + 1)
    else (y, m, n - preceding + 1).

Definition US_PER_DAY : Z := 86400 * 1000000.

(** What [datetime(y, m, d, hh, mi, ss, us)] accepts; outside it raises
    [ValueError]. *)
Definition valid_fields (y m d hh mi ss us : Z) : bool :=
  (MINYEAR <=? y) && (y <=? MAXYEAR) && (1 <=? m) && (m <=? 12)
  && (1 <=? d) && (d <=? days_in_month y m)
  && (0 <=? hh) && (hh <=? 23) && (0 <=? mi) && (mi <=? 59)
  && (0 <=? ss) && (ss <=? 59) && (0 <=? us) && (us <=? 999999).

Definition valid_datetime (dt : datetime) : bool :=
  valid_fields (year dt) (month dt) (day dt)
               (hour dt) (minute dt) (second dt) (microsecond dt).

(** Microseconds from 0001-01-01T00:00 to the wall-clock reading of [dt]. *)
Definition to_microseconds (dt : datetime) : Z :=
  (ymd2ord (year dt) (month dt) (day dt) - 1) * US_PER_DAY
  + ((hour dt * 3600 + minute dt * 60 + second dt) * 1000000 + microsecond dt).

(** [dt - timedelta(microseconds=off)] relabelled as UTC; [OverflowError]
    ("date value out of range") when the year leaves MINYEAR..MAXYEAR. *)
Definition shift_to_utc (dt : datetime) (off : Z) : option datetime :=
  let t := to_microseconds dt - off in
  let days := t / US_PER_DAY in
  let us := t mod US_PER_DAY in
  if (0 <=? days) && (days <? 3652059)
  then let '(y, m, d) := ord2ymd (days + 1) in
       let s := us / 1000000 in
       Some (mk_datetime y m d (s / 3600) (s mod 3600 / 60) (s mod 60)
                         (us mod 1000000) (Some 0))
  else None.

(** *** [datetime.fromisoformat]

    What the method accepts changed with the interpreter: up to Python
    3.10 the output of [isoformat()] only, from 3.11 on most of ISO 8601.
    The script reaches it through the section variable [fromisoformat]
    below, so that what is proved of the script holds whatever the
    interpreter accepts.  Where a result is about one particular text
    (the example of the specification, Zendesk's timestamps) it is about
    the function of this part: the parser of CPython 3.11, which works on
    the UTF-8 encoding of the text, byte by byte, with its quirks (a
    character after a two-digit field is looked at before the end of the
    field is checked; what follows a fraction is skipped when an offset
    comes after it; a fraction is cut to six digits; an offset of less
    than a second is UTC).  [None] stands for the exception raised
    ([ValueError], whatever the cause) on a text that is not accepted. *)

Definition ascii_digit (c : N) : bool := ((48 <=? c) && (c <=? 57))%N.

(** A code point of the surrogate range has no UTF-8 encoding. *)
Definition is_surrogate (c : N) : bool := ((55296 <=? c) && (c <=? 57343))%N.

Definition encodable (c : N) : bool :=
  negb (is_surrogate c) && (c <? 1114112)%N.

Definition utf8_char (c : N) : list N :=
  (if c <? 128 then [c]
   else if c <? 2048 then [192 + c / 64; 128 + c mod 64]
   else if c <? 65536 then
     [224 + c / 4096; 128 + (c / 64) mod 64; 128 + c mod 64]
   else [240 + c / 262144; 128 + (c / 4096) mod 64; 128 + (c / 64) mod 64;
         128 + c mod 64])%N.

(** [PyUnicode_AsUTF8AndSize] *)
Definition utf8 (s : pystr) : option (list N) :=
  if forallb encodable s then Some (flat_map utf8_char s) else None.

(** The parser reads a C string: a position is the list of the bytes from
    there on, and reading at the end gives the terminating 0. *)
Definition peek (p : list N) : N := hd 0%N p.

(** [parse_digits]: exactly [num_digits] ASCII digits, their value and the
    position after them. *)
Fixpoint parse_digits_from (acc : Z) (num_digits : nat) (p : list N)
  : option (Z * list N) :=
  match num_digits with
  | O => Some (acc, p)
  | S k =>
      if ascii_digit (peek p)
      then parse_digits_from (acc * 10 + Z.of_N (peek p - 48)) k (tl p)
      else None
  end.

Definition parse_digits (p : list N) (num_digits : nat)
  : option (Z * list N) :=
  parse_digits_from 0 num_digits p.

(** The number a run of digits writes. *)
Definition value_of (ds : list N) : Z :=
  fold_left (fun acc c => acc * 10 + Z.of_N (c - 48)) ds 0.

(** What the loop of [parse_hh_mm_ss_ff] does after a two-digit field. *)
Inductive after_field :=
| Stop (more : bool)                (* return: 1 if the string goes on *)
| Next (p : list N) (n : Z)         (* continue with the next field *)
| Fraction (p : list N) (n : Z)     (* break: a fraction follows *)
| Malformed.                        (* return -4 *)

(** [p] is the position after the field and [n] the number of bytes from
    there to the end of the component.  The character at [p] is read
    first, and only then is the end checked. *)
Definition after_two_digits (has_separator : bool) (p : list N) (n : Z)
  : after_field :=
  let c := peek p in
  if n - 1 <=? 0 then Stop (negb (c =? 0)%N)
  else if has_separator && (c =? 58)%N then Next (tl p) (n - 1)
  else if (c =? 46)%N || (c =? 44)%N then Fraction (tl p) (n - 1)
  else if negb has_separator then Next p n
  else Malformed.

Fixpoint skip_digits (p : list N) : list N :=
  match p with
  | c :: p' => if ascii_digit c then skip_digits p' else p
  | [] => []
  end.

(** The fraction: up to six digits are read and scaled to microseconds,
    further digits are skipped. *)
Definition parse_fraction (p : list N) (n : Z) : option (Z * bool) :=
  let to_parse := if 6 <=? n then 6 else n in
  match parse_digits p (Z.to_nat to_parse) with
  | None => None
  | Some (v, p') =>
      let us := if to_parse <? 6 then v * 10 ^ (6 - to_parse) else v in
      Some (us, negb (peek (skip_digits p') =? 0)%N)
  end.

Definition with_fraction (hh mi ss : Z) (p : list N) (n : Z)
  : option (Z * Z * Z * Z * bool) :=
  match parse_fraction p n with
  | Some (us, more) => Some (hh, mi, ss, us, more)
  | None => None
  end.

(** [parse_hh_mm_ss_ff]: HH[:MM[:SS[.f+]]] or HH[MM[SS[.f+]]] in the [n]
    bytes from [p].  The flag of the result says that the string did not
    end where the parse did. *)
Definition parse_hh_mm_ss_ff (p : list N) (n : Z)
  : option (Z * Z * Z * Z * bool) :=
  match parse_digits p 2 with
  | None => None
  | Some (hh, p1) =>
  let has_separator := (peek p1 =? 58)%N in
  match after_two_digits has_separator p1 (n - 2) with
  | Stop more => Some (hh, 0, 0, 0, more)
  | Malformed => None
  | Fraction q m => with_fraction hh 0 0 q m
  | Next q m =>
  match parse_digits q 2 with
  | None => None
  | Some (mi, p2) =>
  match after_two_digits has_separator p2 (m - 2) with
  | Stop more => Some (hh, mi, 0, 0, more)
  | Malformed => None
  | Fraction q m => with_fraction hh mi 0 q m
  | Next q m =>
  match parse_digits q 2 with
  | None => None
  | Some (ss, p3) =>
  match after_two_digits has_separator p3 (m - 2) with
  | Stop more => Some (hh, mi, ss, 0, more)
  | Malformed => None
  | Fraction q m | Next q m => with_fraction hh mi ss q m
  end end end end end end.

(** Z, + or -: where the offset starts. *)
Definition is_tz_mark (c : N) : bool := ((c =? 90) || (c =? 43) || (c =? 45))%N.

Fixpoint tz_position (t : list N) : nat :=
  match t with
  | [] => 0
  | c :: t' => if is_tz_mark c then 0 else S (tz_position t')
  end.

(** [parse_isoformat_time]: the time and, if there is one, the offset in
    seconds and its microseconds. *)
Definition parse_isoformat_time (t : list N)
  : option (Z * Z * Z * Z * option (Z * Z)) :=
  let len := List.length t in
  let k := tz_position t in
  let time_end := if Nat.eqb len 0 then 1%nat else k in
  match parse_hh_mm_ss_ff t (Z.of_nat time_end) with
  | None => None
  | Some (hh, mi, ss, us, more) =>
      if Nat.eqb k len then
        if more then None else Some (hh, mi, ss, us, None)
      else
        let mark := nth k t 0%N in
        if (mark =? 90)%N then
          if (nth (S k) t 0 =? 0)%N then Some (hh, mi, ss, us, Some (0, 0))
          else None
        else
          let sign := if (mark =? 45)%N then -1 else 1 in
          match parse_hh_mm_ss_ff (skipn (S k) t) (Z.of_nat (len - S k)) with
          | None => None
          | Some (th, tm, ts, tus, more') =>
              if more' then None
              else Some (hh, mi, ss, us,
                         Some (sign * (th * 3600 + tm * 60 + ts), sign * tus))
          end
  end.

(** Monday is 0. *)
Definition weekday (y m d : Z) : Z := (ymd2ord y m d + 6) mod 7.

(** The day number of the Monday of ISO week 1. *)
Definition iso_week1_monday (y : Z) : Z :=
  let first_day := ymd2ord y 1 1 in
  let first_weekday := (first_day + 6) mod 7 in
  let week1_monday := first_day - first_weekday in
  if 3 <? first_weekday then week1_monday + 7 else week1_monday.

(** [iso_to_ymd].  In year 0 every week date is before 0001-01-01; the C
    routine then computes a month below 1, which the constructor refuses:
    the text is not accepted. *)
Definition iso_to_ymd (iso_year iso_week iso_day : Z) : option (Z * Z * Z) :=
  if iso_year <? 1 then None
  else
    let out_of_range :=
      ((iso_week <=? 0) || (53 <=? iso_week))
      && negb ((iso_week =? 53)
               && (let first_weekday := weekday iso_year 1 1 in
                   (first_weekday =? 3)
                   || ((first_weekday =? 2) && is_leap iso_year))) in
    if out_of_range then None
    else if (iso_day <=? 0) || (8 <=? iso_day) then None
    else Some (ord2ymd (iso_week1_monday iso_year
                        + ((iso_week - 1) * 7 + iso_day - 1))).

(** [parse_isoformat_date]: YYYY-MM-DD, YYYYMMDD, or a week date
    YYYY-Www[-D], YYYYWww[D]; [len] is where the separator was found. *)
Definition parse_isoformat_date (b : list N) (len : nat) : option (Z * Z * Z) :=
  match parse_digits b 4 with
  | None => None
  | Some (year, p) =>
  let uses_separator := (peek p =? 45)%N in
  let p := if uses_separator then tl p else p in
  let pos := if uses_separator then 5%nat else 4%nat in
  if (peek p =? 87)%N then
    match parse_digits (tl p) 2 with
    | None => None
    | Some (iso_week, p2) =>
        if (pos + 3 <? len)%nat then
          if uses_separator && negb (peek p2 =? 45)%N then None
          else
            match parse_digits (if uses_separator then tl p2 else p2) 1 with
            | None => None
            | Some (iso_day, _) => iso_to_ymd year iso_week iso_day
            end
        else iso_to_ymd year iso_week 1
    end
  else
    match parse_digits p 2 with
    | None => None
    | Some (month, p2) =>
        if uses_separator && negb (peek p2 =? 45)%N then None
        else
          match parse_digits (if uses_separator then tl p2 else p2) 2 with
          | None => None
          | Some (day, _) => Some (year, month, day)
          end
    end
  end.

Fixpoint count_digits (p : list N) : nat :=
  match p with
  | c :: p' => if ascii_digit c then S (count_digits p') else O
  | [] => O
  end.

Definition byte_at (b : list N) (i : nat) : N := nth i b 0%N.

(** [_find_isoformat_datetime_separator]: where the date ends, from the
    characters at 4 and 5 and, for a week date, from what follows. *)
Definition find_isoformat_datetime_separator (b : list N) : option nat :=
  let len := List.length b in
  if Nat.eqb len 7 then Some 7%nat
  else if (byte_at b 4 =? 45)%N then
    if (byte_at b 5 =? 87)%N then
      if (len <? 8)%nat then None
      else if (8 <? len)%nat && (byte_at b 8 =? 45)%N then
        if Nat.eqb len 9 then None
        else if (10 <? len)%nat && ascii_digit (byte_at b 10) then Some 8%nat
        else Some 10%nat
      else Some 8%nat
    else Some 10%nat
  else if (byte_at b 4 =? 87)%N then
    let idx := (7 + count_digits (skipn 7 b))%nat in
    if (idx <? 9)%nat then Some idx
    else if Nat.even idx then Some 7%nat else Some 8%nat
  else Some 8%nat.

Fixpoint set_nth (i : nat) (c : N) (s : pystr) : pystr :=
  match s, i with
  | [], _ => []
  | _ :: s', O => c :: s'
  | x :: s', S i' => x :: set_nth i' c s'
  end.

(** [_sanitize_isoformat_str]: a text of fewer than seven characters is
    refused; a surrogate where a separator can be (the first of the
    positions 7, 8 and 10 that holds one) is replaced by T. *)
Definition sanitize_isoformat_str (s : pystr) : option pystr :=
  let len := List.length s in
  if (len <? 7)%nat then None
  else
    let surrogate_at pos := (pos <=? len)%nat && is_surrogate (nth pos s 0%N) in
    Some (if surrogate_at 7%nat then set_nth 7 84%N s
          else if surrogate_at 8%nat then set_nth 8 84%N s
          else if surrogate_at 10%nat then set_nth 10 84%N s
          else s).

(** The bytes of the separator, from its first byte. *)
Definition separator_width (b0 : N) : nat :=
  if (N.land b0 128 =? 0)%N then 1%nat
  else
    let hi := N.land b0 240 in
    if (hi =? 224)%N then 3%nat else if (hi =? 240)%N then 4%nat else 2%nat.

(** [tzinfo_from_isoformat_results]: no offset is a naive value; an offset
    of zero seconds is [timezone.utc] whatever its microseconds;
    [timezone(...)] wants any other strictly between minus and plus 24
    hours.  The result is in microseconds. *)
Definition tzinfo_from_isoformat_results (tz : option (Z * Z))
  : option (option Z) :=
  match tz with
  | None => Some None
  | Some (tzoffset, tz_useconds) =>
      if tzoffset =? 0 then Some (Some 0)
      else
        let off := tzoffset * 1000000 + tz_useconds in
        if (- US_PER_DAY <? off) && (off <? US_PER_DAY) then Some (Some off)
        else None
  end.

Definition datetime_fromisoformat (s : pystr) : option datetime :=
  match sanitize_isoformat_str s with
  | None => None
  | Some clean =>
  match utf8 clean with
  | None => None
  | Some b =>
  match find_isoformat_datetime_separator b with
  | None => None
  | Some sep =>
  match parse_isoformat_date b sep with
  | None => None
  | Some (y, m, d) =>
  let time :=
    if (sep <? List.length b)%nat then
      let p := skipn sep b in
      parse_isoformat_time (skipn (separator_width (peek p)) p)
    else Some (0, 0, 0, 0, None) in
  match time with
  | None => None
  | Some (hh, mi, ss, us, tz) =>
  match tzinfo_from_isoformat_results tz with
  | None => None
  | Some tzinfo =>
      if valid_fields y m d hh mi ss us
      then Some (mk_datetime y m d hh mi ss us tzinfo) else None
  end end end end end end.

(** [s.zfill(w)] for a run of digits. *)
Definition zfill (w : nat) (s : pystr) : pystr :=
  repeat 48%N (w - List.length s) ++ s.

(** A run of exactly [k] ASCII digits. *)
Definition digitsb (k : nat) (s : pystr) : bool :=
  Nat.eqb (List.length s) k && forallb ascii_digit s.

(** The text has the shape YYYY-MM-DD HH:MM UTC. *)
Definition timestamp_shape (s : pystr) : bool :=
  match s with
  | [y1; y2; y3; y4; a; m1; m2; b; d1; d2; c; h1; h2; e; i1; i2; f; g; h; i] =>
      forallb ascii_digit [y1; y2; y3; y4; m1; m2; d1; d2; h1; h2; i1; i2]
      && pystr_eqb [a; b; c; e; f; g; h; i] (py "-- : UTC")
  | _ => false
  end.

(** The fields [strftime_note] prints are those of a date and a time. *)
Definition fields_in_range (dt : datetime) : Prop :=
  1 <= year dt <= 9999 /\ 1 <= month dt <= 12 /\ 1 <= day dt <= 31
  /\ 0 <= hour dt <= 23 /\ 0 <= minute dt <= 59.

(** ** Effects *)

(** One call of [requests.request]. *)
Record request := mk_request {
  req_method : pystr;
  req_url : pystr;
  req_auth : option (pystr * pystr);
  req_headers : list (pystr * pystr);
  req_json : option pyval;
  req_params : option pyval
}.

(** What comes back: [json] is [None] when [resp.json()] would raise. *)
Record response := mk_response {
  status_code : Z;
  text : pystr;
  json : option pyval
}.

(** [resp.ok]: the status is not a 4xx or 5xx one. *)
Definition ok (r : response) : bool :=
  negb ((400 <=? status_code r) && (status_code r <? 600)).

(** What the script does to the outside, in the order it does it. *)
Inductive event :=
| Stdout (line : pystr)      (* print(line) *)
| Stderr (line : pystr)      (* print(line, file=sys.stderr) *)
| Http (r : request).        (* requests.request(...) *)

Definition trace := list event.

(** How a call ends: it returns, the process exits ([sys.exit]), or an
    exception propagates. *)
Inductive outcome (A : Type) :=
| Return (a : A)
| Exit (code : Z)
| Raise (e : exn).
Arguments Return {A} a.
Arguments Exit {A} code.
Arguments Raise {A} e.

(** An effectful computation: from the trace so far to an outcome and the
    trace extended by what it did. *)
Definition M (A : Type) : Type := trace -> outcome A * trace.

Definition ret {A} (a : A) : M A := fun tr => (Return a, tr).

Definition bind {A B} (m : M A) (f : A -> M B) : M B :=
  fun tr =>
    match m tr with
    | (Return a, tr') => f a tr'
    | (Exit c, tr') => (Exit c, tr')
    | (Raise e, tr') => (Raise e, tr')
    end.

Definition raise {A} (e : exn) : M A := fun tr => (Raise e, tr).

Declare Scope py_scope.
Delimit Scope py_scope with py.
Notation "x <- m ;; k" := (bind m (fun x => k))
  (at level 100, m at next level, right associativity) : py_scope.
Notation "m ;;; k" := (bind m (fun _ => k))
  (at level 100, right associativity) : py_scope.
Local Open Scope py_scope.

(** [print(line)] *)
Definition print (line : pystr) : M unit :=
  fun tr => (Return tt, tr ++ [Stdout line]).

(** [sys.exit(code)] *)
Definition sys_exit {A} (code : Z) : M A := fun tr => (Exit code, tr).

(** Lines 50-52: [fail(msg)], with the default [code=1] every call site
    uses; it never returns. *)
Definition fail {A} (msg : pystr) : M A :=
  fun tr => (Exit 1, tr ++ [Stderr (py "[ERROR] " ++ msg)]).

(** [obj.get(key, default)]: only a dict has the method. *)
Definition py_get (obj : pyval) (key : pystr) (default : pyval) : M pyval :=
  match obj with
  | VDict d => ret (match lookup key d with Some v => v | None => default end)
  | _ => raise AttributeError
  end.

(** [obj[key]] for a string key. *)
Definition py_getitem (obj : pyval) (key : pystr) : M pyval :=
  match obj with
  | VDict d => match lookup key d with Some v => ret v | None => raise KeyError end
  | _ => raise TypeError
  end.

(** [obj[0]] *)
Definition py_getitem0 (obj : pyval) : M pyval :=
  match obj with
  | VList (x :: _) => ret x
  | VStr (c :: _) => ret (VStr [c])
  | VList [] | VStr [] => raise IndexError
  | VDict _ => raise KeyError
  | _ => raise TypeError
  end.

(** The items a [for] loop over [obj] visits. *)
Definition py_iter (obj : pyval) : M (list pyval) :=
  match obj with
  | VList l => ret l
  | VDict d => ret (map (fun kv => VStr (fst kv)) d)
  | VStr s => ret (map (fun c => VStr [c]) s)
  | _ => raise TypeError
  end.

(** [obj.strip()]: a method of [str]. *)
Definition py_strip (obj : pyval) : M pystr :=
  match obj with
  | VStr s => ret (strip s)
  | _ => raise AttributeError
  end.

(** [resp.json()] *)
Definition resp_json (r : response) : M pyval :=
  match json r with
  | Some v => ret v
  | None => raise JSONDecodeError
  end.

(** ** A concrete environment

    Used by the worked runs at the end of the file: the Unicode tables cut
    down to ASCII (where they agree with the full ones), the parser of
    CPython 3.11, a fixed clock, a UTC local zone, and services that answer
    from a script, the k-th reply to the k-th request. *)

(** [\d] and [str.isalnum] on ASCII. *)
Definition ascii_isdecimal : N -> bool := ascii_digit.

Definition ascii_isalnum (c : N) : bool :=
  (ascii_digit c || (65 <=? c) && (c <=? 90) || (97 <=? c) && (c <=? 122))%N.

(** A stand-in for [repr]; no run below formats a list or a dict. *)
Definition sample_repr (v : pyval) : pystr := py "<object>".

(** The clock reads 2026-11-03 09:05 UTC. *)
Definition sample_now : datetime := mk_datetime 2026 11 3 9 5 0 0 (Some 0).

(** The machine's [strftime] does not pad the year. *)
Definition sample_year_padded : bool := false.

(** The machine's zone is UTC.  Looking up the zone of a naive time
    probes the day before it, which for a time on 0001-01-01 is in year 0. *)
Definition sample_local_utcoffset (dt : datetime) : Z + exn :=
  if ymd2ord (year dt) (month dt) (day dt) =? 1 then inr ValueError
  else inl 0.

Definition is_http (e : event) : bool :=
  match e with Http _ => true | _ => false end.

(** Services that give the k-th reply of a script to the k-th request, and
    fail to connect once the script is used up. *)
Definition scripted (replies : list response) (tr : trace) (r : request)
  : option response :=
  nth_error replies (List.length (filter is_http tr)).

(** A 200 reply with a JSON body. *)
Definition reply (v : pyval) : response := mk_response 200 [] (Some v).

Definition sample_ticket : pyval := VStr (py "123456").

(** Comments of a ticket, newest first in the lists below. *)
Definition public_comment : pyval :=
  VDict [(py "id", VInt 3); (py "public", VBool true);
         (py "body", VStr (py "Thanks, all sorted!"))].

Definition private_comment : pyval :=
  VDict [(py "id", VInt 2); (py "public", VBool false);
         (py "author_id", VInt 77);
         (py "created_at", VStr (py "2024-03-01T15:04:00Z"));
         (py "body", VStr (py "  Refund agreed for A273302  "))].

Definition older_private_comment : pyval :=
  VDict [(py "id", VInt 1); (py "public", VBool false);
         (py "author_id", VInt 78);
         (py "created_at", VStr (py "2024-02-28T10:00:00Z"));
         (py "body", VStr (py "See A111111"))].

Definition blank_private_comment : pyval :=
  VDict [(py "id", VInt 4); (py "public", VBool false);
         (py "author_id", VInt 77);
         (py "body", VStr (py "   "))].

(** A record whose flag is JSON null. *)
Definition null_flag_comment : pyval :=
  VDict [(py "id", VInt 5); (py "public", VNone);
         (py "author_id", VInt 77);
         (py "body", VStr (py "Call back about A273302"))].

Definition comments_reply (comments : list pyval) : response :=
  reply (VDict [(py "comments", VList comments)]).

Definition user_reply : response :=
  reply (VDict [(py "user", VDict [(py "id", VInt 77);
                                   (py "name", VStr (py "Dana"))])]).

Definition orders_reply (orders : list pyval) : response :=
  reply (VDict [(py "orders", VList orders)]).

Definition sample_order (note : pyval) : list (pystr * pyval) :=
  [(py "id", VInt 5001); (py "name", VStr (py "A273302")); (py "note", note)].

(** The block built from [private_comment] by the agent Dana. *)
Definition sample_block : pystr :=
  py "#123456 | Dana | 2024-03-01 15:04 UTC" ++ [NL; NL]
  ++ py "Refund agreed for A273302" ++ [NL; NL] ++ py "---" ++ [NL].

Definition three_comments : list pyval :=
  [public_comment; private_comment; older_private_comment].

(** The command line of a run on ticket 123456. *)
Definition sample_argv : list pystr := [py "sync.py"; py "123456"].

(** A reply that is not a success. *)
Definition not_found_reply : response :=
  mk_response 404 (py "Not Found") None.

(** ** Regular expressions: the fragment [re.search] is used with

    The script's only pattern is [\bA\d{6}\b]: a sequence of atoms, each of
    which consumes one character or none.  There is no alternation and no
    variable repetition, so matching at a start position is deterministic
    and [re.search] is the first start position, left to right, at which the
    whole sequence matches. *)
Inductive atom :=
| Boundary          (* \b *)
| Lit (c : N)       (* a literal character *)
| Digit.            (* \d *)

Section Script.

(** The Unicode database as Python's [re] consults it for a [str] pattern:
    [isdecimal c] is "c has category Nd" (what [\d] matches), [isalnum] is
    [str.isalnum] ([\w] is [isalnum] or underscore). *)
Variable isdecimal : N -> bool.
Variable isalnum : N -> bool.

(** [\w] *)
Definition isword (c : N) : bool := isalnum c || N.eqb c 95.

(** The character next to a position counts as a non-word character when
    the position is an end of the string. *)
Definition isword_opt (c : option N) : bool :=
  match c with Some x => isword x | None => false end.

(** Match the atoms at the current position; [prev] is the character just
    before it (if any).  The result is the text matched. *)
Fixpoint match_atoms (p : list atom) (prev : option N) (rest : pystr)
  : option pystr :=
  match p with
  | [] => Some []
  | Boundary :: p' =>
      if xorb (isword_opt prev) (isword_opt (hd_error rest))
      then match_atoms p' prev rest else None
  | Lit c :: p' =>
      match rest with
      | x :: r => if N.eqb x c
                  then option_map (cons x) (match_atoms p' (Some x) r)
                  else None
      | [] => None
      end
  | Digit :: p' =>
      match rest with
      | x :: r => if isdecimal x
                  then option_map (cons x) (match_atoms p' (Some x) r)
                  else None
      | [] => None
      end
  end.

(** Try the start positions from the current one to the end of the text. *)
Fixpoint search_from (p : list atom) (prev : option N) (rest : pystr)
  : option pystr :=
  match match_atoms p prev rest with
  | Some m => Some m
  | None =>
      match rest with
      | [] => None
      | x :: r => search_from p (Some x) r
      end
  end.

(** [re.search(p, text)], giving [match.group(0)]. *)
Definition re_search (p : list atom) (text : pystr) : option pystr :=
  search_from p None text.

(** r"\bA\d{6}\b" *)
Definition ORDER_NAME_RE : list atom :=
  [Boundary; Lit 65%N] ++ repeat Digit 6 ++ [Boundary].

(** ** The script *)

(** [repr] of a list or a dict, which an f-string shows for such a value
    (it depends on the Unicode database through [str.isprintable]). *)
Variable py_repr : pyval -> pystr.

(** [datetime.fromisoformat] of the interpreter the script runs on:
    the value parsed, or [None] when it raises. *)
Variable fromisoformat : pystr -> option datetime.

(** [datetime.now(timezone.utc)], an aware UTC value. *)
Variable utc_now : datetime.

(** What [astimezone] finds when it looks up the machine's zone for a
    naive local time: the UTC offset there, in microseconds, or the
    exception the lookup ends with ([OSError] or [OverflowError] from the
    C library; [ValueError] when the search leaves the years 1 to 9999,
    which it does for every time on 0001-01-01, as it probes the day
    before). *)
Variable local_utcoffset : datetime -> Z + exn.

(** Whether the platform's [strftime] pads [%Y] with zeros to four digits,
    as the library reference shows it, or prints a year below 1000 as it
    is, as the C library of Linux does. *)
Variable year_padded : bool.

(** The two services: the reply to a request made after the given trace,
    [None] when [requests.request] raises. *)
Variable server : trace -> request -> option response.

(** Lines 37-45: the configuration read from the environment. *)
Variable ZENDESK_SUBDOMAIN : pystr.
Variable ZENDESK_EMAIL : pystr.
Variable ZENDESK_API_TOKEN : pystr.
Variable SHOPIFY_STORE : pystr.
Variable SHOPIFY_ADMIN_TOKEN : pystr.
Variable SHOPIFY_API_VERSION : pystr.

(** What [{v}] in an f-string shows. *)
Definition py_format (v : pyval) : pystr :=
  match v with
  | VNone => py "None"
  | VBool true => py "True"
  | VBool false => py "False"
  | VInt n => str_of_Z n
  | VStr s => s
  | VList _ | VDict _ => py_repr v
  end.

(** [requests.request(...)] *)
Definition requests_request (r : request) : M response :=
  fun tr =>
    match server tr r with
    | Some resp => (Return resp, tr ++ [Http r])
    | None => (Raise RequestException, tr ++ [Http r])
    end.

(** Lines 68-73: the call [zendesk_request] makes. *)
Definition zendesk_call (method path : pystr) (params : option pyval)
  : request :=
  let base := py "https://" ++ ZENDESK_SUBDOMAIN ++ py ".zendesk.com/api/v2" in
  let url := base ++ path in
  let auth := (ZENDESK_EMAIL ++ py "/token", ZENDESK_API_TOKEN) in
  let headers := [(py "Content-Type", py "application/json")] in
  mk_request method url (Some auth) headers None params.

(** Lines 67-76. *)
Definition zendesk_request (method path : pystr) (params : option pyval)
  : M pyval :=
  resp <- requests_request (zendesk_call method path params) ;;
  if negb (ok resp)
  then fail (py "Zendesk API " ++ method ++ py " " ++ path ++ py " failed: "
             ++ str_of_Z (status_code resp) ++ py " " ++ text resp)
  else resp_json resp.

(** Lines 80-86: the call [shopify_request] makes. *)
Definition shopify_call (method path : pystr) (json params : option pyval)
  : request :=
  let base := py "https://" ++ SHOPIFY_STORE ++ py ".myshopify.com/admin/api/"
              ++ SHOPIFY_API_VERSION in
  let url := base ++ path in
  let headers := [(py "Content-Type", py "application/json");
                  (py "X-Shopify-Access-Token", SHOPIFY_ADMIN_TOKEN)] in
  mk_request method url None headers json params.

(** Lines 79-89. *)
Definition shopify_request (method path : pystr) (json params : option pyval)
  : M pyval :=
  resp <- requests_request (shopify_call method path json params) ;;
  if negb (ok resp)
  then fail (py "Shopify API " ++ method ++ py " " ++ path ++ py " failed: "
             ++ str_of_Z (status_code resp) ++ py " " ++ text resp)
  else resp_json resp.

(** Lines 100-104: the loop over [comments]. *)
Fixpoint first_private_comment (comments : list pyval) : M (pyval * pyval) :=
  match comments with
  | [] => ret (VNone, VNone)
  | c :: rest =>
      public <- py_get c (py "public") (VBool true) ;;
      if negb (truthy public)
      then created_at <- py_get c (py "created_at") VNone ;;
           ret (c, created_at)
      else first_private_comment rest
  end.

(** Lines 94-104. *)
Definition get_latest_private_comment (ticket_id : pyval) : M (pyval * pyval) :=
  data <- zendesk_request (py "GET")
            (py "/tickets/" ++ py_format ticket_id ++ py "/comments.json")
            (Some (VDict [(py "sort_order", VStr (py "desc"))])) ;;
  comments <- py_get data (py "comments") (VList []) ;;
  items <- py_iter comments ;;
  first_private_comment items.

(** Lines 107-110. *)
Definition get_zendesk_user_name (user_id : pyval) : M pyval :=
  data <- zendesk_request (py "GET")
            (py "/users/" ++ py_format user_id ++ py ".json") None ;;
  user <- py_get data (py "user") (VDict []) ;;
  name <- py_get user (py "name") VNone ;;
  ret (py_or name (VStr (py "User " ++ py_format user_id))).

(** Lines 113-122.  [note_text] is a [str]; the result is the matched text
    or [None]. *)
Definition extract_shopify_order_name (note_text : pystr) : pyval :=
  match re_search ORDER_NAME_RE note_text with
  | None => VNone
  | Some m => VStr m
  end.

(** Lines 125-134. *)
Definition find_shopify_order_by_name (order_name : pyval) : M pyval :=
  data <- shopify_request (py "GET") (py "/orders.json") None
            (Some (VDict [(py "name", order_name)])) ;;
  orders <- py_get data (py "orders") (VList []) ;;
  if negb (truthy orders) then ret VNone
  else py_getitem0 orders.

(** Line 143, the body of the [try]: [None] when it raises, whether in
    [.replace] on something that is not a [str] or in the parser.  A value
    that counts as false is read as the empty text. *)
Definition try_fromisoformat (created_at : pyval) : option datetime :=
  match py_or created_at (VStr []) with
  | VStr s => fromisoformat (replace_char 90%N (py "+00:00") s)
  | _ => None
  end.

(** Lines 142-145: [except Exception] catches whatever was raised. *)
Definition parse_created_at (created_at : pyval) : datetime :=
  match try_fromisoformat created_at with
  | Some dt => dt
  | None => utc_now
  end.

(** [dt.strftime("%Y-%m-%d %H:%M UTC")]: the year, and the other fields
    on two digits, zero padded. *)
Definition strftime_note (dt : datetime) : pystr :=
  (if year_padded then zfill 4 (str_of_Z (year dt)) else str_of_Z (year dt))
  ++ py "-" ++ zfill 2 (str_of_Z (month dt))
  ++ py "-" ++ zfill 2 (str_of_Z (day dt)) ++ py " "
  ++ zfill 2 (str_of_Z (hour dt)) ++ py ":" ++ zfill 2 (str_of_Z (minute dt))
  ++ py " UTC".

(** [dt.astimezone(timezone.utc)].  A value already carrying
    [timezone.utc] is returned as it is; otherwise the offset (the value's
    own, or the one looked up for a naive value) is subtracted, and a
    lookup that raises ends the call. *)
Definition astimezone_utc (dt : datetime) : M datetime :=
  match tzinfo dt with
  | Some 0 => ret dt
  | Some off =>
      match shift_to_utc dt off with
      | Some u => ret u
      | None => raise OverflowError
      end
  | None =>
      match local_utcoffset dt with
      | inr e => raise e
      | inl off =>
          match shift_to_utc dt off with
          | Some u => ret u
          | None => raise OverflowError
          end
      end
  end.

(** Lines 137-150. *)
Definition build_note_block (ticket_id agent_name created_at : pyval)
  (note_body : pystr) : M pystr :=
  let dt := parse_created_at created_at in
  utc <- astimezone_utc dt ;;
  let date_str := strftime_note utc in
  let header := py "#" ++ py_format ticket_id ++ py " | "
                ++ py_format agent_name ++ py " | " ++ date_str in
  let block := header ++ [NL; NL] ++ strip note_body ++ [NL; NL]
               ++ py "---" ++ [NL] in
  ret block.

(** Lines 159-162: the note to write, from the note there is. *)
Definition new_note (existing_note note_block : pystr) : pystr :=
  if truthy (VStr (strip existing_note))
  then rstrip existing_note ++ [NL; NL] ++ note_block
  else note_block.

(** Lines 153-178.  [existing_note.strip()] needs a [str]. *)
Definition append_note_to_shopify_order (order : pyval) (note_block : pystr)
  (dry_run : bool) : M unit :=
  order_id <- py_getitem order (py "id") ;;
  note <- py_get order (py "note") VNone ;;
  let existing_note := py_or note (VStr []) in
  match existing_note with
  | VStr existing =>
      let new_note := new_note existing note_block in
      if dry_run then
        print (py "[DRY RUN] Would update order note:") ;;;
        print (py "================================================") ;;;
        print new_note ;;;
        print (py "================================================")
      else
        let payload :=
          VDict [(py "order", VDict [(py "id", order_id);
                                     (py "note", VStr new_note)])] in
        _ <- shopify_request (py "PUT")
               (py "/orders/" ++ py_format order_id ++ py ".json")
               (Some payload) None ;;
        name <- py_get order (py "name") VNone ;;
        print (py "[OK] Updated Shopify order " ++ py_format name
               ++ py " (ID " ++ py_format order_id ++ py ") note.")
  | _ => raise AttributeError
  end.

(** The arrow of the first log line, U+2192. *)
Definition ARROW : N := 8594%N.

(** Lines 181-213. *)
Definition sync_ticket_to_shopify_note (ticket_id : pyval) (dry_run : bool)
  : M unit :=
  print (py "[INFO] Syncing Zendesk ticket " ++ py_format ticket_id
         ++ py " " ++ [ARROW] ++ py " Shopify order note") ;;;
  cc <- get_latest_private_comment ticket_id ;;
  let '(comment, created_at) := cc in
  if negb (truthy comment)
  then fail (py "No private comments found for ticket " ++ py_format ticket_id)
  else
  body <- py_get comment (py "body") (VStr []) ;;
  note_body <- py_strip body ;;
  if negb (truthy (VStr note_body))
  then fail (py "Latest private comment has empty body")
  else
  author_id <- py_get comment (py "author_id") VNone ;;
  agent_name <- get_zendesk_user_name author_id ;;
  print (py "[INFO] Latest private comment by: " ++ py_format agent_name) ;;;
  let order_name := extract_shopify_order_name note_body in
  if negb (truthy order_name)
  then fail (py "Could not find order name like 'A123456' in the private note")
  else
  print (py "[INFO] Detected Shopify order name: " ++ py_format order_name) ;;;
  order <- find_shopify_order_by_name order_name ;;
  if negb (truthy order)
  then fail (py "Shopify order with name " ++ py_format order_name
             ++ py " not found")
  else
  order_id <- py_getitem order (py "id") ;;
  print (py "[INFO] Found Shopify order ID: " ++ py_format order_id) ;;;
  note_block <- build_note_block ticket_id agent_name created_at note_body ;;
  append_note_to_shopify_order order note_block dry_run.

(** [", ".join(items)] *)
Fixpoint join_comma (items : list pystr) : pystr :=
  match items with
  | [] => []
  | [x] => x
  | x :: rest => x ++ py ", " ++ join_comma rest
  end.

(** Lines 55-64.  [SHOPIFY_API_VERSION] has a default and is not checked. *)
Definition check_config : M unit :=
  let missing :=
    (if truthy (VStr ZENDESK_SUBDOMAIN) then [] else [py "ZENDESK_SUBDOMAIN"])
    ++ (if truthy (VStr ZENDESK_EMAIL) then [] else [py "ZENDESK_EMAIL"])
    ++ (if truthy (VStr ZENDESK_API_TOKEN) then [] else [py "ZENDESK_API_TOKEN"])
    ++ (if truthy (VStr SHOPIFY_STORE) then [] else [py "SHOPIFY_STORE"])
    ++ (if truthy (VStr SHOPIFY_ADMIN_TOKEN) then []
        else [py "SHOPIFY_ADMIN_TOKEN"]) in
  match missing with
  | [] => ret tt
  | _ => fail (py "Missing environment variables: " ++ join_comma missing)
  end.

(** [sys.argv] *)
Variable argv : list pystr.

(** Lines 218-228. *)
Definition main : M unit :=
  check_config ;;;
  match argv with
  | _ :: ticket_id :: flags =>
      let dry_run := existsb (pystr_eqb (py "--dry-run")) flags in
      sync_ticket_to_shopify_note (VStr ticket_id) dry_run
  | _ =>
      print (py "Usage: python zendesk_to_shopify_note_sync.py <ticket_id> [--dry-run]") ;;;
      sys_exit 1
  end.

(** ** Vocabulary of the properties *)

(** The character before position [i] of [text], if there is one. *)
Definition prev_char (text : pystr) (i : nat) : option N :=
  match i with O => None | S j => nth_error text j end.

(** The letter A followed by six decimal digits, and nothing more. *)
Definition order_token (tok : pystr) : bool :=
  match tok with
  | a :: ds => N.eqb a 65 && Nat.eqb (List.length ds) 6 && forallb isdecimal ds
  | [] => false
  end.

(** A token starts here and stands alone: the seven characters from here
    are an order token, and neither the character before nor the one after
    them (where there is one) is a word character. *)
Definition token_here (prev : option N) (rest : pystr) : bool :=
  order_token (firstn 7 rest)
  && negb (isword_opt prev)
  && negb (isword_opt (nth_error rest 7)).

Definition standalone_at (text : pystr) (i : nat) : bool :=
  token_here (prev_char text i) (skipn i text).

(** The token of C1 as first worded: any uppercase ASCII letter and six
    decimal digits, with no alphanumeric character next to it. *)
Definition claimed_token (tok : pystr) : bool :=
  match tok with
  | a :: ds => (65 <=? a)%N && (a <=? 90)%N && Nat.eqb (List.length ds) 6
               && forallb isdecimal ds
  | [] => false
  end.

Definition isalnum_opt (c : option N) : bool :=
  match c with Some x => isalnum x | None => false end.

Definition claimed_standalone_at (text : pystr) (i : nat) : bool :=
  claimed_token (firstn 7 (skipn i text))
  && negb (isalnum_opt (prev_char text i))
  && negb (isalnum_opt (nth_error text (i + 7))).

(** The text is empty or only whitespace. *)
Definition whitespace_only (s : pystr) : bool := forallb isspace s.

(** Line 158 on an order with these items: [order.get("note") or ""]. *)
Definition existing_note (d : list (pystr * pyval)) : pyval :=
  py_or (match lookup (py "note") d with Some v => v | None => VNone end)
        (VStr []).

(** The request of lines 171-177. *)
Definition put_note_request (order_id : pyval) (note : pystr) : request :=
  shopify_call (py "PUT") (py "/orders/" ++ py_format order_id ++ py ".json")
    (Some (VDict [(py "order", VDict [(py "id", order_id);
                                      (py "note", VStr note)])]))
    None.

(** The four lines a dry run prints. *)
Definition dry_run_output (note : pystr) : trace :=
  [Stdout (py "[DRY RUN] Would update order note:");
   Stdout (py "================================================");
   Stdout note;
   Stdout (py "================================================")].

Definition is_put (e : event) : bool :=
  match e with
  | Http r => pystr_eqb (req_method r) (py "PUT")
  | _ => false
  end.

(** How many times the trace writes to the order service. *)
Definition writes (tr : trace) : nat := List.length (filter is_put tr).

(** What a call to either service comes to. *)
Definition request_outcome (service method path : pystr) (req : request)
  (tr : trace) : outcome pyval * trace :=
  match server tr req with
  | None => (Raise RequestException, tr ++ [Http req])
  | Some resp =>
      if ok resp then
        match json resp with
        | Some v => (Return v, tr ++ [Http req])
        | None => (Raise JSONDecodeError, tr ++ [Http req])
        end
      else
        (Exit 1,
         tr ++ [Http req;
                Stderr (py "[ERROR] " ++ service ++ method ++ py " " ++ path
                        ++ py " failed: " ++ str_of_Z (status_code resp)
                        ++ py " " ++ text resp)])
  end.

Fixpoint prefixb (p s : pystr) : bool :=
  match p, s with
  | [], _ => true
  | x :: p', y :: s' => N.eqb x y && prefixb p' s'
  | _ :: _, [] => false
  end.

Definition no_http (evs : trace) : Prop := forall r, ~ In (Http r) evs.

(** The request of line 98. *)
Definition comments_call (ticket_id : pyval) : request :=
  zendesk_call (py "GET")
    (py "/tickets/" ++ py_format ticket_id ++ py "/comments.json")
    (Some (VDict [(py "sort_order", VStr (py "desc"))])).

(** The comment is a record whose public flag is the boolean [b]. *)
Definition flag_is (b : bool) (c : pyval) : bool :=
  match c with
  | VDict d =>
      match lookup (py "public") d with
      | Some (VBool b') => Bool.eqb b b'
      | _ => false
      end
  | _ => false
  end.

(** The comment is a record with no public flag. *)
Definition flag_absent (c : pyval) : bool :=
  match c with
  | VDict d => match lookup (py "public") d with None => true | _ => false end
  | _ => false
  end.

(** [c.get("created_at")] of a record. *)
Definition created_at_of (c : pyval) : pyval :=
  match c with
  | VDict d =>
      match lookup (py "created_at") d with Some v => v | None => VNone end
  | _ => VNone
  end.

(** The service answered the request for the comments with this list. *)
Definition comments_fetched (ticket_id : pyval) (tr : trace)
  (comments : list pyval) : Prop :=
  exists resp data,
    server tr (comments_call ticket_id) = Some resp
    /\ ok resp = true
    /\ json resp = Some (VDict data)
    /\ lookup (py "comments") data = Some (VList comments).

(** The canonical rendering of a note block around a timestamp. *)
Definition note_block_text (ticket_id agent_name : pyval)
  (date_str note_body : pystr) : pystr :=
  py "#" ++ py_format ticket_id ++ py " | " ++ py_format agent_name
  ++ py " | " ++ date_str ++ [NL; NL] ++ strip note_body ++ [NL; NL]
  ++ py "---" ++ [NL].

(** The first line [sync_ticket_to_shopify_note] prints. *)
Definition sync_banner (ticket_id : pyval) : pystr :=
  py "[INFO] Syncing Zendesk ticket " ++ py_format ticket_id
  ++ py " " ++ [ARROW] ++ py " Shopify order note".

(** The text of a comment's body: [comment.get("body", "")] when that is a
    string. *)
Definition comment_body (c : pyval) : option pystr :=
  match c with
  | VDict d =>
      match lookup (py "body") d with
      | None => Some []
      | Some (VStr s) => Some s
      | Some _ => None
      end
  | _ => None
  end.

(** [comment.get("author_id")] *)
Definition comment_author (c : pyval) : pyval :=
  match c with
  | VDict d =>
      match lookup (py "author_id") d with Some v => v | None => VNone end
  | _ => VNone
  end.

(** The request of line 108. *)
Definition user_call (user_id : pyval) : request :=
  zendesk_call (py "GET") (py "/users/" ++ py_format user_id ++ py ".json") None.

(** The request of line 130. *)
Definition orders_call (order_name : pyval) : request :=
  shopify_call (py "GET") (py "/orders.json") None
    (Some (VDict [(py "name", order_name)])).

Definition error_line (msg : pystr) : event := Stderr (py "[ERROR] " ++ msg).

(** Whatever [m] does, it adds at most [n] writes to the trace. *)
Definition writes_at_most (n : nat) {A} (m : M A) : Prop :=
  forall tr out tr',
    m tr = (out, tr') ->
    exists evs, tr' = tr ++ evs /\ (writes evs <= n)%nat.

(** How a call ended, its value apart. *)
Inductive ending :=
| Returned
| Exited (code : Z)
| Raised (e : exn).

Definition ending_of {A} (o : outcome A) : ending :=
  match o with
  | Return _ => Returned
  | Exit c => Exited c
  | Raise e => Raised e
  end.

(** Every run of [m] satisfies [I]: a relation between the trace the run
    starts from, the way it ends and the events it adds. *)
Definition obeys (I : trace -> ending -> trace -> Prop) {A} (m : M A) : Prop :=
  forall tr out tr',
    m tr = (out, tr') ->
    exists evs, tr' = tr ++ evs /\ I tr (ending_of out) evs.

Definition no_stderr (evs : trace) : Prop := forall l, ~ In (Stderr l) evs.

(** The line of line 222. *)
Definition usage_line : pystr :=
  py "Usage: python zendesk_to_shopify_note_sync.py <ticket_id> [--dry-run]".

(** A run that exits does so with status 1, and the last thing it did was
    to write its one line to stderr, an [ERROR] line, or to print the usage
    line; a run that does not exit writes nothing to stderr. *)
Definition exit_discipline (tr : trace) (e : ending) (evs : trace) : Prop :=
  match e with
  | Exited c =>
      c = 1
      /\ exists pre last,
           evs = pre ++ [last] /\ no_stderr pre
           /\ (last = Stdout usage_line \/ exists msg, last = error_line msg)
  | _ => no_stderr evs
  end.

(** The bases of lines 68 and 80. *)
Definition zendesk_base : pystr :=
  py "https://" ++ ZENDESK_SUBDOMAIN ++ py ".zendesk.com/api/v2".

Definition shopify_base : pystr :=
  py "https://" ++ SHOPIFY_STORE ++ py ".myshopify.com/admin/api/"
  ++ SHOPIFY_API_VERSION.

(** The error line for a request that got the reply [resp]: it names the
    service, the method, the path, the status and the body of the reply. *)
Definition failure_report (r : request) (resp : response) (line : event)
  : Prop :=
  exists service path,
    line = error_line (service ++ req_method r ++ py " " ++ path
                       ++ py " failed: " ++ str_of_Z (status_code resp)
                       ++ py " " ++ text resp)
    /\ ((service = py "Zendesk API " /\ req_url r = zendesk_base ++ path)
        \/ (service = py "Shopify API " /\ req_url r = shopify_base ++ path)).

(** A request that fails is the last thing the run does, the report of the
    failure apart: with no reply the run ends at once with the exception of
    [requests]; with a 4xx or 5xx reply it writes the report and exits with
    status 1; with a reply whose body is not JSON it ends at once with the
    decoding error. *)
Definition fail_fast (tr : trace) (e : ending) (evs : trace) : Prop :=
  forall p r q,
    evs = p ++ Http r :: q ->
    match server (tr ++ p) r with
    | None => q = [] /\ e = Raised RequestException
    | Some resp =>
        if ok resp then
          json resp = None -> q = [] /\ e = Raised JSONDecodeError
        else
          e = Exited 1 /\ exists line, q = [line] /\ failure_report r resp line
    end.

(** A request to one of the two configured services, with that service's
    credentials and no other: a GET without a body to Zendesk, under basic
    authentication; or a request to Shopify, with the access-token header
    and no basic authentication, which is a GET without a body or a PUT
    with one. *)
Definition configured_request (r : request) : Prop :=
  (req_method r = py "GET" /\ req_json r = None
   /\ req_auth r = Some (ZENDESK_EMAIL ++ py "/token", ZENDESK_API_TOKEN)
   /\ req_headers r = [(py "Content-Type", py "application/json")]
   /\ prefixb zendesk_base (req_url r) = true)
  \/ (req_auth r = None
      /\ req_headers r = [(py "Content-Type", py "application/json");
                          (py "X-Shopify-Access-Token", SHOPIFY_ADMIN_TOKEN)]
      /\ prefixb shopify_base (req_url r) = true
      /\ ((req_method r = py "GET" /\ req_json r = None)
          \/ (req_method r = py "PUT" /\ req_json r <> None
              /\ req_params r = None))).

Definition only_configured_requests (tr : trace) (e : ending) (evs : trace)
  : Prop :=
  forall r, In (Http r) evs -> configured_request r.

(** The five settings [check_config] asks for, under their names. *)
Definition required_settings : list (pystr * pystr) :=
  [(py "ZENDESK_SUBDOMAIN", ZENDESK_SUBDOMAIN);
   (py "ZENDESK_EMAIL", ZENDESK_EMAIL);
   (py "ZENDESK_API_TOKEN", ZENDESK_API_TOKEN);
   (py "SHOPIFY_STORE", SHOPIFY_STORE);
   (py "SHOPIFY_ADMIN_TOKEN", SHOPIFY_ADMIN_TOKEN)].

Definition is_empty (s : pystr) : bool :=
  match s with [] => true | _ => false end.

(** The names of those that are empty, in that order. *)
Definition missing_settings : list pystr :=
  map fst (filter (fun kv => is_empty (snd kv)) required_settings).

(** The offset [astimezone] takes off: the value's own, or the one of the
    machine's zone for a value that carries none. *)
Definition offset_used (dt : datetime) : option Z :=
  match tzinfo dt with
  | Some off => Some off
  | None => match local_utcoffset dt with inl off => Some off | inr _ => None end
  end.

(** ** Properties *)

(** Two facts of the Unicode database: the letter A is alphanumeric, and so
    is every decimal digit. *)
Hypothesis alnum_A : isalnum 65%N = true.
Hypothesis decimal_alnum : forall c, isdecimal c = true -> isalnum c = true.

(** What [datetime.fromisoformat] returns is a date and a time of the
    calendar: the constructor it ends with checks the fields. *)
Hypothesis fromisoformat_valid : forall s dt,
  fromisoformat s = Some dt -> valid_datetime dt = true.

(** It refuses the empty text. *)
Hypothesis fromisoformat_empty : fromisoformat [] = None.

(** [datetime.now(timezone.utc)] is a date and a time, in UTC, and its
    year has four digits. *)
Hypothesis utc_now_valid : valid_datetime utc_now = true.
Hypothesis utc_now_utc : tzinfo utc_now = Some 0.
Hypothesis utc_now_year : 1000 <= year utc_now.

(** *** The order-name extractor *)

Lemma isword_decimal c : isdecimal c = true -> isword c = true.
Proof. intros H. unfold isword. now rewrite (decimal_alnum c H). Qed.

Lemma isword_A : isword 65%N = true.
Proof. unfold isword. now rewrite alnum_A. Qed.

Lemma match_atoms_order_name prev rest :
  match_atoms ORDER_NAME_RE prev rest
  = if token_here prev rest then Some (firstn 7 rest) else None.
Proof.
  unfold token_here, ORDER_NAME_RE. cbn [repeat app].
  destruct rest as [|a rest].
  { cbn. destruct (isword_opt prev); reflexivity. }
  destruct rest as [|d1 [|d2 [|d3 [|d4 [|d5 [|d6 post]]]]]].
  all: cbn [match_atoms hd_error isword_opt firstn order_token List.length
            forallb nth_error option_map].
  all: destruct (N.eqb_spec a 65) as [->|];
    [rewrite ?isword_A | cbn; destruct (xorb _ _); reflexivity].
  all: repeat match goal with
         | |- context [isdecimal ?d] =>
             let E := fresh "E" in destruct (isdecimal d) eqn:E
         end.
  all: try rewrite (isword_decimal d6) by assumption.
  all: try (destruct post; cbn [hd_error nth_error isword_opt]).
  all: repeat match goal with
         | |- context [isword ?d] => destruct (isword d)
         end.
  all: destruct (isword_opt prev); cbn; try reflexivity.
Qed.

Lemma token_here_short prev rest :
  (List.length rest < 7)%nat -> token_here prev rest = false.
Proof.
  intros H. unfold token_here.
  destruct rest as [|a [|d1 [|d2 [|d3 [|d4 [|d5 [|d6 post]]]]]]];
    cbn in H |- *; try lia;
    rewrite ?andb_false_r; reflexivity.
Qed.

Lemma skipn_app_length (pre rest : pystr) k :
  skipn (List.length pre + k) (pre ++ rest) = skipn k rest.
Proof. induction pre; cbn; auto. Qed.

Lemma prev_char_snoc (pre : pystr) x r :
  prev_char (pre ++ x :: r) (S (List.length pre)) = Some x.
Proof. cbn. induction pre; cbn; auto. Qed.

(** The scan of [re.search], from any position of the text. *)
Lemma search_from_order_name rest : forall pre,
  match search_from ORDER_NAME_RE (prev_char (pre ++ rest) (List.length pre)) rest with
  | Some m =>
      exists k, standalone_at (pre ++ rest) (List.length pre + k) = true
                /\ m = firstn 7 (skipn k rest)
                /\ forall j, (j < k)%nat ->
                     standalone_at (pre ++ rest) (List.length pre + j) = false
  | None =>
      forall k, standalone_at (pre ++ rest) (List.length pre + k) = false
  end.
Proof.
  induction rest as [|x r IH]; intros pre.
  - cbn [search_from]. rewrite match_atoms_order_name.
    rewrite token_here_short by (cbn; lia).
    intros k. unfold standalone_at. apply token_here_short.
    rewrite length_skipn, length_app. cbn. lia.
  - cbn [search_from]. rewrite match_atoms_order_name.
    destruct (token_here _ (x :: r)) eqn:E.
    + exists 0%nat. rewrite Nat.add_0_r. repeat split.
      * unfold standalone_at.
        replace (List.length pre) with (List.length pre + 0)%nat at 2 by lia.
        now rewrite skipn_app_length.
      * intros j Hj. lia.
    + specialize (IH (pre ++ [x])).
      rewrite <- app_assoc in IH. cbn [app] in IH.
      rewrite length_app in IH. cbn [List.length] in IH.
      rewrite Nat.add_1_r in IH. rewrite prev_char_snoc in IH.
      destruct (search_from ORDER_NAME_RE (Some x) r) as [m|].
      * destruct IH as (k & Hk & Hm & Hlt).
        exists (S k). rewrite Nat.add_succ_r. repeat split; auto.
        intros [|j] Hj.
        -- rewrite Nat.add_0_r. unfold standalone_at.
           replace (List.length pre) with (List.length pre + 0)%nat at 2 by lia.
           now rewrite skipn_app_length.
        -- rewrite Nat.add_succ_r. apply Hlt. lia.
      * intros [|k].
        -- rewrite Nat.add_0_r. unfold standalone_at.
           replace (List.length pre) with (List.length pre + 0)%nat at 2 by lia.
           now rewrite skipn_app_length.
        -- rewrite Nat.add_succ_r. apply IH.
Qed.

Lemma extract_search (note_text : pystr) :
  match extract_shopify_order_name note_text with
  | VStr tok =>
      exists i, standalone_at note_text i = true
                /\ tok = firstn 7 (skipn i note_text)
                /\ forall j, (j < i)%nat -> standalone_at note_text j = false
  | VNone => forall i, standalone_at note_text i = false
  | _ => False
  end.
Proof.
  unfold extract_shopify_order_name, re_search.
  pose proof (search_from_order_name note_text []) as H.
  cbn [app List.length prev_char Nat.add] in H.
  destruct (search_from ORDER_NAME_RE None note_text); exact H.
Qed.

(** C1 (as amended): [extract_shopify_order_name] returns the leftmost
    standalone token made of the letter A and exactly six decimal digits,
    a token being standalone when no word character (alphanumeric or
    underscore) touches it, and it returns [None] exactly when the text has
    no such token.  In particular a text with such a token yields the
    leftmost one. *)
Theorem extract_leftmost_standalone_token (note_text : pystr) :
  (extract_shopify_order_name note_text = VNone
   <-> forall i, standalone_at note_text i = false)
  /\ (forall tok,
       extract_shopify_order_name note_text = VStr tok
       <-> exists i, standalone_at note_text i = true
                     /\ tok = firstn 7 (skipn i note_text)
                     /\ forall j, (j < i)%nat ->
                          standalone_at note_text j = false)
  /\ (forall i, standalone_at note_text i = true ->
       exists tok, extract_shopify_order_name note_text = VStr tok
                   /\ order_token tok = true).
Proof.
  pose proof (extract_search note_text) as H.
  assert (U : forall i i',
             standalone_at note_text i = true ->
             (forall j, (j < i)%nat -> standalone_at note_text j = false) ->
             standalone_at note_text i' = true ->
             (forall j, (j < i')%nat -> standalone_at note_text j = false) ->
             i = i').
  { intros i i' Hi Li Hi' Li'.
    destruct (Nat.lt_trichotomy i i') as [L|[E|L]]; auto.
    - rewrite (Li' i L) in Hi. discriminate.
    - rewrite (Li i' L) in Hi'. discriminate. }
  destruct (extract_shopify_order_name note_text) as [| | |tok| |];
    try contradiction.
  - repeat split; auto; try discriminate.
    + intros (i & Hi & _). rewrite H in Hi. discriminate.
    + intros i Hi. rewrite H in Hi. discriminate.
  - destruct H as (i & Hi & Htok & Hlt). repeat split; try discriminate.
    + intros Hall. rewrite Hall in Hi. discriminate.
    + intros E. injection E as <-. exists i. auto.
    + intros (i' & Hi' & Htok' & Hlt').
      rewrite (U i i') in Htok by auto. congruence.
    + intros _ _. exists tok. split; auto.
      unfold standalone_at, token_here in Hi.
      apply andb_prop in Hi as [Hi _]. apply andb_prop in Hi as [Hi _].
      now rewrite Htok.
Qed.

(** *** Merging the block into the order's note *)

Lemma forallb_isspace_lstrip s :
  forallb isspace (lstrip s) = forallb isspace s.
Proof.
  induction s as [|c s IH]; cbn; auto.
  destruct (isspace c) eqn:E; cbn; auto. now rewrite E.
Qed.

Lemma rstrip_nil_iff s : rstrip s = [] <-> forallb isspace s = true.
Proof.
  induction s as [|c s IH]; cbn.
  - split; auto.
  - destruct (rstrip s) as [|x r].
    + assert (forallb isspace s = true) as -> by now apply IH.
      destruct (isspace c); cbn; split; auto; discriminate.
    + destruct (forallb isspace s).
      * assert (x :: r = []) by now apply IH. discriminate.
      * rewrite andb_false_r. split; discriminate.
Qed.

Lemma strip_nil_iff s : strip s = [] <-> whitespace_only s = true.
Proof.
  unfold strip, whitespace_only.
  rewrite rstrip_nil_iff. now rewrite forallb_isspace_lstrip.
Qed.

Lemma truthy_strip s : truthy (VStr (strip s)) = negb (whitespace_only s).
Proof.
  destruct (whitespace_only s) eqn:E.
  - apply strip_nil_iff in E. now rewrite E.
  - destruct (strip s) eqn:F; auto.
    apply strip_nil_iff in F. congruence.
Qed.

(** [rstrip] removes a whitespace suffix and nothing else. *)
Lemma rstrip_suffix s :
  exists ws, s = rstrip s ++ ws /\ whitespace_only ws = true.
Proof.
  unfold whitespace_only.
  induction s as [|c s (ws & E & W)]; cbn.
  - exists []. auto.
  - destruct (rstrip s) as [|x r] eqn:R.
    + cbn in E. subst ws. destruct (isspace c) eqn:C.
      * exists (c :: s). cbn. rewrite C, W. auto.
      * exists s. auto.
    + exists ws. split; auto. cbn. f_equal. exact E.
Qed.

(** What [rstrip] leaves ends with a character that is not whitespace. *)
Lemma rstrip_last s :
  rstrip s <> [] ->
  exists body c, rstrip s = body ++ [c] /\ isspace c = false.
Proof.
  induction s as [|c s IH]; cbn; intros H.
  - congruence.
  - destruct (rstrip s) as [|x r] eqn:R.
    + destruct (isspace c) eqn:C; [congruence|].
      exists [], c. auto.
    + destruct IH as (body & l & E & L); [discriminate|].
      exists (c :: body), l. rewrite E. auto.
Qed.

Lemma new_note_spec existing note_block :
  new_note existing note_block
  = if whitespace_only existing then note_block
    else rstrip existing ++ [NL; NL] ++ note_block.
Proof.
  unfold new_note. rewrite truthy_strip.
  now destruct (whitespace_only existing).
Qed.

(** A dry run: four lines on stdout, nothing else. *)
Lemma append_dry_run d order_id existing note_block tr :
  lookup (py "id") d = Some order_id ->
  existing_note d = VStr existing ->
  append_note_to_shopify_order (VDict d) note_block true tr
  = (Return tt, tr ++ dry_run_output (new_note existing note_block)).
Proof.
  intros Hid Hn. unfold existing_note in Hn.
  unfold append_note_to_shopify_order, py_getitem, py_get, bind, ret.
  rewrite Hid. rewrite Hn.
  unfold print, dry_run_output. cbn.
  now rewrite <- !app_assoc.
Qed.

Lemma zendesk_request_run method path params tr :
  zendesk_request method path params tr
  = request_outcome (py "Zendesk API ") method path
      (zendesk_call method path params) tr.
Proof.
  unfold zendesk_request, request_outcome, requests_request, bind.
  destruct (server tr _) as [resp|]; auto.
  destruct (ok resp); cbn [negb].
  - unfold resp_json. now destruct (json resp).
  - unfold fail. now rewrite <- app_assoc.
Qed.

Lemma shopify_request_run method path body params tr :
  shopify_request method path body params tr
  = request_outcome (py "Shopify API ") method path
      (shopify_call method path body params) tr.
Proof.
  unfold shopify_request, request_outcome, requests_request, bind.
  destruct (server tr _) as [resp|]; auto.
  destruct (ok resp); cbn [negb].
  - unfold resp_json. now destruct (json resp).
  - unfold fail. now rewrite <- app_assoc.
Qed.

(** A real run: one PUT, carrying the same note, and then what the reply
    makes of it. *)
Lemma append_real_run d order_id existing note_block tr :
  lookup (py "id") d = Some order_id ->
  existing_note d = VStr existing ->
  let req := put_note_request order_id (new_note existing note_block) in
  append_note_to_shopify_order (VDict d) note_block false tr
  = match request_outcome (py "Shopify API ") (py "PUT")
            (py "/orders/" ++ py_format order_id ++ py ".json") req tr with
    | (Return _, tr') =>
        (Return tt,
         tr' ++ [Stdout (py "[OK] Updated Shopify order "
                         ++ py_format (match lookup (py "name") d with
                                       | Some v => v | None => VNone end)
                         ++ py " (ID " ++ py_format order_id
                         ++ py ") note.")])
    | (Exit c, tr') => (Exit c, tr')
    | (Raise e, tr') => (Raise e, tr')
    end.
Proof.
  intros Hid Hn req. unfold existing_note in Hn.
  unfold append_note_to_shopify_order, py_getitem, py_get.
  unfold bind at 1. unfold ret at 1. rewrite Hid.
  unfold bind at 1. unfold ret at 1. rewrite Hn.
  unfold bind at 1. rewrite shopify_request_run.
  fold (put_note_request order_id (new_note existing note_block)). fold req.
  destruct (request_outcome _ _ _ req tr) as [[v|c|e] tr']; auto.
Qed.

(** Whatever the order is, the call either raises before doing anything
    or the order is a dict with an id and a textual note. *)
Lemma append_cases order note_block dry_run tr :
  (exists e, append_note_to_shopify_order order note_block dry_run tr
             = (Raise e, tr))
  \/ (exists d order_id existing,
        order = VDict d /\ lookup (py "id") d = Some order_id
        /\ existing_note d = VStr existing).
Proof.
  destruct order as [| | | | |d]; try (left; eexists; reflexivity).
  destruct (lookup (py "id") d) as [order_id|] eqn:Hid.
  - destruct (existing_note d) as [| | |existing| |] eqn:Hn.
    4: { right. exists d, order_id, existing. auto. }
    all: left; unfold existing_note in Hn;
      unfold append_note_to_shopify_order, py_getitem, py_get, bind, ret;
      rewrite Hid, Hn; eexists; reflexivity.
  - left. unfold append_note_to_shopify_order, py_getitem, bind.
    rewrite Hid. eexists; reflexivity.
Qed.

Lemma request_outcome_trace service method path req tr out tr' :
  request_outcome service method path req tr = (out, tr') ->
  (tr' = tr ++ [Http req] /\ (forall c, out <> Exit c))
  \/ (exists line, tr' = tr ++ [Http req; Stderr line] /\ out = Exit 1).
Proof.
  unfold request_outcome. intros H.
  destruct (server tr req) as [resp|].
  - destruct (ok resp).
    + destruct (json resp); injection H as <- <-; left; split; auto;
        discriminate.
    + injection H as <- <-. right. eexists; eauto.
  - injection H as <- <-. left; split; auto; discriminate.
Qed.

(** C3: the order's existing note being the text [existing] (the empty
    text when the order has no note), the note that
    [append_note_to_shopify_order] computes is the block itself when
    [existing] is empty or only whitespace, and otherwise [existing] with
    its trailing whitespace stripped, a blank line and the block.  That
    note is what a dry run prints and what a real run sends.  An existing
    note of "" gives the block unchanged; "Prior note\n" gives
    "Prior note\n\n<block>". *)
Theorem append_note_merge d order_id existing note_block tr :
  lookup (py "id") d = Some order_id ->
  existing_note d = VStr existing ->
  let merged := if whitespace_only existing then note_block
                else rstrip existing ++ [NL; NL] ++ note_block in
  append_note_to_shopify_order (VDict d) note_block true tr
  = (Return tt, tr ++ dry_run_output merged)
  /\ (exists out rest,
        append_note_to_shopify_order (VDict d) note_block false tr
        = (out, tr ++ Http (put_note_request order_id merged) :: rest))
  /\ new_note [] note_block = note_block
  /\ new_note (py "Prior note" ++ [NL]) note_block
     = py "Prior note" ++ [NL; NL] ++ note_block.
Proof.
  intros Hid Hn merged.
  assert (Hm : new_note existing note_block = merged) by apply new_note_spec.
  repeat split.
  - rewrite (append_dry_run d order_id existing) by assumption. now rewrite Hm.
  - rewrite (append_real_run d order_id existing) by assumption.
    rewrite Hm.
    destruct (request_outcome _ _ _ _ tr) as [out tr'] eqn:E.
    apply request_outcome_trace in E as [[-> Hout]|(line & -> & ->)].
    + destruct out as [v|c|e]; rewrite <- ?app_assoc;
        eexists _, _; reflexivity.
    + eexists _, _. reflexivity.
Qed.

Lemma prefixb_app p s : prefixb p (p ++ s) = true.
Proof. induction p; cbn; auto. now rewrite N.eqb_refl. Qed.

(** C4 (as amended): when the existing note is not empty or all
    whitespace, the new note keeps it verbatim up to its trailing
    whitespace: the existing note is [kept] followed by whitespace only,
    [kept] ends with a character that is not whitespace, and the new note
    is [kept], exactly one blank line, and the block. *)
Theorem append_keeps_stripped_note d order_id existing note_block tr :
  lookup (py "id") d = Some order_id ->
  existing_note d = VStr existing ->
  whitespace_only existing = false ->
  exists kept ws body c,
    existing = kept ++ ws /\ whitespace_only ws = true
    /\ kept = body ++ [c] /\ isspace c = false
    /\ prefixb kept (new_note existing note_block) = true
    /\ new_note existing note_block = kept ++ [NL; NL] ++ note_block
    /\ append_note_to_shopify_order (VDict d) note_block true tr
       = (Return tt, tr ++ dry_run_output (kept ++ [NL; NL] ++ note_block)).
Proof.
  intros Hid Hn Hw.
  destruct (rstrip_suffix existing) as (ws & E & W).
  destruct (rstrip_last existing) as (body & c & B & C).
  { intros R. apply rstrip_nil_iff in R. unfold whitespace_only in Hw.
    congruence. }
  assert (Hm : new_note existing note_block
               = rstrip existing ++ [NL; NL] ++ note_block).
  { rewrite new_note_spec. now rewrite Hw. }
  exists (rstrip existing), ws, body, c. repeat split; auto.
  - rewrite Hm. apply prefixb_app.
  - rewrite (append_dry_run d order_id existing) by assumption.
    now rewrite Hm.
Qed.

(** C7: a dry run of [append_note_to_shopify_order] makes no request at
    all; the note it prints is the one a real run sends, both being
    [new_note] of the same inputs; and a real run that returns has made
    exactly one request, the PUT of the order. *)
Theorem dry_run_never_writes order note_block tr :
  (forall out tr',
      append_note_to_shopify_order order note_block true tr = (out, tr') ->
      exists evs, tr' = tr ++ evs /\ no_http evs)
  /\ (forall d order_id existing,
        order = VDict d ->
        lookup (py "id") d = Some order_id ->
        existing_note d = VStr existing ->
        let note := new_note existing note_block in
        append_note_to_shopify_order order note_block true tr
        = (Return tt, tr ++ dry_run_output note)
        /\ exists out rest,
             append_note_to_shopify_order order note_block false tr
             = (out, tr ++ Http (put_note_request order_id note) :: rest)
             /\ no_http rest)
  /\ (forall tr',
        append_note_to_shopify_order order note_block false tr
        = (Return tt, tr') ->
        exists req line,
          tr' = tr ++ [Http req; Stdout line]
          /\ req_method req = py "PUT"
          /\ writes tr' = S (writes tr)).
Proof.
  assert (R : forall d order_id existing,
             order = VDict d ->
             lookup (py "id") d = Some order_id ->
             existing_note d = VStr existing ->
             exists out rest,
               append_note_to_shopify_order order note_block false tr
               = (out, tr ++ Http (put_note_request order_id
                                     (new_note existing note_block)) :: rest)
               /\ no_http rest
               /\ (out = Return tt -> exists line, rest = [Stdout line])).
  { intros d order_id existing -> Hid Hn.
    rewrite (append_real_run d order_id existing) by assumption.
    destruct (request_outcome _ _ _ _ tr) as [out tr'] eqn:E.
    apply request_outcome_trace in E as [[-> Hout]|(line & -> & ->)].
    - destruct out as [v|c|e].
      + eexists _, _. rewrite <- app_assoc. cbn [app].
        split; [reflexivity|]. split; [|eauto].
        intros r [H|[]]. discriminate.
      + eexists _, []. split; [reflexivity|]. split; [intros r []|discriminate].
      + eexists _, []. split; [reflexivity|]. split; [intros r []|discriminate].
    - eexists _, _. split; [reflexivity|]. split; [|discriminate].
      intros r [H|[]]. discriminate. }
  split; [|split; [|]].
  - intros out tr' H.
    destruct (append_cases order note_block true tr)
      as [(e & E)|(d & order_id & existing & -> & Hid & Hn)].
    + rewrite E in H. injection H as <- <-. exists [].
      rewrite app_nil_r. split; auto. intros r [].
    + rewrite (append_dry_run d order_id existing) in H by assumption.
      injection H as <- <-. eexists; split; [reflexivity|].
      intros r. cbn. intros [H|[H|[H|[H|[]]]]]; discriminate.
  - intros d order_id existing Ho Hid Hn note. split.
    + subst order. apply (append_dry_run d order_id existing); assumption.
    + destruct (R d order_id existing) as (out & rest & E & N & _); eauto.
  - intros tr' H.
    destruct (append_cases order note_block false tr)
      as [(e & E)|(d & order_id & existing & Ho & Hid & Hn)].
    + rewrite E in H. discriminate.
    + destruct (R d order_id existing) as (out & rest & E & N & L); auto.
      rewrite E in H. injection H as -> <-.
      destruct L as (line & ->); auto.
      eexists _, line. repeat split.
      unfold writes. rewrite filter_app, length_app.
      replace (List.length (filter is_put [Http _; Stdout line]))
        with 1%nat by reflexivity.
      lia.
Qed.

(** *** Selecting the comment *)

Lemma get_latest_run ticket_id tr :
  get_latest_private_comment ticket_id tr
  = match request_outcome (py "Zendesk API ") (py "GET")
            (py "/tickets/" ++ py_format ticket_id ++ py "/comments.json")
            (comments_call ticket_id) tr with
    | (Return data, tr') =>
        (comments <- py_get data (py "comments") (VList []) ;;
         items <- py_iter comments ;;
         first_private_comment items) tr'
    | (Exit c, tr') => (Exit c, tr')
    | (Raise e, tr') => (Raise e, tr')
    end.
Proof.
  unfold get_latest_private_comment. unfold bind at 1.
  rewrite zendesk_request_run. fold (comments_call ticket_id).
  now destruct (request_outcome _ _ _ _ tr) as [[data|c|e] tr'].
Qed.

Lemma get_latest_fetched ticket_id tr comments :
  comments_fetched ticket_id tr comments ->
  get_latest_private_comment ticket_id tr
  = first_private_comment comments (tr ++ [Http (comments_call ticket_id)]).
Proof.
  intros (resp & data & Hs & Hok & Hj & Hc).
  rewrite get_latest_run. unfold request_outcome.
  rewrite Hs, Hok, Hj. unfold py_get, py_iter, bind, ret. now rewrite Hc.
Qed.

(** The loop leaves the trace alone. *)
Lemma first_private_comment_trace comments tr out tr' :
  first_private_comment comments tr = (out, tr') -> tr' = tr.
Proof.
  revert tr. induction comments as [|c rest IH]; intros tr; cbn.
  - unfold ret. congruence.
  - destruct c as [| | | | |d]; unfold py_get, bind, raise, ret;
      try congruence.
    destruct (truthy _); cbn [negb]; [apply IH | congruence].
Qed.

(** A comment that is passed over: a record whose flag is true or absent. *)
Lemma first_private_comment_skip c rest tr :
  flag_is true c || flag_absent c = true ->
  first_private_comment (c :: rest) tr = first_private_comment rest tr.
Proof.
  intros H. destruct c as [| | | | |d]; try discriminate.
  cbn in H |- *. unfold py_get, bind, ret.
  destruct (lookup (py "public") d) as [[| [|] | | | |]|]; try discriminate;
    reflexivity.
Qed.

Lemma first_private_comment_found pre c post tr :
  forallb (fun x => flag_is true x || flag_absent x) pre = true ->
  flag_is false c = true ->
  first_private_comment (pre ++ c :: post) tr
  = (Return (c, created_at_of c), tr).
Proof.
  intros Hpre Hc. induction pre as [|x pre IH].
  - destruct c as [| | | | |d]; try discriminate.
    cbn in Hc |- *. unfold py_get, bind, ret.
    destruct (lookup (py "public") d) as [[| [|] | | | |]|]; try discriminate.
    reflexivity.
  - cbn [forallb] in Hpre. apply andb_prop in Hpre as [Hx Hpre].
    cbn [app]. rewrite first_private_comment_skip by assumption. auto.
Qed.

Lemma first_private_comment_none comments tr :
  forallb (fun x => flag_is true x || flag_absent x) comments = true ->
  first_private_comment comments tr = (Return (VNone, VNone), tr).
Proof.
  induction comments as [|x rest IH]; intros H; auto.
  cbn [forallb] in H. apply andb_prop in H as [Hx H].
  rewrite first_private_comment_skip by assumption. auto.
Qed.

(** What the loop returns, if it is a comment at all, is an item of the
    list that carries the flag, with a false value. *)
Lemma first_private_comment_selected comments tr c created_at tr' :
  first_private_comment comments tr = (Return (c, created_at), tr') ->
  c <> VNone ->
  exists d v, c = VDict d /\ In c comments
              /\ lookup (py "public") d = Some v /\ truthy v = false.
Proof.
  revert tr. induction comments as [|x rest IH]; intros tr H Hc.
  - cbn in H. unfold ret in H. congruence.
  - cbn [first_private_comment] in H.
    destruct x as [| | | | |d]; try (cbn in H; discriminate).
    unfold py_get, bind, ret in H.
    destruct (lookup (py "public") d) as [v|] eqn:L.
    + destruct (truthy v) eqn:T; cbn [negb] in H.
      * destruct (IH _ H Hc) as (d' & v' & -> & I & L' & T').
        exists d', v'. repeat split; auto. now right.
      * injection H as <- <- <-. exists d, v. repeat split; auto. now left.
    + cbn in H. destruct (IH _ H Hc) as (d' & v' & -> & I & L' & T').
      exists d', v'. repeat split; auto. now right.
Qed.

(** C2: the service having answered with the list [comments], the
    function returns the first comment whose public flag is false, whatever
    follows it in the list, and [(None, None)] when every comment's flag is
    true. *)
Theorem latest_private_is_first_private ticket_id tr comments :
  comments_fetched ticket_id tr comments ->
  (forall pre c post,
      comments = pre ++ c :: post ->
      forallb (fun x => flag_is true x || flag_absent x) pre = true ->
      flag_is false c = true ->
      get_latest_private_comment ticket_id tr
      = (Return (c, created_at_of c), tr ++ [Http (comments_call ticket_id)]))
  /\ (forallb (flag_is true) comments = true ->
      get_latest_private_comment ticket_id tr
      = (Return (VNone, VNone), tr ++ [Http (comments_call ticket_id)])).
Proof.
  intros F. rewrite (get_latest_fetched _ _ _ F). split.
  - intros pre c post -> Hpre Hc. now apply first_private_comment_found.
  - intros H. apply first_private_comment_none.
    rewrite forallb_forall in *. intros x Hx. now rewrite (H x Hx).
Qed.

(** C10 (as amended): a comment without the public flag is passed over
    like a public one, and a comment that is returned carries the flag with
    a value Python counts as false: the boolean false (the only such value
    when the flag is a boolean, as the data model has it) or null, 0, the
    empty string, the empty list or the empty object. *)
Theorem selected_comment_flag_false ticket_id tr c created_at tr' :
  get_latest_private_comment ticket_id tr = (Return (c, created_at), tr') ->
  c <> VNone ->
  (exists d v,
      c = VDict d /\ lookup (py "public") d = Some v /\ truthy v = false
      /\ (v = VBool false \/ v = VNone \/ v = VInt 0 \/ v = VStr []
          \/ v = VList [] \/ v = VDict [])
      /\ flag_absent c = false
      /\ (forall b, v = VBool b -> flag_is false c = true))
  /\ (forall d rest t,
        lookup (py "public") d = None ->
        first_private_comment (VDict d :: rest) t
        = first_private_comment rest t).
Proof.
  intros H Hc. split.
  - rewrite get_latest_run in H.
    destruct (request_outcome _ _ _ _ tr) as [[data|x|e] t1]; try discriminate.
    unfold bind at 1 in H.
    destruct (py_get data _ _ t1) as [[comments|x|e] t2]; try discriminate.
    unfold bind at 1 in H.
    destruct (py_iter comments t2) as [[items|x|e] t3]; try discriminate.
    destruct (first_private_comment_selected _ _ _ _ _ H Hc)
      as (d & v & -> & _ & L & T).
    exists d, v. cbn. rewrite L. repeat split; auto.
    + destruct v as [|[|]|n|[|x s]|[|x l]|[|x l]]; cbn in T;
        try discriminate; auto 7.
      apply negb_false_iff in T. apply Z.eqb_eq in T. subst n. auto.
    + intros b ->. cbn in T. now subst b.
  - intros d rest t L. apply first_private_comment_skip.
    cbn. rewrite L. apply orb_true_r.
Qed.

(** *** Composing the block *)

Lemma zfill2_digits n : 0 <= n <= 99 -> digitsb 2 (zfill 2 (str_of_Z n)) = true.
Proof.
  intros H.
  assert (A : forallb (fun k => digitsb 2 (zfill 2 (str_of_Z (Z.of_nat k))))
                (seq 0 (Z.to_nat 100)) = true) by (vm_compute; reflexivity).
  rewrite forallb_forall in A. specialize (A (Z.to_nat n)).
  rewrite Z2Nat.id in A by lia. apply A. apply in_seq. lia.
Qed.

Lemma zfill4_digits n :
  0 <= n <= 9999 -> digitsb 4 (zfill 4 (str_of_Z n)) = true.
Proof.
  intros H.
  assert (A : forallb (fun k => digitsb 4 (zfill 4 (str_of_Z (Z.of_nat k))))
                (seq 0 (Z.to_nat 10000)) = true) by (vm_compute; reflexivity).
  rewrite forallb_forall in A. specialize (A (Z.to_nat n)).
  rewrite Z2Nat.id in A by lia. apply A. apply in_seq. lia.
Qed.

Lemma shape_of_pieces y m d h mi :
  digitsb 4 y = true -> digitsb 2 m = true -> digitsb 2 d = true ->
  digitsb 2 h = true -> digitsb 2 mi = true ->
  timestamp_shape (y ++ py "-" ++ m ++ py "-" ++ d ++ py " " ++ h ++ py ":"
                   ++ mi ++ py " UTC") = true.
Proof.
  unfold digitsb. intros Hy Hm Hd Hh Hi.
  apply andb_prop in Hy as [Ly Dy]. apply andb_prop in Hm as [Lm Dm].
  apply andb_prop in Hd as [Ld Dd]. apply andb_prop in Hh as [Lh Dh].
  apply andb_prop in Hi as [Li Di].
  destruct y as [|y1 [|y2 [|y3 [|y4 [|]]]]]; try discriminate.
  destruct m as [|m1 [|m2 [|]]]; try discriminate.
  destruct d as [|d1 [|d2 [|]]]; try discriminate.
  destruct h as [|h1 [|h2 [|]]]; try discriminate.
  destruct mi as [|i1 [|i2 [|]]]; try discriminate.
  cbn in Dy, Dm, Dd, Dh, Di.
  repeat match goal with
         | H : _ && _ = true |- _ => apply andb_prop in H as [? ?]
         end.
  change (py "-") with [45%N]. change (py " ") with [32%N].
  change (py ":") with [58%N]. change (py " UTC") with [32%N; 85%N; 84%N; 67%N].
  cbn [app timestamp_shape forallb].
  repeat match goal with H : ascii_digit _ = true |- _ => rewrite H; clear H end.
  reflexivity.
Qed.

Lemma year_digits n :
  1000 <= n <= 9999 -> digitsb 4 (str_of_Z n) = true.
Proof.
  intros H.
  assert (A : forallb (fun k => digitsb 4 (str_of_Z (1000 + Z.of_nat k)))
                (seq 0 (Z.to_nat 9000)) = true) by (vm_compute; reflexivity).
  rewrite forallb_forall in A. specialize (A (Z.to_nat (n - 1000))).
  rewrite Z2Nat.id in A by lia.
  replace (1000 + (n - 1000)) with n in A by lia.
  apply A. apply in_seq. lia.
Qed.

(** The rendering has the shape YYYY-MM-DD HH:MM UTC when the year has
    four digits or the platform pads it. *)
Lemma strftime_note_shape dt :
  fields_in_range dt ->
  year_padded = true \/ 1000 <= year dt ->
  timestamp_shape (strftime_note dt) = true.
Proof.
  intros (Hy & Hm & Hd & Hh & Hi) P. unfold strftime_note.
  apply shape_of_pieces; try (apply zfill2_digits; lia).
  destruct year_padded.
  - apply zfill4_digits. lia.
  - apply year_digits. destruct P; [discriminate|lia].
Qed.

Lemma days_in_month_le y m : days_in_month y m <= 31.
Proof.
  unfold days_in_month.
  destruct (m =? 2); [destruct (is_leap y); lia|].
  destruct (_ || _); lia.
Qed.

Lemma valid_datetime_fields dt :
  valid_datetime dt = true -> fields_in_range dt.
Proof.
  unfold valid_datetime, valid_fields, fields_in_range, MINYEAR, MAXYEAR.
  intros H.
  repeat match type of H with _ && _ = true => apply andb_prop in H as [H ?] end.
  pose proof (days_in_month_le (year dt) (month dt)). lia.
Qed.

(** The calendar date of a day number is a date. *)
Lemma ord2ymd_bounds n :
  1 <= n <= 3652059 ->
  let '(y, m, d) := ord2ymd n in
  1 <= y <= 9999 /\ 1 <= m <= 12 /\ 1 <= d <= 31.
Proof.
  intros Hn. unfold ord2ymd.
  set (n0 := n - 1).
  set (n400 := n0 / 146097). set (r1 := n0 mod 146097).
  set (n100 := r1 / 36524). set (r2 := r1 mod 36524).
  set (n4 := r2 / 1461). set (r3 := r2 mod 1461).
  set (n1 := r3 / 365). set (r4 := r3 mod 365).
  assert (B : 0 <= n400 /\ 0 <= n100 <= 4 /\ 0 <= n4 <= 24 /\ 0 <= n1 <= 4
              /\ 0 <= r4 <= 364
              /\ n0 = 146097 * n400 + 36524 * n100 + 1461 * n4 + 365 * n1 + r4
              /\ 0 <= n0 <= 3652058).
  { subst n400 r1 n100 r2 n4 r3 n1 r4 n0. Z.div_mod_to_equations. lia. }
  clearbody n400 n100 n4 n1 r4. clear r1 r2 r3.
  destruct ((n1 =? 4) || (n100 =? 4)) eqn:E.
  - apply orb_prop in E. lia.
  - apply orb_false_elim in E as [E1 E2].
    apply Z.eqb_neq in E1, E2.
    rewrite Z.shiftr_div_pow2 by lia. change (2 ^ 5) with 32.
    set (m := (r4 + 50) / 32).
    assert (M : 32 * m <= r4 + 50 < 32 * m + 32).
    { subst m. Z.div_mod_to_equations. lia. }
    clearbody m.
    set (leap := (n1 =? 3) && (negb (n4 =? 24) || (n100 =? 3))).
    assert (Hm : m = 1 \/ m = 2 \/ m = 3 \/ m = 4 \/ m = 5 \/ m = 6 \/ m = 7
                 \/ m = 8 \/ m = 9 \/ m = 10 \/ m = 11 \/ m = 12) by lia.
    assert (Y : 1 <= n400 * 400 + 1 + n100 * 100 + n4 * 4 + n1 <= 9999) by lia.
    destruct leap;
      repeat (destruct Hm as [->|Hm]); try subst m;
      match goal with
      | |- context [r4 <? ?P] =>
          let v := eval vm_compute in P in change P with v
      end;
      match goal with |- context [?a <? ?b] => destruct (Z.ltb_spec a b) end;
      cbn; lia.
Qed.

Lemma shift_to_utc_fields dt off u :
  shift_to_utc dt off = Some u -> fields_in_range u /\ tzinfo u = Some 0.
Proof.
  unfold shift_to_utc.
  set (t := to_microseconds dt - off).
  destruct ((0 <=? t / US_PER_DAY) && (t / US_PER_DAY <? 3652059)) eqn:E;
    [|discriminate].
  apply andb_prop in E as [E1 E2]. apply Z.leb_le in E1. apply Z.ltb_lt in E2.
  pose proof (ord2ymd_bounds (t / US_PER_DAY + 1)) as B.
  destruct (ord2ymd (t / US_PER_DAY + 1)) as [[y m] d].
  intros H. injection H as <-. split; [|reflexivity].
  unfold fields_in_range. cbn [year month day hour minute].
  assert (0 <= t mod US_PER_DAY < 86400000000).
  { apply Z.mod_pos_bound. reflexivity. }
  repeat split; try lia; Z.div_mod_to_equations; lia.
Qed.

Lemma astimezone_utc_run dt tr out tr' :
  fields_in_range dt ->
  astimezone_utc dt tr = (out, tr') ->
  tr' = tr
  /\ match out with
     | Return u => fields_in_range u
     | Raise e => tzinfo dt <> None -> e = OverflowError
     | Exit _ => False
     end.
Proof.
  intros V. unfold astimezone_utc, ret, raise.
  destruct (tzinfo dt) as [[|off|off]|].
  - intros H. injection H as <- <-. auto.
  - destruct (shift_to_utc dt _) eqn:S; intros H; injection H as <- <-; auto.
    split; auto. eapply shift_to_utc_fields; eauto.
  - destruct (shift_to_utc dt _) eqn:S; intros H; injection H as <- <-; auto.
    split; auto. eapply shift_to_utc_fields; eauto.
  - destruct (local_utcoffset dt) as [off|e].
    + destruct (shift_to_utc dt _) eqn:S; intros H; injection H as <- <-;
        (split; [reflexivity|]).
      * eapply shift_to_utc_fields; eauto.
      * intros X. congruence.
    + intros H; injection H as <- <-. split; [reflexivity|].
      intros X. congruence.
Qed.

Lemma datetime_fromisoformat_valid s dt :
  datetime_fromisoformat s = Some dt -> valid_datetime dt = true.
Proof.
  unfold datetime_fromisoformat.
  destruct (sanitize_isoformat_str s) as [clean|]; [|discriminate].
  destruct (utf8 clean) as [b|]; [|discriminate].
  destruct (find_isoformat_datetime_separator b) as [sep|]; [|discriminate].
  destruct (parse_isoformat_date b sep) as [[[y m] d]|]; [|discriminate].
  destruct (if (sep <? List.length b)%nat then _ else _)
    as [[[[[hh mi] ss] us] tz]|]; [|discriminate].
  destruct (tzinfo_from_isoformat_results tz) as [tzinfo|]; [|discriminate].
  destruct (valid_fields y m d hh mi ss us) eqn:V; [|discriminate].
  intros H. injection H as <-. exact V.
Qed.

Lemma try_fromisoformat_valid created_at dt :
  try_fromisoformat created_at = Some dt -> valid_datetime dt = true.
Proof.
  unfold try_fromisoformat.
  destruct (py_or created_at (VStr [])); try discriminate.
  apply fromisoformat_valid.
Qed.

Lemma parse_created_at_fields created_at :
  fields_in_range (parse_created_at created_at).
Proof.
  apply valid_datetime_fields. unfold parse_created_at.
  destruct (try_fromisoformat created_at) as [dt|] eqn:E; auto.
  now apply (try_fromisoformat_valid created_at).
Qed.

Lemma build_note_block_run ticket_id agent_name created_at note_body tr :
  build_note_block ticket_id agent_name created_at note_body tr
  = match astimezone_utc (parse_created_at created_at) tr with
    | (Return u, tr') =>
        (Return (note_block_text ticket_id agent_name (strftime_note u)
                   note_body), tr')
    | (Exit c, tr') => (Exit c, tr')
    | (Raise e, tr') => (Raise e, tr')
    end.
Proof.
  unfold build_note_block, bind, note_block_text, ret.
  destruct (astimezone_utc _ tr) as [[u|c|e] tr']; auto.
  now rewrite <- !app_assoc.
Qed.

Lemma ymd2ord_bounds y m d :
  valid_fields y m d 0 0 0 0 = true -> 1 <= ymd2ord y m d <= 3652059.
Proof.
  unfold valid_fields, MINYEAR, MAXYEAR. intros H.
  repeat match type of H with _ && _ = true => apply andb_prop in H as [H ?] end.
  pose proof (days_in_month_le y m).
  assert (M : m = 1 \/ m = 2 \/ m = 3 \/ m = 4 \/ m = 5 \/ m = 6 \/ m = 7
              \/ m = 8 \/ m = 9 \/ m = 10 \/ m = 11 \/ m = 12) by lia.
  unfold ymd2ord, days_before_year, days_before_month.
  assert (D : 1 <= d <= days_in_month y m) by lia.
  unfold days_in_month in D.
  destruct (is_leap y) eqn:L;
    [unfold is_leap in L; apply andb_prop in L as [L _]; apply Z.eqb_eq in L|];
    repeat (destruct M as [->|M]); try subst m; cbn in D |- *;
    Z.div_mod_to_equations; lia.
Qed.

Lemma shift_to_utc_range dt off :
  let days := (to_microseconds dt - off) / US_PER_DAY in
  (0 <= days < 3652059 -> exists u, shift_to_utc dt off = Some u)
  /\ (~ 0 <= days < 3652059 -> shift_to_utc dt off = None).
Proof.
  intros days. unfold shift_to_utc. fold days.
  destruct (Z.leb_spec 0 days); destruct (Z.ltb_spec days 3652059);
    cbn [andb]; split; intros O; try lia; auto.
  destruct (ord2ymd (days + 1)) as [[y m] d]. eauto.
Qed.

Lemma valid_datetime_in_range dt :
  valid_datetime dt = true ->
  0 <= (to_microseconds dt - 0) / US_PER_DAY < 3652059.
Proof.
  unfold valid_datetime. intros E.
  assert (V : valid_fields (year dt) (month dt) (day dt) 0 0 0 0 = true).
  { unfold valid_fields in *.
    repeat match type of E with
           | _ && _ = true => apply andb_prop in E as [E ?]
           end.
    repeat (apply andb_true_intro; split); auto. }
  apply ymd2ord_bounds in V.
  unfold valid_fields, MINYEAR, MAXYEAR in E.
  repeat match type of E with
         | _ && _ = true => apply andb_prop in E as [E ?]
         end.
  unfold to_microseconds, US_PER_DAY. Z.div_mod_to_equations. lia.
Qed.

(** An aware value converts exactly when its UTC reading is a date. *)
Lemma astimezone_utc_aware dt off tr :
  valid_datetime dt = true ->
  tzinfo dt = Some off ->
  let days := (to_microseconds dt - off) / US_PER_DAY in
  (0 <= days < 3652059 -> exists u, astimezone_utc dt tr = (Return u, tr))
  /\ (~ 0 <= days < 3652059 ->
      astimezone_utc dt tr = (Raise OverflowError, tr)).
Proof.
  intros V T days. unfold astimezone_utc. rewrite T.
  destruct (shift_to_utc_range dt off) as [A B]. fold days in A, B.
  destruct off as [|p|p].
  - split; [unfold ret; eauto|].
    intros O. exfalso. apply O. now apply valid_datetime_in_range.
  - split; intros O.
    + destruct (A O) as (u & ->). unfold ret. eauto.
    + now rewrite (B O).
  - split; intros O.
    + destruct (A O) as (u & ->). unfold ret. eauto.
    + now rewrite (B O).
Qed.

(** C6 (as amended): when the timestamp does not parse (it is missing or
    not a string, so that line 143 raises before the parser is reached, or
    it is a text that [datetime.fromisoformat] refuses, whatever the
    interpreter's version accepts) [build_note_block] does not raise: it
    renders the current UTC time, as YYYY-MM-DD HH:MM UTC, in a
    well-formed block.  When the timestamp parses with a UTC offset, the
    block is built exactly when the time converted to UTC is within the
    years 1 to 9999, and the call raises [OverflowError] otherwise.
    Whenever a block is returned, its timestamp has that shape if the
    year has four digits (or the platform pads the year). *)
Theorem build_note_block_fallback ticket_id agent_name created_at note_body tr :
  (try_fromisoformat created_at = None ->
     build_note_block ticket_id agent_name created_at note_body tr
     = (Return (note_block_text ticket_id agent_name
                  (strftime_note utc_now) note_body), tr)
     /\ timestamp_shape (strftime_note utc_now) = true)
  /\ (forall dt off,
        try_fromisoformat created_at = Some dt ->
        tzinfo dt = Some off ->
        let days := (to_microseconds dt - off) / US_PER_DAY in
        (0 <= days < 3652059 ->
         exists u,
           build_note_block ticket_id agent_name created_at note_body tr
           = (Return (note_block_text ticket_id agent_name
                        (strftime_note u) note_body), tr))
        /\ (~ 0 <= days < 3652059 ->
            build_note_block ticket_id agent_name created_at note_body tr
            = (Raise OverflowError, tr)))
  /\ (forall block tr',
        build_note_block ticket_id agent_name created_at note_body tr
        = (Return block, tr') ->
        tr' = tr
        /\ exists u,
             block = note_block_text ticket_id agent_name
                       (strftime_note u) note_body
             /\ (year_padded = true \/ 1000 <= year u ->
                 timestamp_shape (strftime_note u) = true))
  /\ ((forall s, created_at <> VStr s) ->
      try_fromisoformat created_at = None).
Proof.
  split; [|split; [|split]].
  4: { intros N. unfold try_fromisoformat, py_or.
       destruct (truthy created_at); [|exact fromisoformat_empty].
       destruct created_at; auto. now contradiction (N s). }
  - intros E. rewrite build_note_block_run.
    unfold parse_created_at. rewrite E.
    unfold astimezone_utc. rewrite utc_now_utc. unfold ret. split; auto.
    apply strftime_note_shape; [now apply valid_datetime_fields|now right].
  - intros dt off E T days. rewrite build_note_block_run.
    unfold parse_created_at. rewrite E.
    assert (V : valid_datetime dt = true)
      by now apply (try_fromisoformat_valid created_at).
    destruct (astimezone_utc_aware dt off tr V T) as [A B].
    fold days in A, B. split; intros O.
    + destruct (A O) as (u & ->). eauto.
    + now rewrite (B O).
  - intros block tr' H. rewrite build_note_block_run in H.
    destruct (astimezone_utc _ tr) as [[u|c|e] t] eqn:A; try discriminate.
    apply astimezone_utc_run in A as [-> F];
      [|apply parse_created_at_fields].
    injection H as <- <-. split; auto. exists u. split; auto.
    now apply strftime_note_shape.
Qed.

(** *** The pipeline *)

Lemma py_get_trace obj key default tr out tr' :
  py_get obj key default tr = (out, tr') -> tr' = tr.
Proof. destruct obj; cbn; unfold ret, raise; congruence. Qed.

Lemma py_iter_trace obj tr out tr' :
  py_iter obj tr = (out, tr') -> tr' = tr.
Proof. destruct obj; cbn; unfold ret, raise; congruence. Qed.

Lemma py_getitem0_trace obj tr out tr' :
  py_getitem0 obj tr = (out, tr') -> tr' = tr.
Proof.
  destruct obj as [| | |[|]|[|]|]; cbn; unfold ret, raise; congruence.
Qed.

Lemma request_outcome_return service method path req tr v tr' :
  request_outcome service method path req tr = (Return v, tr') ->
  tr' = tr ++ [Http req].
Proof.
  intros H. apply request_outcome_trace in H as [[-> _]|(l & _ & H)];
    [reflexivity|discriminate].
Qed.

Lemma get_latest_return ticket_id tr c created_at tr' :
  get_latest_private_comment ticket_id tr = (Return (c, created_at), tr') ->
  tr' = tr ++ [Http (comments_call ticket_id)].
Proof.
  rewrite get_latest_run.
  destruct (request_outcome _ _ _ _ tr) as [[data|x|e] t1] eqn:R;
    try discriminate.
  apply request_outcome_return in R. subst t1.
  unfold bind at 1.
  destruct (py_get data _ _ _) as [[comments|x|e] t2] eqn:G; try discriminate.
  apply py_get_trace in G. subst t2.
  unfold bind at 1.
  destruct (py_iter comments _) as [[items|x|e] t3] eqn:I; try discriminate.
  apply py_iter_trace in I. subst t3.
  intros H. now apply first_private_comment_trace in H.
Qed.

Lemma get_user_return user_id tr agent tr' :
  get_zendesk_user_name user_id tr = (Return agent, tr') ->
  tr' = tr ++ [Http (user_call user_id)].
Proof.
  unfold get_zendesk_user_name. unfold bind at 1.
  rewrite zendesk_request_run. fold (user_call user_id).
  destruct (request_outcome _ _ _ _ tr) as [[data|x|e] t1] eqn:R;
    try discriminate.
  apply request_outcome_return in R. subst t1.
  unfold bind at 1.
  destruct (py_get data _ _ _) as [[user|x|e] t2] eqn:G; try discriminate.
  apply py_get_trace in G. subst t2.
  unfold bind at 1.
  destruct (py_get user _ _ _) as [[name|x|e] t3] eqn:G2; try discriminate.
  apply py_get_trace in G2. subst t3.
  unfold ret. congruence.
Qed.

Lemma find_order_return order_name tr order tr' :
  find_shopify_order_by_name order_name tr = (Return order, tr') ->
  tr' = tr ++ [Http (orders_call order_name)].
Proof.
  unfold find_shopify_order_by_name. unfold bind at 1.
  rewrite shopify_request_run. fold (orders_call order_name).
  destruct (request_outcome _ _ _ _ tr) as [[data|x|e] t1] eqn:R;
    try discriminate.
  apply request_outcome_return in R. subst t1.
  unfold bind at 1.
  destruct (py_get data _ _ _) as [[orders|x|e] t2] eqn:G; try discriminate.
  apply py_get_trace in G. subst t2.
  destruct (truthy orders); cbn [negb].
  - intros H. now apply py_getitem0_trace in H.
  - unfold ret. congruence.
Qed.

Lemma writes_app tr evs : writes (tr ++ evs) = (writes tr + writes evs)%nat.
Proof. unfold writes. now rewrite filter_app, length_app. Qed.

(** The pipeline up to the check of the comment. *)
Lemma sync_no_comment ticket_id dry_run tr comment created_at t1 :
  get_latest_private_comment ticket_id (tr ++ [Stdout (sync_banner ticket_id)])
  = (Return (comment, created_at), t1) ->
  truthy comment = false ->
  sync_ticket_to_shopify_note ticket_id dry_run tr
  = (Exit 1, t1 ++ [error_line (py "No private comments found for ticket "
                                ++ py_format ticket_id)]).
Proof.
  intros S1 T. unfold sync_ticket_to_shopify_note.
  unfold bind at 1. unfold print at 1. fold (sync_banner ticket_id).
  unfold bind at 1. rewrite S1. rewrite T. reflexivity.
Qed.

Lemma sync_empty_body ticket_id dry_run tr comment created_at t1 body :
  get_latest_private_comment ticket_id (tr ++ [Stdout (sync_banner ticket_id)])
  = (Return (comment, created_at), t1) ->
  truthy comment = true ->
  comment_body comment = Some body ->
  whitespace_only body = true ->
  sync_ticket_to_shopify_note ticket_id dry_run tr
  = (Exit 1, t1 ++ [error_line (py "Latest private comment has empty body")]).
Proof.
  intros S1 T B W. unfold sync_ticket_to_shopify_note.
  unfold bind at 1. unfold print at 1. fold (sync_banner ticket_id).
  unfold bind at 1. rewrite S1. rewrite T. cbn [negb].
  destruct comment as [| | | | |d]; try discriminate.
  unfold comment_body in B. unfold bind at 1. unfold py_get at 1, ret at 1.
  assert (E : match lookup (py "body") d with
              | Some v => v | None => VStr [] end = VStr body).
  { destruct (lookup (py "body") d) as [[]|]; congruence. }
  rewrite E. unfold bind at 1. unfold py_strip, ret at 1.
  rewrite truthy_strip, W. reflexivity.
Qed.

Lemma sync_no_order_name ticket_id dry_run tr comment created_at t1 body
      agent t2 :
  get_latest_private_comment ticket_id (tr ++ [Stdout (sync_banner ticket_id)])
  = (Return (comment, created_at), t1) ->
  truthy comment = true ->
  comment_body comment = Some body ->
  whitespace_only body = false ->
  get_zendesk_user_name (comment_author comment) t1 = (Return agent, t2) ->
  extract_shopify_order_name (strip body) = VNone ->
  sync_ticket_to_shopify_note ticket_id dry_run tr
  = (Exit 1,
     t2 ++ [Stdout (py "[INFO] Latest private comment by: " ++ py_format agent);
            error_line (py "Could not find order name like 'A123456' in the private note")]).
Proof.
  intros S1 T B W S2 X. unfold sync_ticket_to_shopify_note.
  unfold bind at 1. unfold print at 1. fold (sync_banner ticket_id).
  unfold bind at 1. rewrite S1. rewrite T. cbn [negb].
  destruct comment as [| | | | |d]; try discriminate.
  unfold comment_body in B. unfold bind at 1. unfold py_get at 1, ret at 1.
  assert (E : match lookup (py "body") d with
              | Some v => v | None => VStr [] end = VStr body).
  { destruct (lookup (py "body") d) as [[]|]; congruence. }
  rewrite E. unfold bind at 1. unfold py_strip, ret at 1.
  rewrite truthy_strip, W. cbn [negb].
  unfold bind at 1. unfold py_get at 1, ret at 1.
  unfold comment_author in S2.
  unfold bind at 1. rewrite S2.
  unfold bind at 1. unfold print at 1.
  rewrite X. cbn [truthy negb]. unfold fail, error_line.
  now rewrite <- app_assoc.
Qed.

Lemma sync_no_order ticket_id dry_run tr comment created_at t1 body
      agent t2 name order t3 :
  get_latest_private_comment ticket_id (tr ++ [Stdout (sync_banner ticket_id)])
  = (Return (comment, created_at), t1) ->
  truthy comment = true ->
  comment_body comment = Some body ->
  whitespace_only body = false ->
  get_zendesk_user_name (comment_author comment) t1 = (Return agent, t2) ->
  extract_shopify_order_name (strip body) = VStr name ->
  find_shopify_order_by_name (VStr name)
    (t2 ++ [Stdout (py "[INFO] Latest private comment by: " ++ py_format agent);
            Stdout (py "[INFO] Detected Shopify order name: " ++ name)])
  = (Return order, t3) ->
  truthy order = false ->
  sync_ticket_to_shopify_note ticket_id dry_run tr
  = (Exit 1, t3 ++ [error_line (py "Shopify order with name " ++ name
                                ++ py " not found")]).
Proof.
  intros S1 T B W S2 X S3 O. unfold sync_ticket_to_shopify_note.
  unfold bind at 1. unfold print at 1. fold (sync_banner ticket_id).
  unfold bind at 1. rewrite S1. rewrite T. cbn [negb].
  destruct comment as [| | | | |d]; try discriminate.
  unfold comment_body in B. unfold bind at 1. unfold py_get at 1, ret at 1.
  assert (E : match lookup (py "body") d with
              | Some v => v | None => VStr [] end = VStr body).
  { destruct (lookup (py "body") d) as [[]|]; congruence. }
  rewrite E. unfold bind at 1. unfold py_strip, ret at 1.
  rewrite truthy_strip, W. cbn [negb].
  unfold bind at 1. unfold py_get at 1, ret at 1.
  unfold comment_author in S2.
  unfold bind at 1. rewrite S2.
  unfold bind at 1. unfold print at 1.
  rewrite X.
  assert (N : truthy (VStr name) = true).
  { pose proof (extract_search (strip body)) as Q. rewrite X in Q.
    destruct Q as (i & Hi & -> & _).
    unfold standalone_at, token_here in Hi.
    apply andb_prop in Hi as [Hi _]. apply andb_prop in Hi as [Hi _].
    now destruct (firstn 7 (skipn i (strip body))). }
  rewrite N. cbn [negb].
  unfold bind at 1. unfold print at 1. cbn [py_format].
  rewrite <- app_assoc. cbn [app].
  unfold bind at 1. rewrite S3. rewrite O. reflexivity.
Qed.

(** C9: when the selected comment's body is empty or only whitespace, the
    run ends there with exit status 1: besides the two lines it printed,
    the only thing it has done is fetch the comments; it has looked up no
    user and no order, and written nothing. *)
Theorem empty_body_is_fatal ticket_id dry_run tr comment created_at t1 body :
  get_latest_private_comment ticket_id (tr ++ [Stdout (sync_banner ticket_id)])
  = (Return (comment, created_at), t1) ->
  truthy comment = true ->
  comment_body comment = Some body ->
  whitespace_only body = true ->
  sync_ticket_to_shopify_note ticket_id dry_run tr
  = (Exit 1,
     tr ++ [Stdout (sync_banner ticket_id);
            Http (comments_call ticket_id);
            error_line (py "Latest private comment has empty body")]).
Proof.
  intros S1 T B W.
  rewrite (sync_empty_body _ _ _ _ _ _ _ S1 T B W).
  apply get_latest_return in S1. subst t1.
  now rewrite <- !app_assoc.
Qed.

(** C8: on each of the four failure paths (no internal comment, empty
    body, no order name in the body, no order of that name) the run ends
    with exit status 1 having made only GET requests: the trace is spelled
    out, and it holds no write to the order. *)
Theorem no_partial_success ticket_id dry_run tr comment created_at t1 :
  get_latest_private_comment ticket_id (tr ++ [Stdout (sync_banner ticket_id)])
  = (Return (comment, created_at), t1) ->
  let fetched := tr ++ [Stdout (sync_banner ticket_id);
                        Http (comments_call ticket_id)] in
  (truthy comment = false ->
   exists final,
     sync_ticket_to_shopify_note ticket_id dry_run tr = (Exit 1, final)
     /\ final = fetched
                ++ [error_line (py "No private comments found for ticket "
                                ++ py_format ticket_id)]
     /\ writes final = writes tr)
  /\ (forall body,
        truthy comment = true ->
        comment_body comment = Some body ->
        (whitespace_only body = true ->
         exists final,
           sync_ticket_to_shopify_note ticket_id dry_run tr = (Exit 1, final)
           /\ final = fetched
                      ++ [error_line (py "Latest private comment has empty body")]
           /\ writes final = writes tr)
        /\ (forall agent t2,
              whitespace_only body = false ->
              get_zendesk_user_name (comment_author comment) t1
              = (Return agent, t2) ->
              let looked_up :=
                fetched
                ++ [Http (user_call (comment_author comment));
                    Stdout (py "[INFO] Latest private comment by: "
                            ++ py_format agent)] in
              (extract_shopify_order_name (strip body) = VNone ->
               exists final,
                 sync_ticket_to_shopify_note ticket_id dry_run tr
                 = (Exit 1, final)
                 /\ final = looked_up
                            ++ [error_line (py "Could not find order name like 'A123456' in the private note")]
                 /\ writes final = writes tr)
              /\ (forall name order t3,
                    extract_shopify_order_name (strip body) = VStr name ->
                    find_shopify_order_by_name (VStr name)
                      (looked_up
                       ++ [Stdout (py "[INFO] Detected Shopify order name: "
                                   ++ name)])
                    = (Return order, t3) ->
                    truthy order = false ->
                    exists final,
                      sync_ticket_to_shopify_note ticket_id dry_run tr
                      = (Exit 1, final)
                      /\ final = looked_up
                                 ++ [Stdout (py "[INFO] Detected Shopify order name: "
                                             ++ name);
                                     Http (orders_call (VStr name));
                                     error_line (py "Shopify order with name "
                                                 ++ name ++ py " not found")]
                      /\ writes final = writes tr))).
Proof.
  intros S1 fetched.
  assert (F : t1 = fetched).
  { apply get_latest_return in S1. subst t1 fetched.
    now rewrite <- app_assoc. }
  assert (Wf : writes fetched = writes tr).
  { unfold fetched. rewrite writes_app.
    change (writes [Stdout _; Http (comments_call ticket_id)]) with 0%nat. lia. }
  split.
  - intros T. eexists. split; [|split; [reflexivity|]].
    + rewrite (sync_no_comment _ _ _ _ _ _ S1 T). now rewrite F.
    + rewrite writes_app, Wf. cbn. lia.
  - intros body T B. split.
    + intros W. eexists. split; [|split; [reflexivity|]].
      * rewrite (sync_empty_body _ _ _ _ _ _ _ S1 T B W). now rewrite F.
      * rewrite writes_app, Wf. cbn. lia.
    + intros agent t2 W S2 looked_up.
      assert (F2 : t2 ++ [Stdout (py "[INFO] Latest private comment by: "
                                  ++ py_format agent)] = looked_up).
      { apply get_user_return in S2. subst t2 t1 looked_up.
        now rewrite <- !app_assoc. }
      assert (Wl : writes looked_up = writes tr).
      { unfold looked_up. rewrite writes_app, Wf.
        change (writes [Http (user_call _); Stdout _]) with 0%nat. lia. }
      split.
      * intros X. eexists. split; [|split; [reflexivity|]].
        -- rewrite (sync_no_order_name _ _ _ _ _ _ _ _ _ S1 T B W S2 X).
           rewrite <- F2. now rewrite <- app_assoc.
        -- rewrite writes_app, Wl. cbn. lia.
      * intros name order t3 X S3 O.
        rewrite <- F2 in S3. rewrite <- app_assoc in S3. cbn [app] in S3.
        eexists. split; [|split; [reflexivity|]].
        -- rewrite (sync_no_order _ _ _ _ _ _ _ _ _ _ _ _ S1 T B W S2 X S3 O).
           apply find_order_return in S3. subst t3.
           rewrite <- F2. now rewrite <- !app_assoc.
        -- rewrite writes_app, Wl.
           change (writes [Stdout _; Http (orders_call _); error_line _])
             with 0%nat. lia.
Qed.

(** *** The two lookups *)

(** When the user record has no name (the key is absent, null or empty),
    the display name is "User <id>". *)
Theorem user_name_fallback user_id tr resp data user :
  server tr (user_call user_id) = Some resp ->
  ok resp = true ->
  json resp = Some (VDict data) ->
  lookup (py "user") data = Some (VDict user) ->
  (lookup (py "name") user = None
   \/ lookup (py "name") user = Some VNone
   \/ lookup (py "name") user = Some (VStr [])) ->
  get_zendesk_user_name user_id tr
  = (Return (VStr (py "User " ++ py_format user_id)),
     tr ++ [Http (user_call user_id)]).
Proof.
  intros Hs Hok Hj Hu Hn. unfold get_zendesk_user_name.
  unfold bind at 1. rewrite zendesk_request_run. fold (user_call user_id).
  unfold request_outcome. rewrite Hs, Hok, Hj.
  unfold py_get, bind, ret. rewrite Hu.
  destruct Hn as [->|[->| ->]]; reflexivity.
Qed.

(** The order lookup returns the first order of the reply, and [None] when
    the reply lists none. *)
Theorem find_order_first order_name tr resp data orders :
  server tr (orders_call order_name) = Some resp ->
  ok resp = true ->
  json resp = Some (VDict data) ->
  lookup (py "orders") data = Some (VList orders) ->
  find_shopify_order_by_name order_name tr
  = (Return (match orders with o :: _ => o | [] => VNone end),
     tr ++ [Http (orders_call order_name)]).
Proof.
  intros Hs Hok Hj Ho. unfold find_shopify_order_by_name.
  unfold bind at 1. rewrite shopify_request_run. fold (orders_call order_name).
  unfold request_outcome. rewrite Hs, Hok, Hj.
  unfold py_get, bind, ret. rewrite Ho.
  destruct orders; reflexivity.
Qed.

(** *** Writes over a whole run *)

Lemma writes_at_most_silent {A} (m : M A) :
  (forall tr, exists out, m tr = (out, tr)) -> writes_at_most 0 m.
Proof.
  intros H tr out tr' E. destruct (H tr) as (o & E'). rewrite E' in E.
  injection E as <- <-. exists []. now rewrite app_nil_r.
Qed.

Lemma writes_at_most_bind {A B} a b (m : M A) (f : A -> M B) :
  writes_at_most a m -> (forall x, writes_at_most b (f x)) ->
  writes_at_most (a + b) (bind m f).
Proof.
  intros Hm Hf tr out tr' E. unfold bind in E.
  destruct (m tr) as [[x|c|e] t] eqn:Em;
    destruct (Hm _ _ _ Em) as (evs & -> & W).
  - destruct (Hf x _ _ _ E) as (evs' & -> & W').
    exists (evs ++ evs'). rewrite app_assoc, writes_app. split; auto. lia.
  - injection E as <- <-. exists evs. split; auto. lia.
  - injection E as <- <-. exists evs. split; auto. lia.
Qed.

Lemma writes_at_most_ret {A} (a : A) : writes_at_most 0 (ret a).
Proof. apply writes_at_most_silent. intros tr. now exists (Return a). Qed.

Lemma writes_at_most_raise {A} e : writes_at_most 0 (@raise A e).
Proof. apply writes_at_most_silent. intros tr. now exists (Raise e). Qed.

Lemma writes_at_most_print line : writes_at_most 0 (print line).
Proof.
  intros tr out tr' E. unfold print in E. injection E as <- <-.
  now exists [Stdout line].
Qed.

Lemma writes_at_most_fail {A} msg : writes_at_most 0 (@fail A msg).
Proof.
  intros tr out tr' E. unfold fail in E. injection E as <- <-.
  eexists; split; [reflexivity|]. apply Nat.le_refl.
Qed.

Lemma writes_at_most_py_get obj key default :
  writes_at_most 0 (py_get obj key default).
Proof.
  destruct obj; cbn; auto using @writes_at_most_ret, @writes_at_most_raise.
Qed.

Lemma writes_at_most_py_getitem obj key :
  writes_at_most 0 (py_getitem obj key).
Proof.
  destruct obj; cbn; auto using @writes_at_most_raise.
  destruct (lookup key d); auto using @writes_at_most_ret, @writes_at_most_raise.
Qed.

Lemma writes_at_most_py_getitem0 obj : writes_at_most 0 (py_getitem0 obj).
Proof.
  destruct obj as [| | |[|]|[|]|]; cbn;
    auto using @writes_at_most_ret, @writes_at_most_raise.
Qed.

Lemma writes_at_most_py_iter obj : writes_at_most 0 (py_iter obj).
Proof.
  destruct obj; cbn; auto using @writes_at_most_ret, @writes_at_most_raise.
Qed.

Lemma writes_at_most_py_strip obj : writes_at_most 0 (py_strip obj).
Proof.
  destruct obj; cbn; auto using @writes_at_most_ret, @writes_at_most_raise.
Qed.

Lemma writes_at_most_request service method path req :
  writes_at_most (if is_put (Http req) then 1 else 0)
    (request_outcome service method path req).
Proof.
  intros tr out tr' E.
  apply request_outcome_trace in E as [[-> _]|(line & -> & _)];
    eexists; (split; [reflexivity|]); unfold writes; cbn [filter];
    destruct (is_put (Http req)); cbn; lia.
Qed.

Lemma writes_at_most_zendesk_get path params :
  writes_at_most 0 (zendesk_request (py "GET") path params).
Proof.
  intros tr out tr' E. rewrite zendesk_request_run in E.
  now apply writes_at_most_request in E.
Qed.

Lemma writes_at_most_shopify_get path body params :
  writes_at_most 0 (shopify_request (py "GET") path body params).
Proof.
  intros tr out tr' E. rewrite shopify_request_run in E.
  now apply writes_at_most_request in E.
Qed.

Lemma writes_at_most_shopify method path body params :
  writes_at_most 1 (shopify_request method path body params).
Proof.
  intros tr out tr' E. rewrite shopify_request_run in E.
  apply writes_at_most_request in E as (evs & -> & W).
  exists evs. split; auto. destruct (is_put _); lia.
Qed.

Lemma writes_at_most_first_private comments :
  writes_at_most 0 (first_private_comment comments).
Proof.
  apply writes_at_most_silent. intros tr.
  destruct (first_private_comment comments tr) as [out tr'] eqn:E.
  apply first_private_comment_trace in E as E'. subst tr'. eauto.
Qed.

Lemma writes_at_most_astimezone dt : writes_at_most 0 (astimezone_utc dt).
Proof.
  unfold astimezone_utc.
  destruct (tzinfo dt) as [[|p|p]|];
    repeat match goal with
           | |- context [match ?x with Some _ => _ | None => _ end] =>
               destruct x
           | |- context [match ?x with inl _ => _ | inr _ => _ end] =>
               destruct x
           end;
    auto using @writes_at_most_ret, @writes_at_most_raise.
Qed.

(** Composing the bounds along a sequence of calls. *)
Ltac bound_writes :=
  repeat first
    [ apply writes_at_most_ret
    | apply writes_at_most_raise
    | apply writes_at_most_print
    | apply writes_at_most_fail
    | apply writes_at_most_py_get
    | apply writes_at_most_py_getitem
    | apply writes_at_most_py_getitem0
    | apply writes_at_most_py_iter
    | apply writes_at_most_py_strip
    | apply writes_at_most_zendesk_get
    | apply writes_at_most_shopify_get
    | apply writes_at_most_first_private
    | apply writes_at_most_astimezone
    | match goal with
      | |- forall _, _ => intro
      | |- writes_at_most _ (if ?c then _ else _) => destruct c
      | |- writes_at_most _ (let '(_, _) := ?p in _) => destruct p
      end
    | apply (writes_at_most_bind 0 0) ].

Lemma writes_at_most_get_latest ticket_id :
  writes_at_most 0 (get_latest_private_comment ticket_id).
Proof. unfold get_latest_private_comment. bound_writes. Qed.

Lemma writes_at_most_get_user user_id :
  writes_at_most 0 (get_zendesk_user_name user_id).
Proof. unfold get_zendesk_user_name. bound_writes. Qed.

Lemma writes_at_most_find_order order_name :
  writes_at_most 0 (find_shopify_order_by_name order_name).
Proof. unfold find_shopify_order_by_name. bound_writes. Qed.

Lemma writes_at_most_build ticket_id agent_name created_at note_body :
  writes_at_most 0 (build_note_block ticket_id agent_name created_at note_body).
Proof. unfold build_note_block. bound_writes. Qed.

Lemma writes_at_most_append order note_block (dry_run : bool) :
  writes_at_most (if dry_run then 0 else 1)
    (append_note_to_shopify_order order note_block dry_run).
Proof.
  unfold append_note_to_shopify_order.
  apply (writes_at_most_bind 0 _); [bound_writes|]. intros order_id.
  apply (writes_at_most_bind 0 _); [bound_writes|]. intros note.
  destruct (py_or note (VStr [])).
  all: destruct dry_run; try (bound_writes; fail).
  all: try (intros tr out tr' E; unfold raise in E; injection E as <- <-;
            exists []; rewrite app_nil_r; split; auto; cbn; lia).
  apply (writes_at_most_bind 1 0); [apply writes_at_most_shopify|].
  bound_writes.
Qed.

(** A run of the pipeline writes to the order at most once, and not at all
    when it is a dry run. *)
Theorem sync_writes_at_most_once ticket_id (dry_run : bool) tr out tr' :
  sync_ticket_to_shopify_note ticket_id dry_run tr = (out, tr') ->
  exists evs,
    tr' = tr ++ evs
    /\ (writes evs <= 1)%nat
    /\ (dry_run = true -> writes evs = 0%nat).
Proof.
  intros E.
  assert (B : writes_at_most (if dry_run then 0 else 1)
                (sync_ticket_to_shopify_note ticket_id dry_run)).
  { unfold sync_ticket_to_shopify_note.
    repeat first
      [ apply writes_at_most_append
      | apply writes_at_most_get_latest
      | apply writes_at_most_get_user
      | apply writes_at_most_find_order
      | apply writes_at_most_build
      | apply writes_at_most_print
      | apply writes_at_most_py_get
      | apply writes_at_most_py_getitem
      | apply writes_at_most_py_strip
      | match goal with
        | |- forall _, _ => intro
        | |- writes_at_most _ (if ?c then _ else _) => destruct c
        | |- writes_at_most _ (let '(_, _) := ?p in _) => destruct p
        | |- writes_at_most _ (fail _) =>
            let tr := fresh in let o := fresh in let t := fresh in
            let H := fresh in
            intros tr o t H; unfold fail in H; injection H as <- <-;
            eexists; split; [reflexivity|]; cbn; lia
        end
      | apply (writes_at_most_bind 0 _) ]. }
  destruct (B _ _ _ E) as (evs & -> & W).
  exists evs. split; auto. destruct dry_run; split; try lia; discriminate.
Qed.

(** *** Invariants of every run *)

Section Invariant.

(** A relation [I] that the primitive steps satisfy and that composes along
    a sequence of steps is satisfied by every run of the pipeline. *)
Variable I : trace -> ending -> trace -> Prop.

Hypothesis I_comp : forall tr e1 e e2,
  I tr Returned e1 -> I (tr ++ e1) e e2 -> I tr e (e1 ++ e2).
Hypothesis I_ret : forall tr, I tr Returned [].
Hypothesis I_raise : forall tr e, I tr (Raised e) [].
Hypothesis I_print : forall tr line, I tr Returned [Stdout line].
Hypothesis I_fail : forall tr msg, I tr (Exited 1) [error_line msg].
Hypothesis I_usage : forall tr, I tr (Exited 1) [Stdout usage_line].
Hypothesis I_zendesk_get : forall path params,
  obeys I (zendesk_request (py "GET") path params).
Hypothesis I_shopify_get : forall path params,
  obeys I (shopify_request (py "GET") path None params).
Hypothesis I_shopify_put : forall path payload,
  obeys I (shopify_request (py "PUT") path (Some payload) None).

Lemma obeys_bind {A B} (m : M A) (f : A -> M B) :
  obeys I m -> (forall x, obeys I (f x)) -> obeys I (bind m f).
Proof.
  intros Hm Hf tr out tr' E. unfold bind in E.
  destruct (m tr) as [[x|c|e] t] eqn:Em;
    destruct (Hm _ _ _ Em) as (e1 & -> & I1); cbn in I1.
  - destruct (Hf x _ _ _ E) as (e2 & -> & I2).
    exists (e1 ++ e2). split; [now rewrite app_assoc|].
    eapply I_comp; eauto.
  - injection E as <- <-. exists e1. auto.
  - injection E as <- <-. exists e1. auto.
Qed.

Lemma obeys_ret {A} (a : A) : obeys I (ret a).
Proof.
  intros tr out tr' E. unfold ret in E. injection E as <- <-.
  exists []. split; [now rewrite app_nil_r | apply I_ret].
Qed.

Lemma obeys_raise {A} e : obeys I (@raise A e).
Proof.
  intros tr out tr' E. unfold raise in E. injection E as <- <-.
  exists []. split; [now rewrite app_nil_r | apply I_raise].
Qed.

Lemma obeys_print line : obeys I (print line).
Proof.
  intros tr out tr' E. unfold print in E. injection E as <- <-.
  eexists. split; [reflexivity|]. apply I_print.
Qed.

Lemma obeys_fail {A} msg : obeys I (@fail A msg).
Proof.
  intros tr out tr' E. unfold fail in E. injection E as <- <-.
  eexists. split; [reflexivity|]. apply I_fail.
Qed.

Lemma obeys_py_get obj key default : obeys I (py_get obj key default).
Proof. destruct obj; cbn; auto using @obeys_ret, @obeys_raise. Qed.

Lemma obeys_py_getitem obj key : obeys I (py_getitem obj key).
Proof.
  destruct obj; cbn; auto using @obeys_raise.
  destruct (lookup key d); auto using @obeys_ret, @obeys_raise.
Qed.

Lemma obeys_py_getitem0 obj : obeys I (py_getitem0 obj).
Proof.
  destruct obj as [| | |[|]|[|]|]; cbn; auto using @obeys_ret, @obeys_raise.
Qed.

Lemma obeys_py_iter obj : obeys I (py_iter obj).
Proof. destruct obj; cbn; auto using @obeys_ret, @obeys_raise. Qed.

Lemma obeys_py_strip obj : obeys I (py_strip obj).
Proof. destruct obj; cbn; auto using @obeys_ret, @obeys_raise. Qed.

Lemma obeys_astimezone dt : obeys I (astimezone_utc dt).
Proof.
  unfold astimezone_utc.
  destruct (tzinfo dt) as [[|p|p]|];
    repeat match goal with
           | |- context [match ?x with Some _ => _ | None => _ end] =>
               destruct x
           | |- context [match ?x with inl _ => _ | inr _ => _ end] =>
               destruct x
           end;
    auto using @obeys_ret, @obeys_raise.
Qed.

(** One step of a proof that a sequence of calls obeys [I]. *)
Ltac obey_step :=
  first
    [ apply obeys_ret
    | apply obeys_raise
    | apply obeys_print
    | apply obeys_fail
    | apply obeys_py_get
    | apply obeys_py_getitem
    | apply obeys_py_getitem0
    | apply obeys_py_iter
    | apply obeys_py_strip
    | apply obeys_astimezone
    | apply I_zendesk_get
    | apply I_shopify_get
    | apply I_shopify_put
    | match goal with
      | |- forall _, _ => intro
      | |- obeys _ (if ?c then _ else _) => destruct c
      | |- obeys _ (let '(_, _) := ?p in _) => destruct p
      | |- obeys _ (match ?v with VStr _ => _ | _ => _ end) => destruct v
      end
    | apply obeys_bind ].

Lemma obeys_first_private comments : obeys I (first_private_comment comments).
Proof.
  induction comments as [|c rest IH]; cbn [first_private_comment].
  - apply obeys_ret.
  - apply obeys_bind; [apply obeys_py_get|]. intros public.
    destruct (negb (truthy public)); [|exact IH].
    repeat obey_step.
Qed.

Lemma obeys_get_latest ticket_id :
  obeys I (get_latest_private_comment ticket_id).
Proof.
  unfold get_latest_private_comment.
  repeat first [apply obeys_first_private | obey_step].
Qed.

Lemma obeys_get_user user_id : obeys I (get_zendesk_user_name user_id).
Proof. unfold get_zendesk_user_name. repeat obey_step. Qed.

Lemma obeys_find_order order_name :
  obeys I (find_shopify_order_by_name order_name).
Proof. unfold find_shopify_order_by_name. repeat obey_step. Qed.

Lemma obeys_build ticket_id agent_name created_at note_body :
  obeys I (build_note_block ticket_id agent_name created_at note_body).
Proof. unfold build_note_block. repeat obey_step. Qed.

Lemma obeys_append order note_block dry_run :
  obeys I (append_note_to_shopify_order order note_block dry_run).
Proof. unfold append_note_to_shopify_order. repeat obey_step. Qed.

Lemma obeys_sync ticket_id dry_run :
  obeys I (sync_ticket_to_shopify_note ticket_id dry_run).
Proof.
  unfold sync_ticket_to_shopify_note.
  repeat first
    [ apply obeys_get_latest
    | apply obeys_get_user
    | apply obeys_find_order
    | apply obeys_build
    | apply obeys_append
    | obey_step ].
Qed.

Lemma obeys_check_config : obeys I check_config.
Proof.
  unfold check_config. cbv zeta.
  match goal with
  | |- obeys _ (match ?l with [] => _ | _ => _ end) => destruct l
  end; [apply obeys_ret | apply obeys_fail].
Qed.

Lemma obeys_usage : obeys I (print usage_line ;;; @sys_exit unit 1).
Proof.
  intros tr out tr' E. unfold bind, print, sys_exit in E.
  injection E as <- <-. eexists. split; [reflexivity|]. apply I_usage.
Qed.

Lemma obeys_main : obeys I main.
Proof.
  unfold main. apply obeys_bind; [apply obeys_check_config|]. intros _.
  destruct argv as [|prog [|ticket_id flags]];
    [apply obeys_usage | apply obeys_usage | apply obeys_sync].
Qed.

End Invariant.

(** *** Requests that fail *)

Lemma app_eq_app_cons {A} (e1 e2 p q : list A) x :
  e1 ++ e2 = p ++ x :: q ->
  (exists q', e1 = p ++ x :: q' /\ q = q' ++ e2)
  \/ (exists p', p = e1 ++ p' /\ e2 = p' ++ x :: q).
Proof.
  revert p. induction e1 as [|a e1 IH]; intros p H.
  - right. exists p. auto.
  - destruct p as [|b p]; cbn in H; injection H as -> H.
    + left. exists e1. auto.
    + destruct (IH _ H) as [(q' & -> & ->)|(p' & -> & ->)];
        [left; exists q' | right; exists p']; split; reflexivity.
Qed.

Lemma single_eq_app_cons {A} (a x : A) p q :
  [a] = p ++ x :: q -> p = [] /\ a = x /\ q = [].
Proof.
  destruct p as [|b p]; cbn; intros H; injection H as -> H.
  - auto.
  - now destruct p.
Qed.

Lemma fail_fast_comp tr e1 e e2 :
  fail_fast tr Returned e1 -> fail_fast (tr ++ e1) e e2 ->
  fail_fast tr e (e1 ++ e2).
Proof.
  intros H1 H2 p r q E.
  apply app_eq_app_cons in E as [(q' & -> & ->)|(p' & -> & ->)].
  - specialize (H1 p r q' eq_refl).
    destruct (server (tr ++ p) r) as [resp|].
    + destruct (ok resp).
      * intros J. destruct (H1 J) as [_ X]. discriminate.
      * destruct H1 as [X _]. discriminate.
    + destruct H1 as [_ X]. discriminate.
  - specialize (H2 p' r q eq_refl). now rewrite <- app_assoc in H2.
Qed.

Lemma fail_fast_silent tr e evs : no_http evs -> fail_fast tr e evs.
Proof.
  intros N p r q ->. exfalso. apply (N r). apply in_elt.
Qed.

Lemma fail_fast_request service method path req :
  (forall resp,
     failure_report req resp
       (Stderr (py "[ERROR] " ++ service ++ method ++ py " " ++ path
                ++ py " failed: " ++ str_of_Z (status_code resp)
                ++ py " " ++ text resp))) ->
  obeys fail_fast (request_outcome service method path req).
Proof.
  intros R tr out tr' E. unfold request_outcome in E.
  destruct (server tr req) as [resp|] eqn:S.
  - destruct (ok resp) eqn:O.
    + destruct (json resp) as [v|] eqn:J; injection E as <- <-;
        (eexists; split; [reflexivity|]); intros p r q X;
        apply single_eq_app_cons in X as (-> & X & ->);
        injection X as <-; rewrite app_nil_r, S, O; cbn; auto; congruence.
    + injection E as <- <-. eexists. split; [reflexivity|]. intros p r q X.
      destruct p as [|b p]; cbn [app] in X; injection X as X1 X2.
      * subst r q. rewrite app_nil_r, S, O.
        split; auto. eexists. split; [reflexivity|]. apply R.
      * subst b. apply single_eq_app_cons in X2 as (_ & X & _). discriminate.
  - injection E as <- <-. eexists. split; [reflexivity|]. intros p r q X.
    apply single_eq_app_cons in X as (-> & X & ->).
    injection X as <-. rewrite app_nil_r, S. cbn. auto.
Qed.

Lemma fail_fast_zendesk method path params :
  obeys fail_fast (zendesk_request method path params).
Proof.
  intros tr out tr' E. rewrite zendesk_request_run in E.
  revert E. apply fail_fast_request. intros resp.
  exists (py "Zendesk API "), path. split; [reflexivity|]. left. auto.
Qed.

Lemma fail_fast_shopify method path body params :
  obeys fail_fast (shopify_request method path body params).
Proof.
  intros tr out tr' E. rewrite shopify_request_run in E.
  revert E. apply fail_fast_request. intros resp.
  exists (py "Shopify API "), path. split; [reflexivity|]. right. auto.
Qed.

Lemma fail_fast_main : obeys fail_fast main.
Proof.
  apply obeys_main.
  - apply fail_fast_comp.
  - intros tr. apply fail_fast_silent. intros r [].
  - intros tr e. apply fail_fast_silent. intros r [].
  - intros tr line. apply fail_fast_silent. intros r [H|[]]. discriminate.
  - intros tr msg. apply fail_fast_silent. intros r [H|[]]. discriminate.
  - intros tr. apply fail_fast_silent. intros r [H|[]]. discriminate.
  - intros. apply fail_fast_zendesk.
  - intros. apply fail_fast_shopify.
  - intros. apply fail_fast_shopify.
Qed.

(** Whatever the configuration, the arguments and the services: a request
    of the program that fails is the last thing the run does, the report of
    the failure apart.  With no reply the run ends at once with the
    exception of [requests]; with a reply that is not a success it writes
    one line to stderr, naming the service, the method, the path, the
    status and the body of the reply, and exits with status 1; with a
    success whose body is not JSON it ends at once with the decoding
    error.  No request follows and, in particular, no write. *)
Theorem main_fails_fast tr out tr' p r q :
  main tr = (out, tr') ->
  tr' = tr ++ p ++ Http r :: q ->
  match server (tr ++ p) r with
  | None => q = [] /\ out = Raise RequestException
  | Some resp =>
      if ok resp then
        json resp = None -> q = [] /\ out = Raise JSONDecodeError
      else
        out = Exit 1 /\ exists line, q = [line] /\ failure_report r resp line
  end.
Proof.
  intros E T. destruct (fail_fast_main _ _ _ E) as (evs & -> & F).
  apply app_inv_head in T. specialize (F p r q T).
  destruct (server (tr ++ p) r) as [resp|].
  - destruct (ok resp).
    + intros J. destruct (F J) as [-> X]. split; auto.
      destruct out; cbn in X; congruence.
    + destruct F as [X L]. split; auto. destruct out; cbn in X; congruence.
  - destruct F as [-> X]. split; auto. destruct out; cbn in X; congruence.
Qed.

(** *** Exit status and stderr *)

Lemma no_stderr_app a b : no_stderr a -> no_stderr b -> no_stderr (a ++ b).
Proof. intros Ha Hb l H. apply in_app_or in H as [H|H]; firstorder. Qed.

Lemma exit_discipline_comp tr e1 e e2 :
  exit_discipline tr Returned e1 -> exit_discipline (tr ++ e1) e e2 ->
  exit_discipline tr e (e1 ++ e2).
Proof.
  intros H1 H2. cbn in H1.
  destruct e as [|c|x]; cbn in *; auto using no_stderr_app.
  destruct H2 as (-> & pre & last & -> & N & L). split; auto.
  exists (e1 ++ pre), last. rewrite app_assoc. auto using no_stderr_app.
Qed.

Lemma exit_discipline_request service method path req :
  obeys exit_discipline (request_outcome service method path req).
Proof.
  intros tr out tr' E. unfold request_outcome in E.
  assert (N : no_stderr [Http req]) by (intros l [H|[]]; discriminate).
  destruct (server tr req) as [resp|].
  - destruct (ok resp).
    + destruct (json resp); injection E as <- <-;
        (eexists; split; [reflexivity|]); exact N.
    + injection E as <- <-. eexists. split; [reflexivity|]. cbn.
      split; auto. exists [Http req]. eexists. split; [reflexivity|].
      split; auto. right. eexists. reflexivity.
  - injection E as <- <-. eexists. split; [reflexivity|]. exact N.
Qed.

Lemma exit_discipline_main : obeys exit_discipline main.
Proof.
  apply obeys_main.
  - apply exit_discipline_comp.
  - intros tr l [].
  - intros tr e l [].
  - intros tr line l [H|[]]. discriminate.
  - intros tr msg. cbn. split; auto. exists [], (error_line msg).
    split; auto. split; [intros l []|]. right. eauto.
  - intros tr. cbn. split; auto. exists [], (Stdout usage_line).
    split; auto. split; [intros l []|]. now left.
  - intros path params tr out tr' E. rewrite zendesk_request_run in E.
    revert E. apply exit_discipline_request.
  - intros path params tr out tr' E. rewrite shopify_request_run in E.
    revert E. apply exit_discipline_request.
  - intros path payload tr out tr' E. rewrite shopify_request_run in E.
    revert E. apply exit_discipline_request.
Qed.

(** Whatever the configuration, the arguments and the services: when the
    program exits, the status is 1 and the last thing it did was to write
    an [ERROR] line to stderr or to print the usage line, with nothing else
    on stderr before; a run that returns (status 0) or dies of an exception
    has written nothing to stderr itself. *)
Theorem main_exit_discipline tr out tr' evs :
  main tr = (out, tr') ->
  tr' = tr ++ evs ->
  match out with
  | Exit c =>
      c = 1
      /\ exists pre last,
           evs = pre ++ [last] /\ no_stderr pre
           /\ (last = Stdout usage_line \/ exists msg, last = error_line msg)
  | _ => no_stderr evs
  end.
Proof.
  intros E T. destruct (exit_discipline_main _ _ _ E) as (evs' & -> & F).
  apply app_inv_head in T. subst evs'. now destruct out.
Qed.

(** *** Where the requests go *)

Lemma configured_zendesk_get path params :
  configured_request (zendesk_call (py "GET") path params).
Proof.
  left. cbn. repeat split. apply prefixb_app.
Qed.

Lemma configured_shopify_get path params :
  configured_request (shopify_call (py "GET") path None params).
Proof.
  right. cbn. repeat split; [apply prefixb_app|]. left. auto.
Qed.

Lemma configured_shopify_put path payload :
  configured_request (shopify_call (py "PUT") path (Some payload) None).
Proof.
  right. cbn. repeat split; [apply prefixb_app|]. right.
  repeat split. discriminate.
Qed.

Lemma configured_request_outcome service method path req :
  configured_request req ->
  obeys only_configured_requests (request_outcome service method path req).
Proof.
  intros C tr out tr' E.
  apply request_outcome_trace in E as [[-> _]|(line & -> & _)];
    (eexists; split; [reflexivity|]); intros r H; cbn in H;
    intuition congruence.
Qed.

Lemma only_configured_main : obeys only_configured_requests main.
Proof.
  apply obeys_main; unfold only_configured_requests.
  - intros tr e1 e e2 H1 H2 r H. apply in_app_or in H as [H|H]; auto.
  - intros tr r [].
  - intros tr e r [].
  - intros tr line r [H|[]]. discriminate.
  - intros tr msg r [H|[]]. discriminate.
  - intros tr r [H|[]]. discriminate.
  - intros path params tr out tr' E. rewrite zendesk_request_run in E.
    revert E. apply configured_request_outcome, configured_zendesk_get.
  - intros path params tr out tr' E. rewrite shopify_request_run in E.
    revert E. apply configured_request_outcome, configured_shopify_get.
  - intros path payload tr out tr' E. rewrite shopify_request_run in E.
    revert E. apply configured_request_outcome, configured_shopify_put.
Qed.

(** Whatever the arguments and the services answer, every request of the
    program goes to one of the two configured services with that service's
    credentials and no other.  A request to Zendesk is a GET without a body
    under basic authentication with the configured address and token: the
    program never changes anything in Zendesk.  A request to Shopify
    carries the access token in its header and no basic authentication,
    and is a GET without a body or a PUT with one. *)
Theorem main_requests_configured tr out tr' evs r :
  main tr = (out, tr') ->
  tr' = tr ++ evs ->
  In (Http r) evs ->
  configured_request r.
Proof.
  intros E T H. destruct (only_configured_main _ _ _ E) as (evs' & -> & F).
  apply app_inv_head in T. subst evs'. now apply F.
Qed.

(** *** Start-up *)

Lemma check_config_run tr :
  check_config tr
  = match missing_settings with
    | [] => (Return tt, tr)
    | _ => (Exit 1,
            tr ++ [error_line (py "Missing environment variables: "
                               ++ join_comma missing_settings)])
    end.
Proof.
  unfold check_config, missing_settings, required_settings.
  destruct ZENDESK_SUBDOMAIN, ZENDESK_EMAIL, ZENDESK_API_TOKEN,
    SHOPIFY_STORE, SHOPIFY_ADMIN_TOKEN; reflexivity.
Qed.

(** With one of the five required settings empty the program stops before
    it looks at its arguments and before any request: it writes one line
    to stderr, naming the empty settings in the order ZENDESK_SUBDOMAIN,
    ZENDESK_EMAIL, ZENDESK_API_TOKEN, SHOPIFY_STORE, SHOPIFY_ADMIN_TOKEN,
    and exits with status 1.  The API version is not among them. *)
Theorem main_incomplete_config tr :
  missing_settings <> [] ->
  main tr
  = (Exit 1,
     tr ++ [error_line (py "Missing environment variables: "
                        ++ join_comma missing_settings)]).
Proof.
  intros H. unfold main, bind. rewrite check_config_run.
  destruct missing_settings; [congruence|reflexivity].
Qed.

(** With the configuration complete and no ticket id on the command line
    the program prints the usage line on stdout and exits with status 1,
    having made no request and written nothing to stderr. *)
Theorem main_usage tr :
  missing_settings = [] ->
  (List.length argv < 2)%nat ->
  main tr = (Exit 1, tr ++ [Stdout usage_line]).
Proof.
  intros H L. unfold main. unfold bind at 1. rewrite check_config_run, H.
  destruct argv as [|prog [|ticket_id flags]]; try reflexivity.
  cbn in L. lia.
Qed.

(** *** The dry-run flag *)

Lemma pystr_eqb_refl a : pystr_eqb a a = true.
Proof. induction a as [|x a IH]; cbn; auto. now rewrite N.eqb_refl. Qed.

Lemma writes_at_most_sync ticket_id (dry_run : bool) :
  writes_at_most (if dry_run then 0 else 1)
    (sync_ticket_to_shopify_note ticket_id dry_run).
Proof.
  unfold sync_ticket_to_shopify_note.
  repeat first
    [ apply writes_at_most_append
    | apply writes_at_most_get_latest
    | apply writes_at_most_get_user
    | apply writes_at_most_find_order
    | apply writes_at_most_build
    | apply writes_at_most_print
    | apply writes_at_most_py_get
    | apply writes_at_most_py_getitem
    | apply writes_at_most_py_strip
    | match goal with
      | |- forall _, _ => intro
      | |- writes_at_most _ (if ?c then _ else _) => destruct c
      | |- writes_at_most _ (let '(_, _) := ?p in _) => destruct p
      | |- writes_at_most _ (fail _) =>
          let tr := fresh in let o := fresh in let t := fresh in
          let H := fresh in
          intros tr o t H; unfold fail in H; injection H as <- <-;
          eexists; split; [reflexivity|]; cbn; lia
      end
    | apply (writes_at_most_bind 0 _) ].
Qed.

Lemma writes_at_most_main :
  writes_at_most
    (if existsb (pystr_eqb (py "--dry-run")) (skipn 2 argv) then 0 else 1)
    main.
Proof.
  unfold main. apply (writes_at_most_bind 0 _).
  - intros tr out tr' E. rewrite check_config_run in E.
    destruct missing_settings; injection E as <- <-;
      eexists; (split; [symmetry; apply app_nil_r || reflexivity|]);
      cbn; lia.
  - intros _.
    destruct argv as [|prog [|ticket_id flags]]; cbn [skipn existsb].
    3: apply writes_at_most_sync.
    all: intros tr out tr' E; unfold bind, print, sys_exit in E;
      injection E as <- <-; eexists; (split; [reflexivity|]); cbn; lia.
Qed.

(** Whatever the configuration and the services answer, a run of the
    program issues at most one PUT request, and none at all when the flag
    is among the arguments that follow the ticket id. *)
Theorem main_dry_run_flag tr out tr' :
  main tr = (out, tr') ->
  exists evs,
    tr' = tr ++ evs
    /\ (writes evs <= 1)%nat
    /\ (In (py "--dry-run") (skipn 2 argv) -> writes evs = 0%nat).
Proof.
  intros E. destruct (writes_at_most_main _ _ _ E) as (evs & -> & W).
  exists evs. split; auto. split.
  - destruct (existsb _ _); lia.
  - intros H.
    assert (X : existsb (pystr_eqb (py "--dry-run")) (skipn 2 argv) = true).
    { apply existsb_exists. eexists. split; [exact H|].
      apply pystr_eqb_refl. }
    rewrite X in W. lia.
Qed.

(** *** A run that succeeds *)

Lemma rstrip_idem s : rstrip (rstrip s) = rstrip s.
Proof.
  induction s as [|c s IH]; cbn; auto.
  destruct (rstrip s) as [|x r] eqn:R.
  - destruct (isspace c) eqn:C; cbn; auto. now rewrite C.
  - change (rstrip (c :: x :: r))
      with (match rstrip (x :: r) with
            | [] => if isspace c then [] else [c]
            | y :: r' => c :: y :: r'
            end).
    now rewrite IH.
Qed.

Lemma lstrip_idem s : lstrip (lstrip s) = lstrip s.
Proof.
  induction s as [|c s IH]; cbn; auto.
  destruct (isspace c) eqn:C; auto. cbn. now rewrite C.
Qed.

Lemma lstrip_rstrip s : lstrip (rstrip s) = rstrip (lstrip s).
Proof.
  induction s as [|c s IH]; auto.
  cbn [lstrip]. destruct (isspace c) eqn:C.
  - rewrite <- IH. cbn [rstrip]. rewrite C.
    destruct (rstrip s) as [|x r]; auto. cbn [lstrip]. now rewrite C.
  - cbn [rstrip]. destruct (rstrip s) as [|x r]; rewrite ?C;
      cbn [lstrip]; now rewrite C.
Qed.

Lemma strip_idem s : strip (strip s) = strip s.
Proof.
  unfold strip. now rewrite lstrip_rstrip, lstrip_idem, rstrip_idem.
Qed.

Lemma extract_truthy s name :
  extract_shopify_order_name s = VStr name -> truthy (VStr name) = true.
Proof.
  intros X. pose proof (extract_search s) as Q. rewrite X in Q.
  destruct Q as (i & Hi & -> & _).
  unfold standalone_at, token_here in Hi.
  apply andb_prop in Hi as [Hi _]. apply andb_prop in Hi as [Hi _].
  now destruct (firstn 7 (skipn i s)).
Qed.

(** The pipeline up to the call that appends. *)
Lemma sync_reaches_append ticket_id dry_run tr comment created_at t1 body
      agent t2 name d order_id t3 block t4 :
  get_latest_private_comment ticket_id (tr ++ [Stdout (sync_banner ticket_id)])
  = (Return (comment, created_at), t1) ->
  truthy comment = true ->
  comment_body comment = Some body ->
  whitespace_only body = false ->
  get_zendesk_user_name (comment_author comment) t1 = (Return agent, t2) ->
  extract_shopify_order_name (strip body) = VStr name ->
  find_shopify_order_by_name (VStr name)
    (t2 ++ [Stdout (py "[INFO] Latest private comment by: " ++ py_format agent);
            Stdout (py "[INFO] Detected Shopify order name: " ++ name)])
  = (Return (VDict d), t3) ->
  lookup (py "id") d = Some order_id ->
  build_note_block ticket_id agent created_at (strip body)
    (t3 ++ [Stdout (py "[INFO] Found Shopify order ID: "
                    ++ py_format order_id)])
  = (Return block, t4) ->
  sync_ticket_to_shopify_note ticket_id dry_run tr
  = append_note_to_shopify_order (VDict d) block dry_run t4.
Proof.
  intros S1 T B W S2 X S3 Hid Hb. unfold sync_ticket_to_shopify_note.
  unfold bind at 1. unfold print at 1. fold (sync_banner ticket_id).
  unfold bind at 1. rewrite S1. rewrite T. cbn [negb].
  destruct comment as [| | | | |c]; try discriminate.
  unfold comment_body in B. unfold bind at 1. unfold py_get at 1, ret at 1.
  assert (E : match lookup (py "body") c with
              | Some v => v | None => VStr [] end = VStr body).
  { destruct (lookup (py "body") c) as [[]|]; congruence. }
  rewrite E. unfold bind at 1. unfold py_strip, ret at 1.
  rewrite truthy_strip, W. cbn [negb].
  unfold bind at 1. unfold py_get at 1, ret at 1.
  unfold comment_author in S2.
  unfold bind at 1. rewrite S2.
  unfold bind at 1. unfold print at 1.
  rewrite X. rewrite (extract_truthy _ _ X). cbn [negb].
  unfold bind at 1. unfold print at 1. cbn [py_format].
  rewrite <- app_assoc. cbn [app].
  unfold bind at 1. rewrite S3.
  assert (O : truthy (VDict d) = true) by (destruct d; [discriminate|auto]).
  rewrite O. cbn [negb].
  unfold bind at 1. unfold py_getitem at 1. rewrite Hid. unfold ret at 1.
  unfold bind at 1. unfold print at 1.
  unfold bind at 1. rewrite Hb. reflexivity.
Qed.

(** A run in which every stage finds what it looks for: the comment has a
    body with an order name in it, the author and the order are found, and
    the block can be built.  The block is the canonical rendering of the
    ticket id, the agent's name, a timestamp and the stripped body of the
    comment.  The run makes the three GET requests in order (comments,
    user, orders) with its log lines in between; a dry run then prints the
    merged note and returns; a real run sends that same note in one PUT to
    the order found and, the service accepting it, prints the [OK] line
    and returns. *)
Theorem sync_success ticket_id tr comment created_at t1 body agent t2 name
      d order_id existing t3 block :
  get_latest_private_comment ticket_id (tr ++ [Stdout (sync_banner ticket_id)])
  = (Return (comment, created_at), t1) ->
  truthy comment = true ->
  comment_body comment = Some body ->
  whitespace_only body = false ->
  get_zendesk_user_name (comment_author comment) t1 = (Return agent, t2) ->
  extract_shopify_order_name (strip body) = VStr name ->
  find_shopify_order_by_name (VStr name)
    (t2 ++ [Stdout (py "[INFO] Latest private comment by: " ++ py_format agent);
            Stdout (py "[INFO] Detected Shopify order name: " ++ name)])
  = (Return (VDict d), t3) ->
  lookup (py "id") d = Some order_id ->
  existing_note d = VStr existing ->
  let looked_up :=
    tr ++ [Stdout (sync_banner ticket_id);
           Http (comments_call ticket_id);
           Http (user_call (comment_author comment));
           Stdout (py "[INFO] Latest private comment by: " ++ py_format agent);
           Stdout (py "[INFO] Detected Shopify order name: " ++ name);
           Http (orders_call (VStr name));
           Stdout (py "[INFO] Found Shopify order ID: "
                   ++ py_format order_id)] in
  build_note_block ticket_id agent created_at (strip body) looked_up
  = (Return block, looked_up) ->
  let note := new_note existing block in
  (exists u,
     block = note_block_text ticket_id agent (strftime_note u) body)
  /\ sync_ticket_to_shopify_note ticket_id true tr
     = (Return tt, looked_up ++ dry_run_output note)
  /\ (forall resp v,
        server looked_up (put_note_request order_id note) = Some resp ->
        ok resp = true ->
        json resp = Some v ->
        sync_ticket_to_shopify_note ticket_id false tr
        = (Return tt,
           looked_up
           ++ [Http (put_note_request order_id note);
               Stdout (py "[OK] Updated Shopify order "
                       ++ py_format (match lookup (py "name") d with
                                     | Some v => v | None => VNone end)
                       ++ py " (ID " ++ py_format order_id
                       ++ py ") note.")])).
Proof.
  intros S1 T B W S2 X S3 Hid Hn looked_up Hb note.
  assert (L : looked_up
              = t3 ++ [Stdout (py "[INFO] Found Shopify order ID: "
                               ++ py_format order_id)]).
  { apply find_order_return in S3 as E3.
    apply get_user_return in S2 as E2.
    apply get_latest_return in S1 as E1.
    subst t3 t2 t1. unfold looked_up. now rewrite <- !app_assoc. }
  split; [|split].
  - rewrite build_note_block_run in Hb.
    destruct (astimezone_utc _ looked_up) as [[u|c|e] t]; try discriminate.
    injection Hb as <- _. exists u.
    unfold note_block_text. now rewrite strip_idem.
  - rewrite L in Hb.
    rewrite (sync_reaches_append _ true _ _ _ _ _ _ _ _ _ _ _ _ _
               S1 T B W S2 X S3 Hid Hb).
    rewrite <- L. apply (append_dry_run d order_id existing); auto.
  - intros resp v Sp Ok J. rewrite L in Hb.
    rewrite (sync_reaches_append _ false _ _ _ _ _ _ _ _ _ _ _ _ _
               S1 T B W S2 X S3 Hid Hb).
    rewrite <- L.
    rewrite (append_real_run d order_id existing block looked_up Hid Hn).
    fold note. unfold request_outcome. rewrite Sp, Ok, J.
    now rewrite <- app_assoc.
Qed.

(** *** Runs in a row *)

Lemma rstrip_app a b :
  whitespace_only b = false -> rstrip (a ++ b) = a ++ rstrip b.
Proof.
  intros W. induction a as [|c a IH]; auto.
  cbn [app rstrip]. rewrite IH.
  destruct (a ++ rstrip b) eqn:E; auto.
  apply app_eq_nil in E as [_ E]. apply rstrip_nil_iff in E.
  unfold whitespace_only in W. congruence.
Qed.

Lemma whitespace_only_app a b :
  whitespace_only (a ++ b) = whitespace_only a && whitespace_only b.
Proof. apply forallb_app. Qed.

(** Appending a block to a note and then a second block to the result
    gives the log one expects: the note from before (trailing whitespace
    dropped), the first block (trailing whitespace dropped), the second
    block, each separated from the next by one blank line.  Nothing is
    compared with what is there: appending the same block twice gives it
    twice. *)
Theorem notes_accumulate existing block1 block2 :
  whitespace_only block1 = false ->
  new_note (new_note existing block1) block2
  = (if whitespace_only existing then []
     else rstrip existing ++ [NL; NL])
    ++ rstrip block1 ++ [NL; NL] ++ block2.
Proof.
  intros W. rewrite (new_note_spec existing block1).
  destruct (whitespace_only existing) eqn:E.
  - rewrite new_note_spec, W. reflexivity.
  - rewrite new_note_spec.
    rewrite !whitespace_only_app, W, !andb_false_r.
    replace (rstrip existing ++ [NL; NL] ++ block1)
      with ((rstrip existing ++ [NL; NL]) ++ block1)
      by now rewrite <- app_assoc.
    rewrite (rstrip_app _ block1 W). now rewrite <- !app_assoc.
Qed.

(** *** Conversion to UTC *)

(** The date of a day number is a date of the calendar, and it is the date
    with that day number. *)
Lemma ord2ymd_round_trip n :
  1 <= n <= 3652059 ->
  let '(y, m, d) := ord2ymd n in
  ymd2ord y m d = n /\ valid_fields y m d 0 0 0 0 = true.
Proof.
  intros Hn. unfold ord2ymd.
  set (n0 := n - 1).
  set (n400 := n0 / 146097). set (r1 := n0 mod 146097).
  set (n100 := r1 / 36524). set (r2 := r1 mod 36524).
  set (n4 := r2 / 1461). set (r3 := r2 mod 1461).
  set (n1 := r3 / 365). set (r4 := r3 mod 365).
  assert (B : 0 <= n400 /\ 0 <= n100 <= 4 /\ 0 <= n4 <= 24 /\ 0 <= n1 <= 4
              /\ 0 <= r4 <= 364
              /\ n0 = 146097 * n400 + 36524 * n100 + 1461 * n4 + 365 * n1 + r4
              /\ 0 <= n0 <= 3652058
              /\ 365 * n1 + r4 <= 1460
              /\ 1461 * n4 + 365 * n1 + r4 <= 36523
              /\ 36524 * n100 + 1461 * n4 + 365 * n1 + r4 <= 146096).
  { subst n400 r1 n100 r2 n4 r3 n1 r4 n0. Z.div_mod_to_equations. lia. }
  assert (Hn0 : n = n0 + 1) by (subst n0; lia).
  clearbody n400 n100 n4 n1 r4 n0. clear r1 r2 r3. subst n.
  set (y := n400 * 400 + 1 + n100 * 100 + n4 * 4 + n1).
  assert (Y : 1 <= y <= 9999) by (subst y; lia).
  destruct ((n1 =? 4) || (n100 =? 4)) eqn:E.
  - (* the last day of a leap year *)
    assert (L : is_leap (y - 1) = true).
    { unfold is_leap. apply orb_prop in E.
      apply andb_true_intro. split.
      - apply Z.eqb_eq. subst y. Z.div_mod_to_equations. lia.
      - destruct ((y - 1) mod 400 =? 0) eqn:Q; [apply orb_true_r|].
        rewrite orb_false_r. apply negb_true_iff. apply Z.eqb_neq.
        apply Z.eqb_neq in Q. subst y. Z.div_mod_to_equations. lia. }
    unfold ymd2ord, valid_fields, days_in_month, days_before_month,
      days_before_year, MINYEAR, MAXYEAR.
    rewrite L. cbn. apply orb_prop in E. split.
    + subst y. Z.div_mod_to_equations. lia.
    + repeat (apply andb_true_intro; split); auto;
        try apply Z.leb_le; lia.
  - apply orb_false_elim in E as [E1 E2].
    apply Z.eqb_neq in E1, E2.
    rewrite Z.shiftr_div_pow2 by lia. change (2 ^ 5) with 32.
    set (m := (r4 + 50) / 32).
    assert (M : 32 * m <= r4 + 50 < 32 * m + 32).
    { subst m. Z.div_mod_to_equations. lia. }
    clearbody m.
    assert (L : is_leap y = (n1 =? 3) && (negb (n4 =? 24) || (n100 =? 3))).
    { unfold is_leap.
      destruct (Z.eqb_spec n1 3) as [N1|N1]; cbn [andb].
      - assert (Q : y mod 4 = 0) by (subst y; Z.div_mod_to_equations; lia).
        rewrite Q. cbn [Z.eqb andb].
        destruct (Z.eqb_spec n4 24) as [N4|N4]; cbn [negb orb].
        + assert (Q1 : y mod 100 = 0)
            by (subst y; Z.div_mod_to_equations; lia).
          rewrite Q1. cbn [Z.eqb negb orb].
          destruct (Z.eqb_spec n100 3) as [N100|N100].
          * apply Z.eqb_eq. subst y. Z.div_mod_to_equations. lia.
          * apply Z.eqb_neq. subst y. Z.div_mod_to_equations. lia.
        + assert (Q1 : y mod 100 <> 0)
            by (subst y; Z.div_mod_to_equations; lia).
          apply Z.eqb_neq in Q1. now rewrite Q1.
      - assert (Q : y mod 4 <> 0) by (subst y; Z.div_mod_to_equations; lia).
        apply Z.eqb_neq in Q. now rewrite Q. }
    assert (DY : days_before_year y
                 = n400 * 146097 + n100 * 36524 + n4 * 1461 + n1 * 365).
    { unfold days_before_year. subst y. Z.div_mod_to_equations. lia. }
    assert (Hm : m = 1 \/ m = 2 \/ m = 3 \/ m = 4 \/ m = 5 \/ m = 6 \/ m = 7
                 \/ m = 8 \/ m = 9 \/ m = 10 \/ m = 11 \/ m = 12) by lia.
    rewrite <- L. clear L E1 E2.
    destruct (is_leap y) eqn:L;
      repeat (destruct Hm as [->|Hm]); try subst m;
      match goal with
      | |- context [r4 <? ?P] =>
          let v := eval vm_compute in P in change P with v
      end;
      match goal with |- context [?a <? ?b] => destruct (Z.ltb_spec a b) end;
      unfold ymd2ord, valid_fields, days_in_month, days_before_month,
        MINYEAR, MAXYEAR;
      rewrite DY, ?L; cbn;
      (split; [lia|]);
      repeat (apply andb_true_intro; split); auto;
      try apply Z.leb_le; lia.
Qed.

(** The time of day of a count of microseconds within a day. *)
Lemma time_of_day_round_trip us :
  0 <= us < US_PER_DAY ->
  let s := us / 1000000 in
  (s / 3600 * 3600 + s mod 3600 / 60 * 60 + s mod 60) * 1000000
  + us mod 1000000 = us
  /\ 0 <= s / 3600 <= 23 /\ 0 <= s mod 3600 / 60 <= 59
  /\ 0 <= s mod 60 <= 59 /\ 0 <= us mod 1000000 <= 999999.
Proof.
  unfold US_PER_DAY. intros H. cbv zeta. Z.div_mod_to_equations. lia.
Qed.

(** What [shift_to_utc] returns is a date and time of the calendar, in
    UTC, as many microseconds after 0001-01-01T00:00 as the value it was
    given less the offset. *)
Lemma shift_to_utc_instant dt off u :
  shift_to_utc dt off = Some u ->
  valid_datetime u = true /\ tzinfo u = Some 0
  /\ to_microseconds u = to_microseconds dt - off.
Proof.
  unfold shift_to_utc.
  set (t := to_microseconds dt - off).
  destruct ((0 <=? t / US_PER_DAY) && (t / US_PER_DAY <? 3652059)) eqn:E;
    [|discriminate].
  apply andb_prop in E as [E1 E2]. apply Z.leb_le in E1. apply Z.ltb_lt in E2.
  pose proof (ord2ymd_round_trip (t / US_PER_DAY + 1)) as B.
  destruct (ord2ymd (t / US_PER_DAY + 1)) as [[y m] d].
  destruct B as [B V]; [lia|].
  assert (P : 0 <= t mod US_PER_DAY < US_PER_DAY)
    by (apply Z.mod_pos_bound; reflexivity).
  destruct (time_of_day_round_trip _ P) as (T & Hh & Hm & Hs & Hu).
  cbv zeta in T, Hh, Hm, Hs, Hu.
  intros H. injection H as <-. split; [|split]; [|reflexivity|].
  - unfold valid_datetime. cbn [year month day hour minute second microsecond].
    unfold valid_fields in *.
    repeat match type of V with
           | _ && _ = true => apply andb_prop in V as [V ?]
           end.
    repeat (apply andb_true_intro; split); auto; apply Z.leb_le; lia.
  - unfold to_microseconds at 1.
    cbn [year month day hour minute second microsecond].
    rewrite B. rewrite T.
    pose proof (Z.div_mod t US_PER_DAY) as Q. unfold US_PER_DAY in *. lia.
Qed.

(** The offset [astimezone] works with: the value's own, or the machine's
    for a value without one. *)
Lemma astimezone_utc_instant dt off tr u tr' :
  valid_datetime dt = true ->
  offset_used dt = Some off ->
  astimezone_utc dt tr = (Return u, tr') ->
  valid_datetime u = true /\ tzinfo u = Some 0
  /\ to_microseconds u = to_microseconds dt - off.
Proof.
  intros V O. unfold offset_used in O. unfold astimezone_utc, ret, raise.
  destruct (tzinfo dt) as [[|p|p]|] eqn:T.
  - injection O as <-. intros H. injection H as <- _.
    repeat split; auto. lia.
  - injection O as <-.
    destruct (shift_to_utc dt _) eqn:S; intros H; [|discriminate].
    injection H as <- _. now apply shift_to_utc_instant.
  - injection O as <-.
    destruct (shift_to_utc dt _) eqn:S; intros H; [|discriminate].
    injection H as <- _. now apply shift_to_utc_instant.
  - destruct (local_utcoffset dt) as [o|e]; [|discriminate].
    injection O as <-.
    destruct (shift_to_utc dt _) eqn:S; intros H; [|discriminate].
    injection H as <- _. now apply shift_to_utc_instant.
Qed.

(** The timestamp of a block is the creation time converted to UTC: when
    the creation time parses, the block that is returned carries the
    rendering of a date and time of the calendar, in UTC, that is the same
    moment as the one parsed, its offset taken off (the offset it carries
    or, when it carries none, the offset of the machine's zone). *)
Theorem build_converts_to_utc ticket_id agent_name created_at note_body tr
      dt off block tr' :
  try_fromisoformat created_at = Some dt ->
  offset_used dt = Some off ->
  build_note_block ticket_id agent_name created_at note_body tr
  = (Return block, tr') ->
  exists u,
    block = note_block_text ticket_id agent_name (strftime_note u) note_body
    /\ valid_datetime u = true
    /\ tzinfo u = Some 0
    /\ to_microseconds u = to_microseconds dt - off.
Proof.
  intros P O H. rewrite build_note_block_run in H.
  unfold parse_created_at in H. rewrite P in H.
  destruct (astimezone_utc dt tr) as [[u|c|e] t] eqn:A; try discriminate.
  injection H as <- _. exists u. split; auto.
  assert (V : valid_datetime dt = true)
    by now apply (try_fromisoformat_valid created_at).
  eapply astimezone_utc_instant; eauto.
Qed.

End Script.

(** ** Timestamps as CPython 3.11 parses them

    The results of this part are about particular texts, and so about a
    particular parser: [datetime_fromisoformat] takes the place of the
    variable [fromisoformat]. *)

Section CPython.

Variable py_repr : pyval -> pystr.
Variable utc_now : datetime.
Variable local_utcoffset : datetime -> Z + exn.
Variable year_padded : bool.

(** C5: the block of the specification's example, whatever the clock, the
    machine's zone and the trace. *)
Theorem build_note_block_example tr :
  build_note_block py_repr datetime_fromisoformat utc_now local_utcoffset
    year_padded (VInt 123456) (VStr (py "Dana"))
    (VStr (py "2024-03-01T15:04:00Z")) (py "  Hello world  ") tr
  = (Return (py "#123456 | Dana | 2024-03-01 15:04 UTC" ++ [NL; NL]
             ++ py "Hello world" ++ [NL; NL] ++ py "---" ++ [NL]), tr).
Proof.
  rewrite build_note_block_run.
  assert (P : parse_created_at datetime_fromisoformat utc_now
                (VStr (py "2024-03-01T15:04:00Z"))
              = mk_datetime 2024 3 1 15 4 0 0 (Some 0))
    by (vm_compute; reflexivity).
  rewrite P. cbn [astimezone_utc tzinfo]. unfold ret.
  assert (T : strftime_note year_padded (mk_datetime 2024 3 1 15 4 0 0 (Some 0))
              = py "2024-03-01 15:04 UTC")
    by (unfold strftime_note; destruct year_padded; reflexivity).
  rewrite T. reflexivity.
Qed.

(** *** Timestamps that carry UTC *)

Lemma pystr_eqb_eq a b : pystr_eqb a b = true -> a = b.
Proof.
  revert b. induction a as [|x a IH]; intros [|y b]; cbn; try discriminate; auto.
  intros H. apply andb_prop in H as [H1 H2].
  apply N.eqb_eq in H1. subst y. f_equal. auto.
Qed.

Lemma ascii_digit_cases c :
  ascii_digit c = true ->
  In c [48; 49; 50; 51; 52; 53; 54; 55; 56; 57]%N.
Proof.
  unfold ascii_digit. intros H. apply andb_prop in H as [L U].
  apply N.leb_le in L, U. cbn.
  assert (c = 48 \/ c = 49 \/ c = 50 \/ c = 51 \/ c = 52 \/ c = 53
          \/ c = 54 \/ c = 55 \/ c = 56 \/ c = 57)%N by lia.
  intuition auto.
Qed.

Lemma digit_not c k :
  ascii_digit c = true -> (k <? 48)%N || (57 <? k)%N = true ->
  N.eqb c k = false.
Proof.
  unfold ascii_digit. intros H K. apply andb_prop in H as [L U].
  apply N.leb_le in L, U. apply N.eqb_neq.
  apply orb_prop in K as [K|K]; apply N.ltb_lt in K; lia.
Qed.

Lemma parse_digits_from_value ds : forall acc p,
  forallb ascii_digit ds = true ->
  parse_digits_from acc (List.length ds) (ds ++ p)
  = Some (fold_left (fun acc c => acc * 10 + Z.of_N (c - 48)) ds acc, p).
Proof.
  induction ds as [|c ds IH]; intros acc p H; [reflexivity|].
  cbn in H. apply andb_prop in H as [Hc H].
  cbn [List.length app parse_digits_from peek hd tl fold_left].
  rewrite Hc. now apply IH.
Qed.

Lemma parse_digits_value ds p :
  forallb ascii_digit ds = true ->
  parse_digits (ds ++ p) (List.length ds) = Some (value_of ds, p).
Proof. apply parse_digits_from_value. Qed.

(** Printing what two digits say, on two digits, gives them back. *)
Lemma two_digits_round_trip a b :
  ascii_digit a = true -> ascii_digit b = true ->
  zfill 2 (str_of_Z (value_of [a; b])) = [a; b].
Proof.
  intros Ha Hb.
  pose (ds := [48; 49; 50; 51; 52; 53; 54; 55; 56; 57]%N).
  assert (A : forallb (fun a => forallb (fun b =>
                pystr_eqb (zfill 2 (str_of_Z (value_of [a; b]))) [a; b])
                ds) ds = true) by (vm_compute; reflexivity).
  rewrite forallb_forall in A.
  specialize (A a (ascii_digit_cases a Ha)). rewrite forallb_forall in A.
  specialize (A b (ascii_digit_cases b Hb)).
  now apply pystr_eqb_eq.
Qed.

(** The same on four digits; without padding, when the first is not 0. *)
Lemma four_digits_round_trip a b c d :
  forallb ascii_digit [a; b; c; d] = true ->
  zfill 4 (str_of_Z (value_of [a; b; c; d])) = [a; b; c; d]
  /\ (a <> 48%N -> str_of_Z (value_of [a; b; c; d]) = [a; b; c; d]).
Proof.
  intros H. cbn in H.
  apply andb_prop in H as [Ha H]. apply andb_prop in H as [Hb H].
  apply andb_prop in H as [Hc H]. apply andb_prop in H as [Hd _].
  pose (ds := [48; 49; 50; 51; 52; 53; 54; 55; 56; 57]%N).
  assert (A : forallb (fun a => forallb (fun b => forallb (fun c =>
              forallb (fun d =>
                pystr_eqb (zfill 4 (str_of_Z (value_of [a; b; c; d])))
                  [a; b; c; d]
                && (N.eqb a 48
                    || pystr_eqb (str_of_Z (value_of [a; b; c; d]))
                         [a; b; c; d]))
                ds) ds) ds) ds = true) by (vm_compute; reflexivity).
  rewrite forallb_forall in A.
  specialize (A a (ascii_digit_cases a Ha)). rewrite forallb_forall in A.
  specialize (A b (ascii_digit_cases b Hb)). rewrite forallb_forall in A.
  specialize (A c (ascii_digit_cases c Hc)). rewrite forallb_forall in A.
  specialize (A d (ascii_digit_cases d Hd)).
  apply andb_prop in A as [A1 A2].
  split; [now apply pystr_eqb_eq|].
  intros N0. apply orb_prop in A2 as [A2|A2].
  - apply N.eqb_eq in A2. contradiction.
  - now apply pystr_eqb_eq.
Qed.

(** An ASCII character is its own encoding. *)
Lemma utf8_char_ascii c : (c <? 128)%N = true -> utf8_char c = [c].
Proof. unfold utf8_char. now intros ->. Qed.

Lemma digit_ascii c : ascii_digit c = true -> (c <? 128)%N = true.
Proof.
  unfold ascii_digit. intros H. apply andb_prop in H as [L U].
  apply N.leb_le in L, U. apply N.ltb_lt. lia.
Qed.

Lemma digit_encodable c : ascii_digit c = true -> encodable c = true.
Proof.
  unfold ascii_digit, encodable, is_surrogate. intros H.
  apply andb_prop in H as [L U]. apply N.leb_le in L, U.
  apply andb_true_intro. split.
  - apply negb_true_iff. apply andb_false_intro1. apply N.leb_gt. lia.
  - apply N.ltb_lt. lia.
Qed.

Lemma digit_not_surrogate c : ascii_digit c = true -> is_surrogate c = false.
Proof.
  intros H. apply digit_encodable in H. unfold encodable in H.
  apply andb_prop in H as [H _]. now apply negb_true_iff in H.
Qed.

(** The width found from the first byte of an encoded character is the
    length of its encoding. *)
Lemma separator_width_byte b0 :
  (b0 < 256)%N ->
  separator_width b0
  = if (b0 <? 128)%N then 1%nat else if (b0 <? 224)%N then 2%nat
    else if (b0 <? 240)%N then 3%nat else 4%nat.
Proof.
  intros H.
  assert (A : forallb (fun k =>
                Nat.eqb (separator_width (N.of_nat k))
                  (if (N.of_nat k <? 128)%N then 1 else
                   if (N.of_nat k <? 224)%N then 2 else
                   if (N.of_nat k <? 240)%N then 3 else 4)%nat)
                (seq 0 256) = true) by (vm_compute; reflexivity).
  rewrite forallb_forall in A. specialize (A (N.to_nat b0)).
  rewrite N2Nat.id in A. apply Nat.eqb_eq. apply A. apply in_seq. lia.
Qed.

Lemma skip_separator c tail :
  encodable c = true ->
  skipn (separator_width (peek (utf8_char c ++ tail))) (utf8_char c ++ tail)
  = tail.
Proof.
  unfold encodable, is_surrogate. intros H.
  apply andb_prop in H as [_ U]. apply N.ltb_lt in U.
  unfold utf8_char.
  destruct (N.ltb_spec c 128) as [C1|C1];
    [|destruct (N.ltb_spec c 2048) as [C2|C2];
      [|destruct (N.ltb_spec c 65536) as [C3|C3]]];
    cbn [app peek hd].
  - rewrite separator_width_byte by lia.
    apply N.ltb_lt in C1. now rewrite C1.
  - assert (Q : (2 <= c / 64 < 32)%N).
    { split; [apply N.div_le_lower_bound|apply N.Div0.div_lt_upper_bound];
        lia. }
    set (q := (c / 64)%N) in *. clearbody q.
    rewrite separator_width_byte by lia.
    destruct (N.ltb_spec (192 + q) 128); [lia|].
    destruct (N.ltb_spec (192 + q) 224); [reflexivity|lia].
  - assert (Q : (c / 4096 < 16)%N) by (apply N.Div0.div_lt_upper_bound; lia).
    set (q := (c / 4096)%N) in *. clearbody q.
    rewrite separator_width_byte by lia.
    destruct (N.ltb_spec (224 + q) 128); [lia|].
    destruct (N.ltb_spec (224 + q) 224); [lia|].
    destruct (N.ltb_spec (224 + q) 240); [reflexivity|lia].
  - assert (Q : (c / 262144 < 5)%N) by (apply N.Div0.div_lt_upper_bound; lia).
    set (q := (c / 262144)%N) in *. clearbody q.
    rewrite separator_width_byte by lia.
    destruct (N.ltb_spec (240 + q) 128); [lia|].
    destruct (N.ltb_spec (240 + q) 224); [lia|].
    destruct (N.ltb_spec (240 + q) 240); [lia|reflexivity].
Qed.

Lemma utf8_char_length c : (1 <= List.length (utf8_char c))%nat.
Proof.
  unfold utf8_char.
  destruct (c <? 128)%N; [cbn; lia|].
  destruct (c <? 2048)%N; [cbn; lia|].
  destruct (c <? 65536)%N; cbn; lia.
Qed.

(** A time that starts HH:MM, if it is accepted, has that hour and that
    minute, whatever follows. *)
Lemma parse_hh_mm_prefix h1 h2 i1 i2 q n hh mi ss us more :
  ascii_digit h1 = true -> ascii_digit h2 = true ->
  ascii_digit i1 = true -> ascii_digit i2 = true ->
  5 <= n ->
  parse_hh_mm_ss_ff (h1 :: h2 :: 58%N :: i1 :: i2 :: q) n
  = Some (hh, mi, ss, us, more) ->
  hh = value_of [h1; h2] /\ mi = value_of [i1; i2].
Proof.
  intros H1 H2 I1 I2 Hn. unfold parse_hh_mm_ss_ff.
  change (h1 :: h2 :: 58%N :: i1 :: i2 :: q)
    with ([h1; h2] ++ 58%N :: i1 :: i2 :: q).
  rewrite (parse_digits_value [h1; h2]) by (cbn; now rewrite H1, H2).
  cbn [peek hd]. change ((58 =? 58)%N) with true.
  unfold after_two_digits at 1. cbn [peek hd tl andb].
  destruct (Z.leb_spec (n - 2 - 1) 0); [lia|].
  change ((58 =? 58)%N) with true. cbn [andb].
  change (i1 :: i2 :: q) with ([i1; i2] ++ q).
  rewrite (parse_digits_value [i1; i2]) by (cbn; now rewrite I1, I2).
  destruct (after_two_digits true q (n - 2 - 1 - 2)) as [m| q' m | q' m |].
  - intros E. injection E as <- <- _ _ _. auto.
  - destruct (parse_digits q' 2) as [[s p3]|]; [|discriminate].
    destruct (after_two_digits true p3 (m - 2)) as [m'| q'' m' | q'' m' |];
      unfold with_fraction;
      try (destruct (parse_fraction q'' m') as [[u o]|]);
      try discriminate; intros E; injection E as <- <- _ _ _; auto.
  - unfold with_fraction.
    destruct (parse_fraction q' m) as [[u o]|]; [|discriminate].
    intros E. injection E as <- <- _ _ _. auto.
  - discriminate.
Qed.

Lemma digit_not_tz_mark c : ascii_digit c = true -> is_tz_mark c = false.
Proof.
  intros H. unfold is_tz_mark.
  now rewrite !(digit_not c) by (assumption || reflexivity).
Qed.

Lemma parse_time_hh_mm h1 h2 i1 i2 q hh mi ss us tz :
  ascii_digit h1 = true -> ascii_digit h2 = true ->
  ascii_digit i1 = true -> ascii_digit i2 = true ->
  parse_isoformat_time (h1 :: h2 :: 58%N :: i1 :: i2 :: q)
  = Some (hh, mi, ss, us, tz) ->
  hh = value_of [h1; h2] /\ mi = value_of [i1; i2].
Proof.
  intros H1 H2 I1 I2. unfold parse_isoformat_time.
  cbn [List.length Nat.eqb tz_position].
  rewrite (digit_not_tz_mark h1), (digit_not_tz_mark h2),
    (digit_not_tz_mark i1), (digit_not_tz_mark i2) by assumption.
  change (is_tz_mark 58) with false. cbv iota.
  destruct (parse_hh_mm_ss_ff _ _) as [[[[[a b] c] d] e]|] eqn:P;
    [|discriminate].
  apply parse_hh_mm_prefix in P as [-> ->]; auto; [|lia].
  intros E.
  repeat match type of E with
         | (if ?x then _ else _) = _ => destruct x
         | match ?x with _ => _ end = _ => destruct x
         | (let '(_, _) := ?x in _) = _ => destruct x
         end;
    try discriminate; injection E as <- <- _ _ _; auto.
Qed.

(** The first sixteen characters of a timestamp [YYYY-MM-DD?HH:MM...] that
    is accepted give the year, the month, the day, the hour and the
    minute. *)
Lemma fromisoformat_fields y1 y2 y3 y4 m1 m2 d1 d2 sep h1 h2 i1 i2 rest dt :
  forallb ascii_digit [y1; y2; y3; y4; m1; m2; d1; d2; h1; h2; i1; i2] = true ->
  datetime_fromisoformat
    ([y1; y2; y3; y4; 45; m1; m2; 45; d1; d2]%N
     ++ sep :: [h1; h2; 58; i1; i2]%N ++ rest) = Some dt ->
  year dt = value_of [y1; y2; y3; y4]
  /\ month dt = value_of [m1; m2]
  /\ day dt = value_of [d1; d2]
  /\ hour dt = value_of [h1; h2]
  /\ minute dt = value_of [i1; i2].
Proof.
  intros D P. pose proof D as D'. cbn [forallb] in D'.
  repeat match type of D' with
         | (_ && _) = true =>
             let H := fresh "Hd" in apply andb_prop in D' as [H D']
         end.
  unfold datetime_fromisoformat in P.
  (* the separator, a surrogate replaced *)
  set (sep' := if is_surrogate sep then 84%N else sep).
  assert (S : sanitize_isoformat_str
                ([y1; y2; y3; y4; 45; m1; m2; 45; d1; d2]%N
                 ++ sep :: [h1; h2; 58; i1; i2]%N ++ rest)
              = Some ([y1; y2; y3; y4; 45; m1; m2; 45; d1; d2]%N
                      ++ sep' :: [h1; h2; 58; i1; i2]%N ++ rest)).
  { unfold sanitize_isoformat_str. cbn [app List.length Nat.ltb Nat.leb nth].
    change (is_surrogate 45) with false.
    rewrite (digit_not_surrogate d1) by assumption.
    rewrite !andb_false_r. cbn [andb].
    unfold sep'. destruct (is_surrogate sep); reflexivity. }
  rewrite S in P. clear S.
  unfold utf8 in P.
  destruct (forallb encodable _) eqn:En; [|discriminate].
  cbn [app forallb] in En.
  repeat match type of En with
         | (_ && _) = true =>
             let H := fresh "He" in apply andb_prop in En as [H En]
         end.
  cbn [app flat_map] in P.
  rewrite !(utf8_char_ascii y1), !(utf8_char_ascii y2), !(utf8_char_ascii y3),
    !(utf8_char_ascii y4), !(utf8_char_ascii m1), !(utf8_char_ascii m2),
    !(utf8_char_ascii d1), !(utf8_char_ascii d2), !(utf8_char_ascii h1),
    !(utf8_char_ascii h2), !(utf8_char_ascii i1), !(utf8_char_ascii i2)
    in P by now apply digit_ascii.
  change (utf8_char 45) with [45%N] in P.
  change (utf8_char 58) with [58%N] in P.
  cbn [app] in P.
  set (rb := flat_map utf8_char rest) in P.
  (* where the date ends *)
  assert (F : find_isoformat_datetime_separator
                (y1 :: y2 :: y3 :: y4 :: 45%N :: m1 :: m2 :: 45%N :: d1 :: d2
                 :: utf8_char sep' ++ h1 :: h2 :: 58%N :: i1 :: i2 :: rb)
              = Some 10%nat).
  { unfold find_isoformat_datetime_separator, byte_at.
    cbn [List.length Nat.eqb nth].
    change ((45 =? 45)%N) with true. cbv iota.
    now rewrite (digit_not m1) by (assumption || reflexivity). }
  rewrite F in P. clear F.
  (* the date *)
  assert (Dt : parse_isoformat_date
                 (y1 :: y2 :: y3 :: y4 :: 45%N :: m1 :: m2 :: 45%N :: d1 :: d2
                  :: utf8_char sep' ++ h1 :: h2 :: 58%N :: i1 :: i2 :: rb) 10
               = Some (value_of [y1; y2; y3; y4], value_of [m1; m2],
                       value_of [d1; d2])).
  { unfold parse_isoformat_date.
    change (y1 :: y2 :: y3 :: y4 :: 45%N :: ?t)
      with ([y1; y2; y3; y4] ++ 45%N :: t).
    rewrite (parse_digits_value [y1; y2; y3; y4])
      by (cbn; now rewrite Hd, Hd0, Hd1, Hd2).
    cbn [peek hd tl]. change ((45 =? 45)%N) with true. cbv iota.
    cbn [peek hd tl].
    rewrite (digit_not m1) by (assumption || reflexivity).
    change (m1 :: m2 :: 45%N :: ?t) with ([m1; m2] ++ 45%N :: t).
    rewrite (parse_digits_value [m1; m2]) by (cbn; now rewrite Hd3, Hd4).
    cbn [peek hd tl andb negb]. change ((45 =? 45)%N) with true.
    cbn [andb negb].
    change (d1 :: d2 :: ?t) with ([d1; d2] ++ t).
    now rewrite (parse_digits_value [d1; d2]) by (cbn; now rewrite Hd5, Hd6). }
  rewrite Dt in P. clear Dt.
  (* the separator and the time *)
  cbn [List.length] in P.
  pose proof (utf8_char_length sep') as L.
  assert (Lt : (10 <? S (S (S (S (S (S (S (S (S (S
                 (List.length (utf8_char sep' ++ h1 :: h2 :: 58%N :: i1 :: i2
                               :: rb))))))))))))%nat = true).
  { apply Nat.ltb_lt. rewrite length_app. lia. }
  rewrite Lt in P. clear Lt. cbn [skipn] in P.
  rewrite skip_separator in P by exact He9.
  destruct (parse_isoformat_time _) as [[[[[hh mi] ss] us] tz]|] eqn:T;
    [|discriminate].
  apply parse_time_hh_mm in T as [-> ->]; auto.
  destruct (tzinfo_from_isoformat_results tz) as [tzinfo|]; [|discriminate].
  destruct (valid_fields _ _ _ _ _ _ _); [|discriminate].
  injection P as <-. cbn. auto.
Qed.

Lemma replace_char_keeps old new c s :
  N.eqb c old = false ->
  replace_char old new (c :: s) = c :: replace_char old new s.
Proof. intros H. cbn. now rewrite H. Qed.

(** A creation time that carries UTC, written as Zendesk writes it
    (YYYY-MM-DD, a separator, HH:MM, and whatever follows: seconds, a
    fraction, the zone as Z or as +00:00), comes out in the block as it
    went in: the same date, hour and minute.  The year is assumed to have
    four digits where the platform does not pad it. *)
Theorem build_keeps_utc_timestamp ticket_id agent_name note_body tr
      y1 y2 y3 y4 m1 m2 d1 d2 sep h1 h2 i1 i2 rest dt :
  let date := [y1; y2; y3; y4; 45; m1; m2; 45; d1; d2]%N in
  let time := [h1; h2; 58; i1; i2]%N in
  forallb ascii_digit [y1; y2; y3; y4; m1; m2; d1; d2; h1; h2; i1; i2] = true ->
  sep <> 90%N ->
  try_fromisoformat datetime_fromisoformat
    (VStr (date ++ sep :: time ++ rest)) = Some dt ->
  tzinfo dt = Some 0 ->
  year_padded = true \/ y1 <> 48%N ->
  build_note_block py_repr datetime_fromisoformat utc_now local_utcoffset
    year_padded ticket_id agent_name (VStr (date ++ sep :: time ++ rest))
    note_body tr
  = (Return (note_block_text py_repr ticket_id agent_name
               (date ++ py " " ++ time ++ py " UTC") note_body), tr).
Proof.
  intros date time D Sep P Tz Y.
  rewrite build_note_block_run. unfold parse_created_at. rewrite P.
  unfold astimezone_utc. rewrite Tz. unfold ret.
  do 2 f_equal.
  pose proof D as D'. cbn [forallb] in D'.
  repeat match type of D' with
         | (_ && _) = true =>
             let H := fresh "Hd" in apply andb_prop in D' as [H D']
         end.
  unfold try_fromisoformat, py_or in P. unfold date, time in P.
  cbn [app truthy] in P.
  rewrite !replace_char_keeps in P
    by first [ apply digit_not; [assumption|reflexivity]
             | reflexivity
             | now apply N.eqb_neq ].
  apply (fromisoformat_fields y1 y2 y3 y4 m1 m2 d1 d2 sep h1 h2 i1 i2 _ dt D)
    in P as (Ey & Em & Ed & Eh & Ei).
  destruct (four_digits_round_trip y1 y2 y3 y4) as (Zy & Uy).
  { cbn [forallb]. now rewrite Hd, Hd0, Hd1, Hd2. }
  pose proof (two_digits_round_trip m1 m2 Hd3 Hd4) as Zm.
  pose proof (two_digits_round_trip d1 d2 Hd5 Hd6) as Zd.
  pose proof (two_digits_round_trip h1 h2 Hd7 Hd8) as Zh.
  pose proof (two_digits_round_trip i1 i2 Hd9 Hd10) as Zi.
  f_equal. unfold strftime_note.
  rewrite Ey, Em, Ed, Eh, Ei, Zm, Zd, Zh, Zi.
  destruct Y as [Y|Y].
  - rewrite Y, Zy. reflexivity.
  - destruct year_padded; [rewrite Zy|rewrite (Uy Y)]; reflexivity.
Qed.

End CPython.

(** ** Worked runs *)

(** The pipeline and its parts in the concrete environment, the services
    given. *)
Abbreviation sample_latest server :=
  (get_latest_private_comment sample_repr server
     (py "aleena") (py "agent@example.com") (py "zd-token")).

Abbreviation sample_append server :=
  (append_note_to_shopify_order sample_repr server
     (py "shopaleena") (py "shp-token") (py "2024-01")).

Abbreviation sample_build :=
  (build_note_block sample_repr datetime_fromisoformat sample_now sample_local_utcoffset
     sample_year_padded).

Abbreviation sample_sync server :=
  (sync_ticket_to_shopify_note ascii_isdecimal ascii_isalnum sample_repr
     datetime_fromisoformat sample_now sample_local_utcoffset sample_year_padded server
     (py "aleena") (py "agent@example.com") (py "zd-token")
     (py "shopaleena") (py "shp-token") (py "2024-01")).

Abbreviation sample_main server argv :=
  (main ascii_isdecimal ascii_isalnum sample_repr
     datetime_fromisoformat sample_now sample_local_utcoffset sample_year_padded server
     (py "aleena") (py "agent@example.com") (py "zd-token")
     (py "shopaleena") (py "shp-token") (py "2024-01") argv).

Abbreviation sample_banner := (Stdout (sync_banner sample_repr sample_ticket)).

Abbreviation sample_comments_call :=
  (comments_call sample_repr (py "aleena") (py "agent@example.com")
     (py "zd-token") sample_ticket).

Abbreviation sample_user_call :=
  (user_call sample_repr (py "aleena") (py "agent@example.com")
     (py "zd-token") (VInt 77)).

Abbreviation sample_orders_call :=
  (orders_call (py "shopaleena") (py "shp-token") (py "2024-01")
     (VStr (py "A273302"))).

Lemma ascii_alnum_A : ascii_isalnum 65%N = true.
Proof. reflexivity. Qed.

Lemma ascii_decimal_alnum c :
  ascii_isdecimal c = true -> ascii_isalnum c = true.
Proof. unfold ascii_isalnum, ascii_isdecimal. now intros ->. Qed.

(** A whole run that succeeds: four requests, the last one the PUT. *)
Example sync_real_run :
  let server := scripted [comments_reply [public_comment; private_comment];
                          user_reply;
                          orders_reply [VDict (sample_order (VStr (py "Prior note" ++ [NL])))];
                          reply (VDict [])] in
  exists t,
    sample_sync server sample_ticket false [] = (Return tt, t)
    /\ filter is_put t
       = [Http (put_note_request sample_repr (py "shopaleena") (py "shp-token")
                  (py "2024-01") (VInt 5001)
                  (py "Prior note" ++ [NL; NL] ++ sample_block))]
    /\ List.length (filter is_http t) = 4%nat.
Proof. eexists. repeat split; vm_compute; reflexivity. Qed.

(** The same run, dry: three requests, no PUT, the note on stdout. *)
Example sync_dry_run :
  let server := scripted [comments_reply [public_comment; private_comment];
                          user_reply;
                          orders_reply [VDict (sample_order (VStr (py "Prior note" ++ [NL])))]] in
  exists t,
    sample_sync server sample_ticket true [] = (Return tt, t)
    /\ filter is_put t = []
    /\ In (Stdout (py "Prior note" ++ [NL; NL] ++ sample_block)) t.
Proof.
  eexists. split; [vm_compute; reflexivity|]. split; [reflexivity|].
  do 9 right. left. reflexivity.
Qed.

(** *** C1 *)

(** The statement of C1 applied to a text with two order names. *)
Lemma extract_leftmost_standalone_token_witness :
  let text := py "Refund agreed for A273302, see also A111111" in
  exists i,
    standalone_at ascii_isdecimal ascii_isalnum text i = true
    /\ py "A273302" = firstn 7 (skipn i text)
    /\ forall j, (j < i)%nat ->
         standalone_at ascii_isdecimal ascii_isalnum text j = false.
Proof.
  apply (extract_leftmost_standalone_token ascii_isdecimal ascii_isalnum
           ascii_alnum_A ascii_decimal_alnum).
  reflexivity.
Defined.

(** C1, counterexample: B123456 is a token in the claim's first wording,
    and so is the A123456 of _A123456 (an underscore is not alphanumeric);
    the function returns [None] on both texts, whatever the Unicode
    tables. *)
Lemma extract_misses_claimed_tokens :
  (forall isdecimal isalnum,
      (forall c, ascii_digit c = true -> isdecimal c = true) ->
      claimed_standalone_at isdecimal isalnum (py "B123456") 0 = true)
  /\ (forall isdecimal isalnum,
        extract_shopify_order_name isdecimal isalnum (py "B123456") = VNone)
  /\ (forall isdecimal isalnum,
        (forall c, ascii_digit c = true -> isdecimal c = true) ->
        isalnum 95%N = false ->
        claimed_standalone_at isdecimal isalnum (py "_A123456") 1 = true)
  /\ (forall isdecimal isalnum,
        isalnum 65%N = true ->
        extract_shopify_order_name isdecimal isalnum (py "_A123456") = VNone).
Proof.
  split; [|split; [|split]].
  - intros isdecimal isalnum D. unfold claimed_standalone_at.
    change (py "B123456") with [66; 49; 50; 51; 52; 53; 54]%N.
    cbn. rewrite !D by reflexivity. reflexivity.
  - intros isdecimal isalnum. unfold extract_shopify_order_name, re_search.
    change (py "B123456") with [66; 49; 50; 51; 52; 53; 54]%N.
    cbn.
    repeat match goal with
           | |- context [if ?c then _ else _] => destruct c
           end; reflexivity.
  - intros isdecimal isalnum D U. unfold claimed_standalone_at.
    change (py "_A123456") with [95; 65; 49; 50; 51; 52; 53; 54]%N.
    cbn. rewrite !D by reflexivity. rewrite U. reflexivity.
  - intros isdecimal isalnum A. unfold extract_shopify_order_name, re_search.
    change (py "_A123456") with [95; 65; 49; 50; 51; 52; 53; 54]%N.
    cbn. unfold isword. rewrite A. cbn. rewrite !orb_true_r. cbn.
    repeat match goal with
           | |- context [if ?c then _ else _] => destruct c
           end; reflexivity.
Qed.

(** *** C2 and C10 *)

Lemma three_comments_fetched :
  comments_fetched sample_repr (scripted [comments_reply three_comments])
    (py "aleena") (py "agent@example.com") (py "zd-token")
    sample_ticket [] three_comments.
Proof.
  exists (comments_reply three_comments),
    [(py "comments", VList three_comments)].
  repeat split; reflexivity.
Qed.

(** The statement of C2 on a ticket with a public comment followed by two
    private ones: the first private one comes back. *)
Lemma latest_private_is_first_private_witness :
  sample_latest (scripted [comments_reply three_comments]) sample_ticket []
  = (Return (private_comment, VStr (py "2024-03-01T15:04:00Z")),
     [Http (comments_call sample_repr (py "aleena") (py "agent@example.com")
              (py "zd-token") sample_ticket)]).
Proof.
  apply (proj1 (latest_private_is_first_private sample_repr
                  (scripted [comments_reply three_comments])
                  (py "aleena") (py "agent@example.com") (py "zd-token")
                  sample_ticket [] three_comments three_comments_fetched)
           [public_comment] private_comment [older_private_comment]);
    reflexivity.
Defined.

(** The statement of C10 on the same ticket: the comment that comes back
    carries the flag, and the flag is false. *)
Lemma selected_comment_flag_false_witness :
  exists d v,
    private_comment = VDict d
    /\ lookup (py "public") d = Some v /\ truthy v = false
    /\ (v = VBool false \/ v = VNone \/ v = VInt 0 \/ v = VStr []
        \/ v = VList [] \/ v = VDict [])
    /\ flag_absent private_comment = false
    /\ (forall b, v = VBool b -> flag_is false private_comment = true).
Proof.
  apply (selected_comment_flag_false sample_repr
           (scripted [comments_reply three_comments])
           (py "aleena") (py "agent@example.com") (py "zd-token")
           sample_ticket [] private_comment
           (VStr (py "2024-03-01T15:04:00Z"))
           [Http (comments_call sample_repr (py "aleena")
                    (py "agent@example.com") (py "zd-token") sample_ticket)]).
  - reflexivity.
  - discriminate.
Defined.

(** C10, counterexample to the first wording: a record whose flag is null
    is returned, and its flag is not the boolean false. *)
Lemma selected_comment_flag_null :
  sample_latest (scripted [comments_reply [public_comment; null_flag_comment]])
    sample_ticket []
  = (Return (null_flag_comment, VNone), [Http sample_comments_call])
  /\ flag_is false null_flag_comment = false
  /\ flag_absent null_flag_comment = false.
Proof. repeat split; reflexivity. Qed.

(** *** C3 and C4 *)

(** The statement of C3 on an order whose note is "Prior note\n". *)
Lemma append_note_merge_witness :
  sample_append (scripted [])
    (VDict (sample_order (VStr (py "Prior note" ++ [NL])))) sample_block true []
  = (Return tt, dry_run_output (py "Prior note" ++ [NL; NL] ++ sample_block)).
Proof.
  apply (append_note_merge sample_repr (scripted [])
           (py "shopaleena") (py "shp-token") (py "2024-01")
           (sample_order (VStr (py "Prior note" ++ [NL]))) (VInt 5001)
           (py "Prior note" ++ [NL]) sample_block []);
    reflexivity.
Defined.

(** The statement of C4 on an order whose note ends in blanks. *)
Lemma append_keeps_stripped_note_witness :
  exists kept ws body c,
    py "Prior note  " ++ [NL] = kept ++ ws /\ whitespace_only ws = true
    /\ kept = body ++ [c] /\ isspace c = false
    /\ prefixb kept (new_note (py "Prior note  " ++ [NL]) sample_block) = true
    /\ new_note (py "Prior note  " ++ [NL]) sample_block
       = kept ++ [NL; NL] ++ sample_block
    /\ sample_append (scripted [])
         (VDict (sample_order (VStr (py "Prior note  " ++ [NL]))))
         sample_block true []
       = (Return tt, [] ++ dry_run_output (kept ++ [NL; NL] ++ sample_block)).
Proof.
  apply (append_keeps_stripped_note sample_repr (scripted [])
           (py "shopaleena") (py "shp-token") (py "2024-01")
           (sample_order (VStr (py "Prior note  " ++ [NL]))) (VInt 5001)
           (py "Prior note  " ++ [NL]) sample_block []);
    reflexivity.
Defined.

(** C4, counterexample: a note that ends in a blank is not a prefix of the
    new note, which has the blank stripped. *)
Lemma new_note_drops_trailing_blank :
  existing_note (sample_order (VStr (py "Prior note "))) = VStr (py "Prior note ")
  /\ whitespace_only (py "Prior note ") = false
  /\ sample_append (scripted [])
       (VDict (sample_order (VStr (py "Prior note ")))) sample_block true []
     = (Return tt,
        dry_run_output (py "Prior note" ++ [NL; NL] ++ sample_block))
  /\ prefixb (py "Prior note ")
       (py "Prior note" ++ [NL; NL] ++ sample_block) = false.
Proof. repeat split; reflexivity. Qed.

(** *** C6 *)

(** The statement of C6 on a timestamp that is not in ISO format. *)
Lemma build_note_block_fallback_witness :
  sample_build sample_ticket (VStr (py "Dana")) (VStr (py "yesterday at noon"))
    (py " Refund agreed for A273302 ") []
  = (Return (py "#123456 | Dana | 2026-11-03 09:05 UTC" ++ [NL; NL]
             ++ py "Refund agreed for A273302" ++ [NL; NL] ++ py "---" ++ [NL]),
     [])
  /\ timestamp_shape (strftime_note sample_year_padded sample_now) = true.
Proof.
  apply (proj1 (build_note_block_fallback sample_repr datetime_fromisoformat sample_now
                  sample_local_utcoffset sample_year_padded
                  datetime_fromisoformat_valid eq_refl eq_refl eq_refl
                  ltac:(cbn; lia)
                  sample_ticket (VStr (py "Dana"))
                  (VStr (py "yesterday at noon"))
                  (py " Refund agreed for A273302 ") [])).
  reflexivity.
Defined.

(** C6, counterexample: a timestamp that parses, one hour ahead of UTC in
    the first hour of year 1.  Its UTC reading is in year 0, and
    [astimezone], outside the [try], raises. *)
Lemma build_note_block_raises :
  exists created_at,
    try_fromisoformat datetime_fromisoformat created_at
    = Some (mk_datetime 1 1 1 0 0 0 0 (Some 3600000000))
    /\ forall py_repr utc_now local_utcoffset year_padded ticket_id agent_name
              note_body tr,
         build_note_block py_repr datetime_fromisoformat utc_now
           local_utcoffset year_padded
           ticket_id agent_name created_at note_body tr
         = (Raise OverflowError, tr).
Proof.
  exists (VStr (py "0001-01-01T00:00:00+01:00")). split; [reflexivity|].
  intros. reflexivity.
Qed.

(** *** C8 and C9 *)

(** The statement of C9 on a ticket whose latest private comment is
    blank. *)
Lemma empty_body_is_fatal_witness :
  sample_sync
    (scripted [comments_reply [public_comment; blank_private_comment;
                               private_comment]])
    sample_ticket false []
  = (Exit 1,
     [sample_banner; Http sample_comments_call;
      error_line (py "Latest private comment has empty body")]).
Proof.
  apply (empty_body_is_fatal ascii_isdecimal ascii_isalnum sample_repr
           datetime_fromisoformat sample_now sample_local_utcoffset sample_year_padded
           (scripted [comments_reply [public_comment; blank_private_comment;
                                      private_comment]])
           (py "aleena") (py "agent@example.com") (py "zd-token")
           (py "shopaleena") (py "shp-token") (py "2024-01")
           sample_ticket false [] blank_private_comment VNone
           [sample_banner; Http sample_comments_call] (py "   "));
    reflexivity.
Defined.

(** The statement of C8 on a ticket whose order name matches no order:
    three GET requests, the error, and no write. *)
Lemma no_partial_success_witness :
  let server := scripted [comments_reply three_comments; user_reply;
                          orders_reply []] in
  exists final,
    sample_sync server sample_ticket false [] = (Exit 1, final)
    /\ final = ([] ++ [sample_banner; Http sample_comments_call]
                ++ [Http sample_user_call;
                    Stdout (py "[INFO] Latest private comment by: "
                            ++ py "Dana")])
               ++ [Stdout (py "[INFO] Detected Shopify order name: "
                           ++ py "A273302");
                   Http sample_orders_call;
                   error_line (py "Shopify order with name "
                               ++ py "A273302" ++ py " not found")]
    /\ writes final = writes [].
Proof.
  intros server.
  assert (S1 : sample_latest server sample_ticket ([] ++ [sample_banner])
               = (Return (private_comment, VStr (py "2024-03-01T15:04:00Z")),
                  [sample_banner; Http sample_comments_call]))
    by reflexivity.
  destruct (no_partial_success ascii_isdecimal ascii_isalnum sample_repr
              datetime_fromisoformat sample_now sample_local_utcoffset sample_year_padded server
              (py "aleena") (py "agent@example.com") (py "zd-token")
              (py "shopaleena") (py "shp-token") (py "2024-01")
              ascii_alnum_A ascii_decimal_alnum
              sample_ticket false [] private_comment
              (VStr (py "2024-03-01T15:04:00Z"))
              [sample_banner; Http sample_comments_call] S1) as [_ H].
  destruct (H (py "  Refund agreed for A273302  ") eq_refl eq_refl) as [_ H2].
  destruct (H2 (VStr (py "Dana"))
              [sample_banner; Http sample_comments_call; Http sample_user_call]
              eq_refl eq_refl) as [_ H3].
  exact (H3 (py "A273302") VNone
           [sample_banner; Http sample_comments_call; Http sample_user_call;
            Stdout (py "[INFO] Latest private comment by: " ++ py "Dana");
            Stdout (py "[INFO] Detected Shopify order name: " ++ py "A273302");
            Http sample_orders_call]
           eq_refl eq_refl eq_refl).
Defined.

(** *** Further runs *)

(** [sync_writes_at_most_once] on the dry run above. *)
Lemma sync_writes_at_most_once_witness :
  let server := scripted [comments_reply [public_comment; private_comment];
                          user_reply;
                          orders_reply [VDict (sample_order VNone)]] in
  exists evs,
    snd (sample_sync server sample_ticket true []) = [] ++ evs
    /\ (writes evs <= 1)%nat
    /\ (true = true -> writes evs = 0%nat).
Proof.
  intros server.
  apply (sync_writes_at_most_once ascii_isdecimal ascii_isalnum sample_repr
           datetime_fromisoformat sample_now sample_local_utcoffset sample_year_padded server
           (py "aleena") (py "agent@example.com") (py "zd-token")
           (py "shopaleena") (py "shp-token") (py "2024-01")
           sample_ticket true []
           (fst (sample_sync server sample_ticket true []))).
  apply surjective_pairing.
Defined.

(** [user_name_fallback] on a user record without a name. *)
Lemma user_name_fallback_witness :
  get_zendesk_user_name sample_repr
    (scripted [reply (VDict [(py "user", VDict [(py "id", VInt 77)])])])
    (py "aleena") (py "agent@example.com") (py "zd-token") (VInt 77) []
  = (Return (VStr (py "User 77")), [Http sample_user_call]).
Proof.
  apply (user_name_fallback sample_repr
           (scripted [reply (VDict [(py "user", VDict [(py "id", VInt 77)])])])
           (py "aleena") (py "agent@example.com") (py "zd-token") (VInt 77) []
           (reply (VDict [(py "user", VDict [(py "id", VInt 77)])]))
           [(py "user", VDict [(py "id", VInt 77)])]
           [(py "id", VInt 77)]);
    try reflexivity.
  left. reflexivity.
Defined.

(** [find_order_first] on a reply with two orders of the same name. *)
Lemma find_order_first_witness :
  find_shopify_order_by_name (scripted [orders_reply
                                          [VDict (sample_order VNone);
                                           VDict [(py "id", VInt 5002)]]])
    (py "shopaleena") (py "shp-token") (py "2024-01") (VStr (py "A273302")) []
  = (Return (VDict (sample_order VNone)), [Http sample_orders_call]).
Proof.
  apply (find_order_first
           (scripted [orders_reply [VDict (sample_order VNone);
                                    VDict [(py "id", VInt 5002)]]])
           (py "shopaleena") (py "shp-token") (py "2024-01")
           (VStr (py "A273302")) []
           (orders_reply [VDict (sample_order VNone);
                          VDict [(py "id", VInt 5002)]])
           [(py "orders", VList [VDict (sample_order VNone);
                                 VDict [(py "id", VInt 5002)]])]
           [VDict (sample_order VNone); VDict [(py "id", VInt 5002)]]);
    reflexivity.
Defined.

(** *** The program as a whole *)

(** [main_fails_fast] on a run whose second request, the one for the
    author, gets a 404: the run ends there with the report. *)
Lemma main_fails_fast_witness :
  let server := scripted [comments_reply [private_comment]; not_found_reply] in
  let report :=
    error_line (py "Zendesk API GET /users/77.json failed: 404 Not Found") in
  @Exit unit 1 = Exit 1
  /\ exists line,
       [report] = [line]
       /\ failure_report (py "aleena") (py "shopaleena") (py "2024-01")
            sample_user_call not_found_reply line.
Proof.
  intros server report.
  apply (main_fails_fast ascii_isdecimal ascii_isalnum sample_repr
           datetime_fromisoformat sample_now sample_local_utcoffset sample_year_padded server
           (py "aleena") (py "agent@example.com") (py "zd-token")
           (py "shopaleena") (py "shp-token") (py "2024-01")
           sample_argv [] (Exit 1)
           ([] ++ [sample_banner; Http sample_comments_call]
               ++ Http sample_user_call :: [report])
           [sample_banner; Http sample_comments_call]
           sample_user_call [report]);
    [vm_compute; reflexivity | reflexivity].
Defined.

(** [main_exit_discipline] on the same run. *)
Lemma main_exit_discipline_witness :
  let report :=
    error_line (py "Zendesk API GET /users/77.json failed: 404 Not Found") in
  let evs := [sample_banner; Http sample_comments_call; Http sample_user_call;
              report] in
  1 = 1
  /\ exists pre last,
       evs = pre ++ [last] /\ no_stderr pre
       /\ (last = Stdout usage_line \/ exists msg, last = error_line msg).
Proof.
  intros report evs.
  apply (main_exit_discipline ascii_isdecimal ascii_isalnum sample_repr
           datetime_fromisoformat sample_now sample_local_utcoffset sample_year_padded
           (scripted [comments_reply [private_comment]; not_found_reply])
           (py "aleena") (py "agent@example.com") (py "zd-token")
           (py "shopaleena") (py "shp-token") (py "2024-01")
           sample_argv [] (Exit 1) ([] ++ evs) evs);
    [vm_compute; reflexivity | reflexivity].
Defined.

(** [main_requests_configured] on the PUT of a run that succeeds. *)
Lemma main_requests_configured_witness :
  configured_request (py "aleena") (py "agent@example.com") (py "zd-token")
    (py "shopaleena") (py "shp-token") (py "2024-01")
    (put_note_request sample_repr (py "shopaleena") (py "shp-token")
       (py "2024-01") (VInt 5001) sample_block).
Proof.
  pose (server := scripted [comments_reply [public_comment; private_comment];
                            user_reply;
                            orders_reply [VDict (sample_order VNone)];
                            reply (VDict [])]).
  apply (main_requests_configured ascii_isdecimal ascii_isalnum sample_repr
           datetime_fromisoformat sample_now sample_local_utcoffset sample_year_padded server
           (py "aleena") (py "agent@example.com") (py "zd-token")
           (py "shopaleena") (py "shp-token") (py "2024-01")
           sample_argv []
           (fst (sample_main server sample_argv []))
           ([] ++ snd (sample_main server sample_argv []))
           (snd (sample_main server sample_argv [])));
    [apply surjective_pairing | reflexivity |].
  vm_compute. do 7 right. left. reflexivity.
Defined.

(** [main_incomplete_config] with two of the settings empty. *)
Lemma main_incomplete_config_witness :
  main ascii_isdecimal ascii_isalnum sample_repr datetime_fromisoformat sample_now
    sample_local_utcoffset sample_year_padded (scripted [])
    (py "aleena") [] (py "zd-token") (py "shopaleena") [] (py "2024-01")
    sample_argv []
  = (Exit 1,
     [error_line (py "Missing environment variables: ZENDESK_EMAIL, SHOPIFY_ADMIN_TOKEN")]).
Proof.
  apply (main_incomplete_config ascii_isdecimal ascii_isalnum sample_repr
           datetime_fromisoformat sample_now sample_local_utcoffset sample_year_padded (scripted [])
           (py "aleena") [] (py "zd-token") (py "shopaleena") []
           (py "2024-01") sample_argv []).
  discriminate.
Defined.

(** [main_usage] with the program's name as the only argument. *)
Lemma main_usage_witness :
  sample_main (scripted []) [py "sync.py"] []
  = (Exit 1, [Stdout usage_line]).
Proof.
  apply (main_usage ascii_isdecimal ascii_isalnum sample_repr datetime_fromisoformat sample_now
           sample_local_utcoffset sample_year_padded (scripted [])
           (py "aleena") (py "agent@example.com") (py "zd-token")
           (py "shopaleena") (py "shp-token") (py "2024-01")
           [py "sync.py"] []);
    [reflexivity | cbn; lia].
Defined.

(** [main_dry_run_flag] with the flag after another argument. *)
Lemma main_dry_run_flag_witness :
  let server := scripted [comments_reply [public_comment; private_comment];
                          user_reply;
                          orders_reply [VDict (sample_order VNone)]] in
  let argv := [py "sync.py"; py "123456"; py "--verbose"; py "--dry-run"] in
  exists evs,
    snd (sample_main server argv []) = [] ++ evs
    /\ (writes evs <= 1)%nat
    /\ (In (py "--dry-run") (skipn 2 argv) -> writes evs = 0%nat).
Proof.
  intros server argv.
  apply (main_dry_run_flag ascii_isdecimal ascii_isalnum sample_repr
           datetime_fromisoformat sample_now sample_local_utcoffset sample_year_padded server
           (py "aleena") (py "agent@example.com") (py "zd-token")
           (py "shopaleena") (py "shp-token") (py "2024-01")
           argv [] (fst (sample_main server argv []))).
  apply surjective_pairing.
Defined.

(** [sync_success] on the run of [sync_real_run]. *)
Lemma sync_success_witness :
  let prior := py "Prior note" ++ [NL] in
  let server := scripted [comments_reply [public_comment; private_comment];
                          user_reply;
                          orders_reply [VDict (sample_order (VStr prior))];
                          reply (VDict [])] in
  let put := put_note_request sample_repr (py "shopaleena") (py "shp-token")
               (py "2024-01") (VInt 5001)
               (py "Prior note" ++ [NL; NL] ++ sample_block) in
  exists looked_up,
    sample_sync server sample_ticket false []
    = (Return tt,
       looked_up
       ++ [Http put;
           Stdout (py "[OK] Updated Shopify order A273302 (ID 5001) note.")])
    /\ List.length (filter is_http looked_up) = 3%nat.
Proof.
  intros prior server put.
  destruct (sync_success ascii_isdecimal ascii_isalnum sample_repr
              datetime_fromisoformat sample_now sample_local_utcoffset sample_year_padded server
              (py "aleena") (py "agent@example.com") (py "zd-token")
              (py "shopaleena") (py "shp-token") (py "2024-01")
              ascii_alnum_A ascii_decimal_alnum
              sample_ticket [] private_comment
              (VStr (py "2024-03-01T15:04:00Z"))
              [sample_banner; Http sample_comments_call]
              (py "  Refund agreed for A273302  ")
              (VStr (py "Dana"))
              [sample_banner; Http sample_comments_call; Http sample_user_call]
              (py "A273302")
              (sample_order (VStr prior)) (VInt 5001) prior
              [sample_banner; Http sample_comments_call; Http sample_user_call;
               Stdout (py "[INFO] Latest private comment by: Dana");
               Stdout (py "[INFO] Detected Shopify order name: A273302");
               Http sample_orders_call]
              sample_block)
    as (_ & _ & R); try (vm_compute; reflexivity).
  eexists. split.
  - apply (R (reply (VDict [])) (VDict [])); reflexivity.
  - reflexivity.
Defined.

(** [notes_accumulate] on the same block appended twice. *)
Lemma notes_accumulate_witness :
  new_note (new_note (py "Prior note" ++ [NL]) sample_block) sample_block
  = py "Prior note" ++ [NL; NL] ++ removelast sample_block
    ++ [NL; NL] ++ sample_block.
Proof.
  apply (notes_accumulate (py "Prior note" ++ [NL]) sample_block sample_block).
  reflexivity.
Defined.

(** [build_keeps_utc_timestamp] on the creation time of [private_comment]:
    the block is [sample_block]. *)
Lemma build_keeps_utc_timestamp_witness :
  sample_build sample_ticket (VStr (py "Dana"))
    (VStr (py "2024-03-01T15:04:00Z")) (py "  Refund agreed for A273302  ") []
  = (Return sample_block, []).
Proof.
  apply (build_keeps_utc_timestamp sample_repr sample_now
           sample_local_utcoffset sample_year_padded
           sample_ticket (VStr (py "Dana"))
           (py "  Refund agreed for A273302  ") []
           50 48 50 52 48 51 48 49 84 49 53 48 52 (py ":00Z")
           (mk_datetime 2024 3 1 15 4 0 0 (Some 0)));
    [reflexivity | discriminate | reflexivity | reflexivity
    | right; discriminate].
Defined.

(** [build_converts_to_utc] on a creation time two hours ahead of UTC: the
    block carries 15:04 for 17:04+02:00. *)
Lemma build_converts_to_utc_witness :
  let dt := mk_datetime 2024 3 1 17 4 0 0 (Some 7200000000) in
  let block := note_block_text sample_repr sample_ticket (VStr (py "Dana"))
                 (py "2024-03-01 15:04 UTC") (py "Refund agreed") in
  exists u,
    block = note_block_text sample_repr sample_ticket (VStr (py "Dana"))
              (strftime_note sample_year_padded u) (py "Refund agreed")
    /\ valid_datetime u = true
    /\ tzinfo u = Some 0
    /\ to_microseconds u = to_microseconds dt - 7200000000.
Proof.
  intros dt block.
  apply (build_converts_to_utc sample_repr datetime_fromisoformat sample_now
           sample_local_utcoffset sample_year_padded
           datetime_fromisoformat_valid sample_ticket (VStr (py "Dana"))
           (VStr (py "2024-03-01T17:04:00+02:00")) (py "Refund agreed") []
           dt 7200000000 block []);
    vm_compute; reflexivity.
Defined.
